(** * luxfi/pricing: the cache/fetch core and the scoring engine of main.go

    A shallow embedding of [GetPrice], [GetMultiplePrices], [calculateScore]
    and the ordering loop of [handleMarkets], followed by the properties of
    the specification that concern them.

    - Go's [float64] is IEEE 754 binary64, modelled by the Standard Library's
      [spec_float] at precision 53 and maximal exponent 1024: division by
      zero yields an infinity or a NaN, comparisons with a NaN are false.
    - Go's [int] (field [MarketCapRank]) is modelled by [Z]; the code only
      compares it with small constants, so no wrap-around is involved.
    - [time.Time] is a number of nanoseconds ([Z]); [time.Duration] is an
      [int64] number of nanoseconds and [Time.Sub] saturates.
    - the map [pc.prices] is a [gmap string CachedPrice]; the slice sorted in
      [handleMarkets] is a list accessed by index.
    - a request is built only from a URL that [url.Parse] accepts: the two
      fetchers return the error of [http.NewRequestWithContext] before
      anything is sent. *)

From Stdlib Require Import ZArith Lia Permutation Sorted.
From Stdlib Require Import Floats.SpecFloat.
From Stdlib Require Import Ascii.
From stdpp Require Import gmap strings list.

Local Open Scope Z_scope.

(** ** binary64 arithmetic *)

Module F64.

Definition float64 : Type := spec_float.

Definition prec : Z := 53.
Definition emax : Z := 1024.

(** Conversion of an integer constant; exact below 2^53. *)
Definition ofZ (n : Z) : float64 := binary_normalize prec emax n 0 false.

Definition zero : float64 := S754_zero false.

Definition add (x y : float64) : float64 := SFadd prec emax x y.
Definition mul (x y : float64) : float64 := SFmul prec emax x y.
Definition div (x y : float64) : float64 := SFdiv prec emax x y.

(** [x > y] and [x >= y] of Go: false as soon as an operand is a NaN. *)
Definition gtb (x y : float64) : bool :=
  match SFcompare x y with
  | Some Gt => true
  | _ => false
  end.

Definition geb (x y : float64) : bool :=
  match SFcompare x y with
  | Some Gt | Some Eq => true
  | _ => false
  end.

(** The decimal constant [n / d] (such as [0.1 = 1/10]): the binary64 number
    nearest to the quotient, which is what the correctly rounded division of
    the two exactly represented integers yields. *)
Definition lit (n d : Z) : float64 := div (ofZ n) (ofZ d).

Definition is_zero (x : float64) : bool :=
  match x with
  | S754_zero _ => true
  | _ => false
  end.

Definition is_nan (x : float64) : bool :=
  match x with
  | S754_nan => true
  | _ => false
  end.

Definition sign (x : float64) : bool :=
  match x with
  | S754_zero s | S754_infinity s | S754_finite s _ _ => s
  | S754_nan => false
  end.

Definition valid (x : float64) : bool := valid_binary prec emax x.

(** The integer a number denotes, when it denotes one. *)
Definition toZ (x : float64) : option Z :=
  match x with
  | S754_zero _ => Some 0
  | S754_finite s m e =>
      let v := if s then Z.neg m else Z.pos m in
      if 0 <=? e then Some (v * 2 ^ e)
      else if Z.pos m mod 2 ^ (- e) =? 0 then Some (v / 2 ^ (- e))
      else None
  | _ => None
  end.

End F64.

Abbreviation float64 := F64.float64.

#[global] Instance spec_float_eq_dec : EqDecision spec_float.
Proof. solve_decision. Defined.

(** ** Data model *)

(** [time.Time] and [time.Duration], in nanoseconds. *)
Definition Time : Type := Z.
Definition Duration : Type := Z.

Definition minDuration : Duration := - 2 ^ 63.
Definition maxDuration : Duration := 2 ^ 63 - 1.

(** [t.Sub(u)]: the difference, saturated to the range of [Duration]. *)
Definition Time_Sub (t u : Time) : Duration :=
  let d := t - u in
  if d <? minDuration then minDuration
  else if maxDuration <? d then maxDuration
  else d.

Definition Hour : Duration := 3600 * 1000000000.

(** [cacheTTL = 1 * time.Hour] *)
Definition cacheTTL : Duration := 1 * Hour.

(** [CachedPrice]: a single cached price entry. *)
Record CachedPrice : Type := mkCachedPrice {
  cp_Price : float64;
  cp_Currency : string;
  cp_UpdatedAt : Time;
  cp_Change24h : float64;
  cp_MarketCap : float64;
  cp_Volume24h : float64
}.

(** [PriceResponse]: the API response format. *)
Record PriceResponse : Type := mkPriceResponse {
  pr_ID : string;
  pr_Symbol : string;
  pr_Name : string;
  pr_Price : float64;
  pr_Currency : string;
  pr_Change24h : float64;
  pr_MarketCap : float64;
  pr_Volume24h : float64;
  pr_UpdatedAt : Time;
  pr_Cached : bool
}.

(** [MultiPriceResponse] *)
Record MultiPriceResponse : Type := mkMultiPriceResponse {
  mp_Prices : gmap string PriceResponse;
  mp_UpdatedAt : Time
}.

(** [CoinGeckoPrice]: the fields of the provider record that the program
    reads (the others are decoded and never used). *)
Record CoinGeckoPrice : Type := mkCoinGeckoPrice {
  cg_ID : string;
  cg_Symbol : string;
  cg_Name : string;
  cg_Image : string;
  cg_CurrentPrice : float64;
  cg_MarketCap : float64;
  cg_MarketCapRank : Z;
  cg_TotalVolume : float64;
  cg_PriceChangePercentage24h : float64;
  cg_PriceChangePercentage7d : float64;
  cg_CirculatingSupply : float64;
  cg_TotalSupply : float64;
  cg_ATH : float64;
  cg_ATHChangePercentage : float64
}.

(** [StakingData] *)
Record StakingData : Type := mkStakingData {
  sd_APY : float64;
  sd_APYChange7d : float64;
  sd_StakingRatio : float64;
  sd_StakedTokens : float64;
  sd_StakedTokensChange : float64;
  sd_TVL : float64;
  sd_TVLChange7d : float64;
  sd_ValidatorFee : float64;
  sd_MinStake : float64;
  sd_UnbondingDays : Z;
  sd_ValidatorCount : Z
}.

(** [ScoreData]: the breakdown of the asset score. *)
Record ScoreData : Type := mkScoreData {
  MarketScore : float64;
  StakingScore : float64;
  SecurityScore : float64;
  AdoptionScore : float64;
  TechScore : float64
}.

(** ** The scoring engine: [calculateScore] *)

(** Market score, from the market-cap rank. *)
Definition marketScore (rank : Z) : float64 :=
  if (0 <? rank) && (rank <=? 10) then F64.ofZ 25
  else if rank <=? 25 then F64.ofZ 22
  else if rank <=? 50 then F64.ofZ 18
  else if rank <=? 100 then F64.ofZ 14
  else if rank <=? 250 then F64.ofZ 10
  else F64.ofZ 5.

(** Staking score: the zero value of the field when [staking] is [nil]. *)
Definition stakingScore (staking : option StakingData) : float64 :=
  match staking with
  | None => F64.zero
  | Some st =>
      let s :=
        if F64.geb (sd_APY st) (F64.ofZ 10) then F64.ofZ 20
        else if F64.geb (sd_APY st) (F64.ofZ 5) then F64.ofZ 15
        else if F64.geb (sd_APY st) (F64.ofZ 2) then F64.ofZ 10
        else F64.ofZ 5 in
      if F64.geb (sd_StakingRatio st) (F64.ofZ 50) then F64.add s (F64.ofZ 5)
      else s
  end.

(** Security score, from the market capitalisation. *)
Definition securityScore (marketCap : float64) : float64 :=
  if F64.gtb marketCap (F64.ofZ 10000000000) then F64.ofZ 20
  else if F64.gtb marketCap (F64.ofZ 1000000000) then F64.ofZ 16
  else if F64.gtb marketCap (F64.ofZ 100000000) then F64.ofZ 12
  else F64.ofZ 8.

(** Adoption score, from [volumeToMcap := TotalVolume / MarketCap]. *)
Definition adoptionScore (totalVolume marketCap : float64) : float64 :=
  let volumeToMcap := F64.div totalVolume marketCap in
  if F64.gtb volumeToMcap (F64.lit 1 10) then F64.ofZ 15
  else if F64.gtb volumeToMcap (F64.lit 5 100) then F64.ofZ 12
  else if F64.gtb volumeToMcap (F64.lit 1 100) then F64.ofZ 9
  else F64.ofZ 5.

(** Tech score, from the percentage change since the all-time high. *)
Definition techScore (athChange : float64) : float64 :=
  if F64.gtb athChange (F64.ofZ (-20)) then F64.ofZ 15
  else if F64.gtb athChange (F64.ofZ (-50)) then F64.ofZ 12
  else if F64.gtb athChange (F64.ofZ (-80)) then F64.ofZ 8
  else F64.ofZ 4.

Definition calculateScore (price : CoinGeckoPrice) (staking : option StakingData)
  : float64 * ScoreData :=
  let breakdown :=
    {| MarketScore := marketScore (cg_MarketCapRank price);
       StakingScore := stakingScore staking;
       SecurityScore := securityScore (cg_MarketCap price);
       AdoptionScore := adoptionScore (cg_TotalVolume price) (cg_MarketCap price);
       TechScore := techScore (cg_ATHChangePercentage price) |} in
  let total :=
    F64.add (F64.add (F64.add (F64.add (MarketScore breakdown) (StakingScore breakdown))
                              (SecurityScore breakdown))
                     (AdoptionScore breakdown))
            (TechScore breakdown) in
  (total, breakdown).

(** ** The resolver and its world *)

(** The errors the upstream fetcher reports: a URL that does not parse, an
    exchange that fails, a status other than 200, a body that does not
    decode, an empty list. *)
Inductive Error : Type :=
  | ErrParseURL
  | ErrTransport
  | ErrStatus (code : Z)
  | ErrDecode
  | ErrNotFound (tokenID : string).

(** One outbound request to [/coins/markets]: the parameters the URL is
    formatted from. *)
Record Request : Type := mkRequest {
  rq_vs_currency : string;
  rq_ids : string;
  rq_per_page : Z
}.

(** What the HTTP exchange gives back: no response at all, or a status code
    with a body that decodes to a list of records or does not. *)
Inductive HttpReply : Type :=
  | NoReply
  | Reply (status : Z) (body : option (list CoinGeckoPrice)).

(** The surroundings of the program: the readings of the clock, one per call
    of [time.Now], and the provider's answer to the n-th request. *)
Record Env : Type := mkEnv {
  clock : nat -> Time;
  upstream : nat -> Request -> HttpReply
}.

(** The mutable state: the cache [pc.prices], the number of clock readings
    made, the requests sent upstream and the errors handed to [log.Printf]. *)
Record World : Type := mkWorld {
  prices : gmap string CachedPrice;
  ticks : nat;
  sent : list Request;
  logged : list Error
}.

Definition M (A : Type) : Type := Env -> World -> A * World.

Definition ret {A : Type} (a : A) : M A := fun _ w => (a, w).

Definition bind {A B : Type} (m : M A) (k : A -> M B) : M B :=
  fun env w => let (a, w') := m env w in k a env w'.

Notation "'let*' x ':=' m 'in' k" := (bind m (fun x => k))
  (at level 10, x name, m at level 100, k at level 200).

Notation "m ';;' k" := (bind m (fun _ => k))
  (at level 100, k at level 200, right associativity).

(** [time.Now()] *)
Definition Now : M Time :=
  fun env w =>
    (clock env (ticks w),
     {| prices := prices w; ticks := S (ticks w); sent := sent w; logged := logged w |}).

(** [time.Since(t)] is [time.Now().Sub(t)]. *)
Definition Since (t : Time) : M Duration :=
  let* now := Now in ret (Time_Sub now t).

(** [pc.prices[key]] under the read lock. *)
Definition lookupPrice (key : string) : M (option CachedPrice) :=
  fun _ w => (prices w !! key, w).

(** [pc.prices[key] = entry] under the write lock. *)
Definition storePrice (key : string) (entry : CachedPrice) : M unit :=
  fun _ w =>
    (tt, {| prices := <[key := entry]> (prices w); ticks := ticks w;
            sent := sent w; logged := logged w |}).

(** [pc.client.Do(req)] *)
Definition httpGet (rq : Request) : M HttpReply :=
  fun env w =>
    (upstream env (length (sent w)) rq,
     {| prices := prices w; ticks := ticks w; sent := sent w ++ [rq];
        logged := logged w |}).

(** [log.Printf("Error fetching prices: %v", err)] *)
Definition logPrintf (err : Error) : M unit :=
  fun _ w =>
    (tt, {| prices := prices w; ticks := ticks w; sent := sent w;
            logged := logged w ++ [err] |}).

(** A [for ... range] loop threading the loop-carried variables. *)
Fixpoint forRange {A S : Type} (l : list A) (body : S -> A -> M S) (s : S) : M S :=
  match l with
  | [] => ret s
  | x :: l' => let* s' := body s x in forRange l' body s'
  end.

Definition http_StatusOK : Z := 200.

(** [strings.Join] *)
Fixpoint strings_Join (elems : list string) (sep : string) : string :=
  match elems with
  | [] => ""
  | [x] => x
  | x :: rest => x +:+ sep +:+ strings_Join rest sep
  end.

(** [coingeckoProURL], [coingeckoDemoURL] *)
Definition coingeckoProURL : string := "https://pro-api.coingecko.com/api/v3".
Definition coingeckoDemoURL : string := "https://api.coingecko.com/api/v3".

(** *** Building a request

    [http.NewRequestWithContext(ctx, "GET", url, nil)] fails when [url.Parse]
    rejects the URL. Every URL of the program starts with the base URL of
    the provider and [/coins/markets?], so that its scheme, host and path
    parse; what follows comes from the caller, and [url.Parse] rejects it in
    two cases: a control byte before the first [#], or a [%] that is not
    followed by two hexadecimal digits after it (in the fragment). The query
    itself is not looked at. *)

(** A control byte in the sense of [net/url]: below the space, or DEL. *)
Definition isCTL (c : ascii) : bool :=
  ((N_of_ascii c <? 32) || (N_of_ascii c =? 127))%N.

(** [stringContainsCTLByte] of [net/url] *)
Fixpoint stringContainsCTLByte (s : string) : bool :=
  match s with
  | EmptyString => false
  | String c rest => isCTL c || stringContainsCTLByte rest
  end.

(** [ishex] of [net/url] *)
Definition ishex (c : ascii) : bool :=
  let n := N_of_ascii c in
  ((48 <=? n) && (n <=? 57) || (97 <=? n) && (n <=? 102) || (65 <=? n) && (n <=? 70))%N.

(** The test [unescape] of [net/url] makes on a fragment before decoding it:
    every [%] is followed by two hexadecimal digits. *)
Fixpoint escapesOK (s : string) : bool :=
  match s with
  | EmptyString => true
  | String c rest =>
      if Ascii.eqb c "%"
      then
        match rest with
        | String a (String b rest') => ishex a && ishex b && escapesOK rest'
        | _ => false
        end
      else escapesOK rest
  end.

(** [strings.Cut(s, sep)] for a separator of one byte: what precedes and what
    follows the first separator, [s] and the empty string when there is
    none. *)
Fixpoint strings_Cut (s : string) (sep : ascii) : string * string :=
  match s with
  | EmptyString => (EmptyString, EmptyString)
  | String c rest =>
      if Ascii.eqb c sep then (EmptyString, rest)
      else let (before, after) := strings_Cut rest sep in (String c before, after)
  end.

(** [url.Parse(rawURL)] returns no error, for a URL of the provider: the
    fragment is cut off, a control byte in what precedes it is an error, and
    so is a malformed escape in the fragment. *)
Definition url_Parse_ok (rawURL : string) : bool :=
  let (u, frag) := strings_Cut rawURL "#" in
  negb (stringContainsCTLByte u) && escapesOK frag.

(** [http.NewRequestWithContext(ctx, "GET", url, nil)]: the request [req]
    for the URL, or the error of [url.Parse]. *)
Definition http_NewRequestWithContext (url : string) (req : Request) : Request + Error :=
  if url_Parse_ok url then inl req else inr ErrParseURL.

(** The URL of [fetchFromCoinGecko]; [pc.baseURL] is the demo URL, the only
    value [NewPriceCache] gives it. *)
Definition singleURL (baseURL currency tokenID : string) : string :=
  baseURL +:+ "/coins/markets?vs_currency=" +:+ currency +:+ "&ids=" +:+ tokenID
  +:+ "&order=market_cap_desc&per_page=1&page=1&sparkline=false".

(** The URL of [fetchMultipleFromCoinGecko]. *)
Definition batchURL (baseURL currency ids : string) : string :=
  baseURL +:+ "/coins/markets?vs_currency=" +:+ currency +:+ "&ids=" +:+ ids
  +:+ "&order=market_cap_desc&per_page=250&page=1&sparkline=false".

(** [fetchFromCoinGecko]: a single price from the provider. *)
Definition fetchFromCoinGecko (tokenID currency : string) : M (CoinGeckoPrice + Error) :=
  let url := singleURL coingeckoDemoURL currency tokenID in
  match http_NewRequestWithContext url
          {| rq_vs_currency := currency; rq_ids := tokenID; rq_per_page := 1 |} with
  | inr err => ret (inr err)
  | inl req =>
      let* resp := httpGet req in
      match resp with
      | NoReply => ret (inr ErrTransport)
      | Reply status body =>
          if negb (status =? http_StatusOK) then ret (inr (ErrStatus status))
          else
            match body with
            | None => ret (inr ErrDecode)
            | Some [] => ret (inr (ErrNotFound tokenID))
            | Some (p :: _) => ret (inl p)
            end
      end
  end.

(** [fetchMultipleFromCoinGecko]: several prices in one request. *)
Definition fetchMultipleFromCoinGecko (tokenIDs : list string) (currency : string)
  : M (list CoinGeckoPrice + Error) :=
  let ids := strings_Join tokenIDs "," in
  let url := batchURL coingeckoDemoURL currency ids in
  match http_NewRequestWithContext url
          {| rq_vs_currency := currency; rq_ids := ids; rq_per_page := 250 |} with
  | inr err => ret (inr err)
  | inl req =>
      let* resp := httpGet req in
      match resp with
      | NoReply => ret (inr ErrTransport)
      | Reply status body =>
          if negb (status =? http_StatusOK) then ret (inr (ErrStatus status))
          else
            match body with
            | None => ret (inr ErrDecode)
            | Some prices => ret (inl prices)
            end
      end
  end.

(** [fmt.Sprintf("%s:%s", tokenID, currency)] *)
Definition cacheKey (tokenID currency : string) : string :=
  tokenID +:+ ":" +:+ currency.

(** The response built from a cache entry: [Symbol] and [Name] are not set
    and keep the zero value of their type. *)
Definition cachedResponse (id : string) (cached : CachedPrice) : PriceResponse :=
  {| pr_ID := id;
     pr_Symbol := "";
     pr_Name := "";
     pr_Price := cp_Price cached;
     pr_Currency := cp_Currency cached;
     pr_Change24h := cp_Change24h cached;
     pr_MarketCap := cp_MarketCap cached;
     pr_Volume24h := cp_Volume24h cached;
     pr_UpdatedAt := cp_UpdatedAt cached;
     pr_Cached := true |}.

(** The cache entry built from a provider record. *)
Definition freshEntry (p : CoinGeckoPrice) (currency : string) (now : Time) : CachedPrice :=
  {| cp_Price := cg_CurrentPrice p;
     cp_Currency := currency;
     cp_UpdatedAt := now;
     cp_Change24h := cg_PriceChangePercentage24h p;
     cp_MarketCap := cg_MarketCap p;
     cp_Volume24h := cg_TotalVolume p |}.

(** The response built from a provider record. *)
Definition fetchedResponse (id : string) (p : CoinGeckoPrice) (currency : string) (now : Time)
  : PriceResponse :=
  {| pr_ID := id;
     pr_Symbol := cg_Symbol p;
     pr_Name := cg_Name p;
     pr_Price := cg_CurrentPrice p;
     pr_Currency := currency;
     pr_Change24h := cg_PriceChangePercentage24h p;
     pr_MarketCap := cg_MarketCap p;
     pr_Volume24h := cg_TotalVolume p;
     pr_UpdatedAt := now;
     pr_Cached := false |}.

(** [exists && time.Since(cached.UpdatedAt) < cacheTTL]: the clock is read
    only when the entry exists. *)
Definition isFresh (entry : option CachedPrice) : M bool :=
  match entry with
  | None => ret false
  | Some cached => let* age := Since (cp_UpdatedAt cached) in ret (age <? cacheTTL)
  end.

(** [GetPrice]: the price for a token, fetching if the cache expired. *)
Definition GetPrice (tokenID currency : string) : M (PriceResponse + Error) :=
  let key := cacheKey tokenID currency in
  let* entry := lookupPrice key in
  let* fresh := isFresh entry in
  match entry, fresh with
  | Some cached, true => ret (inl (cachedResponse tokenID cached))
  | _, _ =>
      let* fetched := fetchFromCoinGecko tokenID currency in
      match fetched with
      | inr err =>
          match entry with
          | Some cached => ret (inl (cachedResponse tokenID cached))
          | None => ret (inr err)
          end
      | inl price =>
          let* stored := Now in
          storePrice key (freshEntry price currency stored) ;;
          let* answered := Now in
          ret (inl (fetchedResponse tokenID price currency answered))
      end
  end.

(** The first loop of [GetMultiplePrices]: serve from the cache or queue. *)
Definition checkCache (currency : string)
    (acc : gmap string PriceResponse * list string) (id : string)
  : M (gmap string PriceResponse * list string) :=
  let '(respPrices, toFetch) := acc in
  let key := cacheKey id currency in
  let* entry := lookupPrice key in
  let* fresh := isFresh entry in
  match entry, fresh with
  | Some cached, true => ret (<[id := cachedResponse id cached]> respPrices, toFetch)
  | _, _ => ret (respPrices, toFetch ++ [id])
  end.

(** The second loop of [GetMultiplePrices]: write back and answer. *)
Definition writeBack (currency : string)
    (respPrices : gmap string PriceResponse) (p : CoinGeckoPrice)
  : M (gmap string PriceResponse) :=
  let key := cacheKey (cg_ID p) currency in
  let* stored := Now in
  storePrice key (freshEntry p currency stored) ;;
  let* answered := Now in
  ret (<[cg_ID p := fetchedResponse (cg_ID p) p currency answered]> respPrices).

(** [GetMultiplePrices]: prices for several tokens. *)
Definition GetMultiplePrices (tokenIDs : list string) (currency : string)
  : M (MultiPriceResponse + Error) :=
  let* started := Now in
  let* checked := forRange tokenIDs (checkCache currency) (∅, []) in
  let '(respPrices, toFetch) := checked in
  let* respPrices' :=
    if (0 <? Z.of_nat (length toFetch))
    then
      let* fetched := fetchMultipleFromCoinGecko toFetch currency in
      match fetched with
      | inr err => logPrintf err ;; ret respPrices
      | inl ps => forRange ps (writeBack currency) respPrices
      end
    else ret respPrices in
  ret (inl {| mp_Prices := respPrices'; mp_UpdatedAt := started |}).

(** ** The market listing: [handleMarkets] *)

(** An entry of the static table: the literal sets five fields, the others
    keep their zero value. *)
Definition staticEntry (apy ratio fee : float64) (unbondingDays : Z) (minStake : float64)
  : StakingData :=
  {| sd_APY := apy;
     sd_APYChange7d := F64.zero;
     sd_StakingRatio := ratio;
     sd_StakedTokens := F64.zero;
     sd_StakedTokensChange := F64.zero;
     sd_TVL := F64.zero;
     sd_TVLChange7d := F64.zero;
     sd_ValidatorFee := fee;
     sd_MinStake := minStake;
     sd_UnbondingDays := unbondingDays;
     sd_ValidatorCount := 0 |}.

(** [stakingDataCache]: the static reference dataset. *)
Definition stakingDataCache : gmap string StakingData :=
  list_to_map [
  ("ethereum", staticEntry (F64.lit 313 100) (F64.lit 3046 100) (F64.ofZ 0) 27 (F64.ofZ 32));
  ("solana", staticEntry (F64.lit 615 100) (F64.lit 6865 100) (F64.ofZ 8) 3 (F64.lit 1 100));
  ("binancecoin", staticEntry (F64.lit 501 100) (F64.lit 1845 100) (F64.ofZ 0) 7 (F64.ofZ 1));
  ("cardano", staticEntry (F64.lit 228 100) (F64.lit 5813 100) (F64.ofZ 2) 20 (F64.ofZ 10));
  ("avalanche-2", staticEntry (F64.lit 700 100) (F64.lit 4838 100) (F64.ofZ 2) 14 (F64.ofZ 25));
  ("polkadot", staticEntry (F64.lit 1168 100) (F64.lit 5259 100) (F64.ofZ 10) 28 (F64.ofZ 120));
  ("cosmos", staticEntry (F64.lit 2021 100) (F64.lit 6102 100) (F64.ofZ 5) 21 (F64.lit 1 100));
  ("near", staticEntry (F64.lit 447 100) (F64.lit 4720 100) (F64.ofZ 0) 2 (F64.lit 1 100));
  ("aptos", staticEntry (F64.lit 700 100) (F64.lit 9673 100) (F64.ofZ 0) 30 (F64.ofZ 10));
  ("sui", staticEntry (F64.lit 175 100) (F64.lit 7445 100) (F64.ofZ 2) 0 (F64.ofZ 1));
  ("celestia", staticEntry (F64.lit 645 100) (F64.lit 3549 100) (F64.ofZ 5) 21 (F64.lit 1 100));
  ("injective-protocol", staticEntry (F64.lit 657 100) (F64.lit 5571 100) (F64.ofZ 5) 21 (F64.lit 1 100));
  ("sei-network", staticEntry (F64.lit 739 100) (F64.lit 3636 100) (F64.ofZ 5) 21 (F64.lit 1 100));
  ("the-open-network", staticEntry (F64.lit 399 100) (F64.lit 678 100) (F64.ofZ 0) 36 (F64.ofZ 10000));
  ("hedera-hashgraph", staticEntry (F64.lit 250 100) (F64.lit 3187 100) (F64.ofZ 0) 0 (F64.ofZ 0));
  ("filecoin", staticEntry (F64.lit 1224 100) (F64.lit 129 100) (F64.ofZ 0) 0 (F64.ofZ 0));
  ("fantom", staticEntry (F64.lit 400 100) (F64.lit 4000 100) (F64.ofZ 15) 7 (F64.ofZ 1));
  ("crypto-com-chain", staticEntry (F64.lit 179 100) (F64.lit 1344 100) (F64.ofZ 0) 28 (F64.ofZ 5000));
  ("moonbeam", staticEntry (F64.lit 5694 100) (F64.lit 2213 100) (F64.ofZ 20) 7 (F64.ofZ 50));
  ("kava", staticEntry (F64.lit 988 100) (F64.lit 934 100) (F64.ofZ 5) 21 (F64.lit 1 100));
  ("osmosis", staticEntry (F64.lit 195 100) (F64.lit 3494 100) (F64.ofZ 5) 14 (F64.lit 1 100));
  ("secret", staticEntry (F64.lit 2400 100) (F64.lit 4211 100) (F64.ofZ 5) 21 (F64.lit 1 100));
  ("akash-network", staticEntry (F64.lit 1074 100) (F64.lit 3780 100) (F64.ofZ 5) 21 (F64.lit 1 100));
  ("starknet", staticEntry (F64.lit 883 100) (F64.lit 2186 100) (F64.ofZ 0) 21 (F64.ofZ 20000));
  ("dydx-chain", staticEntry (F64.lit 274 100) (F64.lit 2248 100) (F64.ofZ 5) 30 (F64.lit 1 100));
  ("axelar", staticEntry (F64.lit 1049 100) (F64.lit 3631 100) (F64.ofZ 5) 7 (F64.lit 1 100));
  ("band-protocol", staticEntry (F64.lit 1845 100) (F64.lit 5292 100) (F64.ofZ 3) 21 (F64.lit 1 100));
  ("livepeer", staticEntry (F64.lit 5105 100) (F64.lit 5358 100) (F64.ofZ 0) 7 (F64.lit 1 100));
  ("radix", staticEntry (F64.lit 677 100) (F64.lit 3320 100) (F64.ofZ 2) 14 (F64.lit 1 100));
  ("waves", staticEntry (F64.lit 509 100) (F64.lit 1744 100) (F64.ofZ 0) 0 (F64.lit 1 100));
  ("casper-network", staticEntry (F64.lit 1674 100) (F64.lit 4947 100) (F64.ofZ 5) 14 (F64.ofZ 500));
  ("tron", staticEntry (F64.lit 325 100) (F64.lit 4648 100) (F64.ofZ 0) 14 (F64.lit 1 100));
  ("bittensor", staticEntry (F64.lit 1473 100) (F64.lit 7622 100) (F64.ofZ 18) 0 (F64.lit 1 100));
  ("elrond-erd-2", staticEntry (F64.lit 861 100) (F64.lit 4865 100) (F64.ofZ 0) 10 (F64.ofZ 1));
  ("iota", staticEntry (F64.lit 1155 100) (F64.lit 5053 100) (F64.ofZ 0) 0 (F64.ofZ 0));
  ("blockstack", staticEntry (F64.lit 970 100) (F64.lit 2958 100) (F64.ofZ 0) 14 (F64.ofZ 90));
  ("fetch-ai", staticEntry (F64.lit 546 100) (F64.lit 2212 100) (F64.ofZ 5) 21 (F64.lit 1 100));
  ("zetachain", staticEntry (F64.lit 698 100) (F64.lit 2752 100) (F64.ofZ 5) 21 (F64.lit 1 100));
  ("skale", staticEntry (F64.lit 1000 100) (F64.lit 3237 100) (F64.ofZ 0) 7 (F64.lit 1 100));
  ("tezos", staticEntry (F64.lit 851 100) (F64.lit 5880 100) (F64.ofZ 5) 0 (F64.ofZ 1));
  ("algorand", staticEntry (F64.lit 495 100) (F64.lit 2252 100) (F64.ofZ 0) 0 (F64.lit 1 100));
  ("harmony", staticEntry (F64.lit 1210 100) (F64.lit 2015 100) (F64.ofZ 5) 7 (F64.ofZ 100))
  ].

(** [MarketAsset], without [Symbol] (the upper-cased provider symbol) and
    [UpdatedAt] (the time of construction), which play no part in scoring or
    ordering. *)
Record MarketAsset : Type := mkMarketAsset {
  ma_ID : string;
  ma_Name : string;
  ma_Image : string;
  ma_Price : float64;
  ma_PriceChange24h : float64;
  ma_PriceChange7d : float64;
  ma_MarketCap : float64;
  ma_MarketCapRank : Z;
  ma_Volume24h : float64;
  ma_CirculatingSupply : float64;
  ma_TotalSupply : float64;
  ma_ATH : float64;
  ma_ATHChangePercentage : float64;
  ma_Staking : option StakingData;
  ma_Score : float64;
  ma_ScoreBreakdown : ScoreData
}.

(** The staking block of an asset: staked tokens and total value locked are
    derived from the circulating supply, the staking ratio and the price. *)
Definition deriveStaking (p : CoinGeckoPrice) (staking : StakingData) : StakingData :=
  let stakedTokens :=
    F64.mul (cg_CirculatingSupply p) (F64.div (sd_StakingRatio staking) (F64.ofZ 100)) in
  let tvl := F64.mul stakedTokens (cg_CurrentPrice p) in
  {| sd_APY := sd_APY staking;
     sd_APYChange7d := F64.zero;
     sd_StakingRatio := sd_StakingRatio staking;
     sd_StakedTokens := stakedTokens;
     sd_StakedTokensChange := F64.zero;
     sd_TVL := tvl;
     sd_TVLChange7d := F64.zero;
     sd_ValidatorFee := sd_ValidatorFee staking;
     sd_MinStake := sd_MinStake staking;
     sd_UnbondingDays := sd_UnbondingDays staking;
     sd_ValidatorCount := 0 |}.

(** The body of the loop over the fetched records. *)
Definition buildAsset (table : gmap string StakingData) (p : CoinGeckoPrice) : MarketAsset :=
  let staking := table !! cg_ID p in
  let stakingData := deriveStaking p <$> staking in
  let '(score, breakdown) := calculateScore p staking in
  {| ma_ID := cg_ID p;
     ma_Name := cg_Name p;
     ma_Image := cg_Image p;
     ma_Price := cg_CurrentPrice p;
     ma_PriceChange24h := cg_PriceChangePercentage24h p;
     ma_PriceChange7d := cg_PriceChangePercentage7d p;
     ma_MarketCap := cg_MarketCap p;
     ma_MarketCapRank := cg_MarketCapRank p;
     ma_Volume24h := cg_TotalVolume p;
     ma_CirculatingSupply := cg_CirculatingSupply p;
     ma_TotalSupply := cg_TotalSupply p;
     ma_ATH := cg_ATH p;
     ma_ATHChangePercentage := cg_ATHChangePercentage p;
     ma_Staking := stakingData;
     ma_Score := score;
     ma_ScoreBreakdown := breakdown |}.

(** The body of the inner loop: exchange [assets[i]] and [assets[j]] when the
    later one has the greater score. An index out of range is a run-time
    panic, modelled by [None]. *)
Definition exchangeIfGreater (i j : nat) (assets : list MarketAsset)
  : option (list MarketAsset) :=
  aj ← assets !! j;
  ai ← assets !! i;
  if F64.gtb (ma_Score aj) (ma_Score ai)
  then Some (<[j := ai]> (<[i := aj]> assets))
  else Some assets.

(** [for j := i + 1; j < len(assets); j++] *)
Definition innerLoop (i : nat) (assets : list MarketAsset) : option (list MarketAsset) :=
  foldl (fun acc j => acc ≫= exchangeIfGreater i j) (Some assets)
        (seq (i + 1) (length assets - (i + 1))).

(** [for i := 0; i < len(assets)-1; i++] *)
Definition sortByScore (assets : list MarketAsset) : option (list MarketAsset) :=
  foldl (fun acc i => acc ≫= innerLoop i) (Some assets)
        (seq 0 (length assets - 1)).

(** The asset list of [handleMarkets], from the decoded provider records. *)
Definition marketAssets (cgPrices : list CoinGeckoPrice) : option (list MarketAsset) :=
  sortByScore (buildAsset stakingDataCache <$> cgPrices).

(** ** [calculateScore] as the program calls it: through pointers *)

(** A pointer is an address or [nil]. *)
Definition Ptr : Type := option nat.

(** The program state a call can reach: the provider records and the staking
    entries stored at some address (the values of [stakingDataCache] among
    them) and the price cache. *)
Record Memory : Type := mkMemory {
  mem_prices : gmap nat CoinGeckoPrice;
  mem_staking : gmap nat StakingData;
  mem_cache : gmap string CachedPrice
}.

(** A computation on the memory; [None] is a nil-pointer panic. *)
Definition Exec (A : Type) : Type := Memory -> option (A * Memory).

Definition loadPrice (p : Ptr) : Exec CoinGeckoPrice :=
  fun m => a ← p; v ← mem_prices m !! a; Some (v, m).

Definition loadStaking (p : Ptr) : Exec StakingData :=
  fun m => a ← p; v ← mem_staking m !! a; Some (v, m).

(** [calculateScore(price *CoinGeckoPrice, staking *StakingData)]: [price] is
    dereferenced without a test, [staking] only if it is not [nil]; the
    breakdown is a local variable, returned by value. *)
Definition calculateScore_call (price staking : Ptr) : Exec (float64 * ScoreData) :=
  fun m =>
    '(p, m1) ← loadPrice price m;
    match staking with
    | None => Some (calculateScore p None, m1)
    | Some _ =>
        '(st, m2) ← loadStaking staking m1;
        Some (calculateScore p (Some st), m2)
    end.

(** ** Vocabulary of the properties *)

(** The world after one reading of the clock. *)
Definition tick (w : World) : World :=
  {| prices := prices w; ticks := S (ticks w); sent := sent w; logged := logged w |}.

(** The entry [c] passes the freshness test at the n-th reading of the clock. *)
Definition freshAt (env : Env) (n : nat) (c : CachedPrice) : Prop :=
  clock env n - cp_UpdatedAt c < cacheTTL.

(** The number of clock readings the first loop of a batch lookup makes over
    [ids]: one for each identifier that has a cache entry. *)
Fixpoint clockReads (cache : gmap string CachedPrice) (currency : string)
    (ids : list string) : nat :=
  match ids with
  | [] => 0
  | id :: rest =>
      match cache !! cacheKey id currency with
      | Some _ => S (clockReads cache currency rest)
      | None => clockReads cache currency rest
      end
  end.

(** The reading of the clock at which the k-th identifier of a batch lookup
    started in world [w] is tested: after the reading that stamps the
    response and those made for the identifiers before it. *)
Definition checkedAt (w : World) (currency : string) (tokenIDs : list string) (k : nat)
  : nat :=
  ticks w + 1 + clockReads (prices w) currency (take k tokenIDs).

(** The identifier [id] is servable from fresh cache in a batch lookup: at
    one of its positions in the batch its entry [c] passes the freshness
    test. *)
Definition servedFresh (env : Env) (w : World) (currency : string)
    (tokenIDs : list string) (id : string) (c : CachedPrice) : Prop :=
  exists k : nat,
    tokenIDs !! k = Some id
    /\ prices w !! cacheKey id currency = Some c
    /\ freshAt env (checkedAt w currency tokenIDs k) c.

(** The identifiers a batch lookup started in world [w] queues for the
    fetch: the second component of what its first loop returns. *)
Definition toFetchOf (env : Env) (w : World) (currency : string) (tokenIDs : list string)
  : list string :=
  (fst (forRange tokenIDs (checkCache currency) (∅, []) env (tick w))).2.

(** The k-th identifier of a batch lookup needs the fetch: it has no entry,
    or its entry fails the freshness test made for this occurrence. *)
Definition needsFetch (env : Env) (w : World) (currency : string)
    (tokenIDs : list string) (k : nat) (id : string) : Prop :=
  tokenIDs !! k = Some id
  /\ forall c, prices w !! cacheKey id currency = Some c ->
               ~ freshAt env (checkedAt w currency tokenIDs k) c.

(** A response flagged as cached carries neither symbol nor name. *)
Definition fromCacheShape (r : PriceResponse) : Prop :=
  pr_Cached r = true -> pr_Symbol r = "" /\ pr_Name r = "".

(** What a [*StakingData] refers to in a memory. *)
Definition pointsToStaking (m : Memory) (staking : Ptr) (st : option StakingData) : Prop :=
  match staking with
  | None => st = None
  | Some a => exists v, mem_staking m !! a = Some v /\ st = Some v
  end.

(** The market score as the specification words it: rank in [1,10] gives 25,
    (10,25] gives 22, (25,50] gives 18, (50,100] gives 14, (100,250] gives 10,
    anything else 5. *)
Definition marketScore_spec (rank : Z) : float64 :=
  if (1 <=? rank) && (rank <=? 10) then F64.ofZ 25
  else if (10 <? rank) && (rank <=? 25) then F64.ofZ 22
  else if (25 <? rank) && (rank <=? 50) then F64.ofZ 18
  else if (50 <? rank) && (rank <=? 100) then F64.ofZ 14
  else if (100 <? rank) && (rank <=? 250) then F64.ofZ 10
  else F64.ofZ 5.

(** The five sub-scores sum without rounding to an integer between 22 and
    100: the check run on every combination of bracket values. *)
Definition sumOK (m s se a t : float64) : bool :=
  match F64.toZ m, F64.toZ s, F64.toZ se, F64.toZ a, F64.toZ t,
        F64.toZ (F64.add (F64.add (F64.add (F64.add m s) se) a) t) with
  | Some zm, Some zs, Some zse, Some za, Some zt, Some total =>
      (total =? zm + zs + zse + za + zt) && (22 <=? total) && (total <=? 100)
  | _, _, _, _, _, _ => false
  end.

(** The totals [calculateScore] can return, as integers. *)
Definition totals : list Z := seqZ 22 79.

(** The sum of five sub-scores is one of these totals. *)
Definition totalOK (m s se a t : float64) : bool :=
  bool_decide (F64.add (F64.add (F64.add (F64.add m s) se) a) t ∈ (F64.ofZ <$> totals)).

Definition scored (a : MarketAsset) : Prop := ma_Score a ∈ (F64.ofZ <$> totals).

Definition scoreValue (a : MarketAsset) : Z := default 0 (F64.toZ (ma_Score a)).

(** [x] may stand before [y] in a list in descending order of score. *)
Definition byScoreDesc (x y : MarketAsset) : Prop :=
  F64.geb (ma_Score x) (ma_Score y) = true.

(** Assets of equal score keep in [output] the order they have in [input]. *)
Definition stableOrder (input output : list MarketAsset) : Prop :=
  forall i j x y,
    (i < j)%nat -> input !! i = Some x -> input !! j = Some y ->
    ma_Score x = ma_Score y ->
    exists i' j', (i' < j')%nat /\ output !! i' = Some x /\ output !! j' = Some y.

(** The state of the slice before the exchange at [j] of the pass at [i]. *)
Record passInv (l0 a : list MarketAsset) (i j : nat) : Prop := {
  pass_perm : a ≡ₚ l0;
  pass_best : forall k x y, (i < k < j)%nat -> a !! k = Some x -> a !! i = Some y ->
              scoreValue x <= scoreValue y;
  pass_done : forall p q x y, (p < i)%nat -> (p < q)%nat ->
              a !! p = Some x -> a !! q = Some y -> scoreValue y <= scoreValue x
}.

(** The state of the slice before the pass at [i]. *)
Record sortInv (l0 a : list MarketAsset) (i : nat) : Prop := {
  sort_perm : a ≡ₚ l0;
  sort_done : forall p q x y, (p < i)%nat -> (p < q)%nat ->
              a !! p = Some x -> a !! q = Some y -> scoreValue y <= scoreValue x
}.

(** ** Sample inputs *)

(** A provider record with the given scoring inputs; the other fields are
    zero or empty. *)
Definition record (id : string) (rank : Z) (marketCap volume athChange : float64)
  : CoinGeckoPrice :=
  {| cg_ID := id; cg_Symbol := ""; cg_Name := ""; cg_Image := "";
     cg_CurrentPrice := F64.zero; cg_MarketCap := marketCap; cg_MarketCapRank := rank;
     cg_TotalVolume := volume; cg_PriceChangePercentage24h := F64.zero;
     cg_PriceChangePercentage7d := F64.zero; cg_CirculatingSupply := F64.zero;
     cg_TotalSupply := F64.zero; cg_ATH := F64.zero; cg_ATHChangePercentage := athChange |}.

(** Three fetched records: the first two score 76, the third 91. *)
Definition fetched : list CoinGeckoPrice :=
  [ record "ethereum" 2 (F64.ofZ 400000000000) (F64.ofZ 8000000000) (F64.ofZ (-30));
    record "tron" 9 (F64.ofZ 20000000000) (F64.ofZ 400000000) (F64.ofZ (-30));
    record "cosmos" 10 (F64.ofZ 20000000000) (F64.ofZ 400000000) (F64.ofZ (-30)) ].

Definition minute : Duration := 60 * 1000000000.

(** A cache entry written at time [t]. *)
Definition entryAt (t : Time) : CachedPrice :=
  {| cp_Price := F64.ofZ 97234; cp_Currency := "usd"; cp_UpdatedAt := t;
     cp_Change24h := F64.ofZ 2; cp_MarketCap := F64.ofZ 1923456789012;
     cp_Volume24h := F64.ofZ 45678901234 |}.

(** A cache holding bitcoin, written at time 0, and ethereum, written two
    hours earlier. *)
Definition sampleWorld : World :=
  {| prices := <["bitcoin:usd" := entryAt 0]> (<["ethereum:usd" := entryAt (- 120 * minute)]> ∅);
     ticks := 0; sent := []; logged := [] |}.

(** The clock stands at [t] and the provider cannot be reached. *)
Definition offlineAt (t : Time) : Env :=
  {| clock := fun _ => t; upstream := fun _ _ => NoReply |}.

(** The provider cannot be reached, and the clock passes from 59 to 61
    minutes between its second and its third reading. *)
Definition hourPassing : Env :=
  {| clock := fun n => if (n <? 2)%nat then 59 * minute else 61 * minute;
     upstream := fun _ _ => NoReply |}.

(** An identifier made of a line feed. *)
Definition lineFeed : string := String "010" EmptyString.

Definition cosmosRecord : CoinGeckoPrice :=
  record "cosmos" 10 (F64.ofZ 20000000000) (F64.ofZ 400000000) (F64.ofZ (-30)).

Definition cosmosEntry : StakingData :=
  staticEntry (F64.lit 2021 100) (F64.lit 6102 100) (F64.ofZ 5) 21 (F64.lit 1 100).

(** A memory with one provider record and one staking entry. *)
Definition sampleMemory : Memory :=
  {| mem_prices := {[ 0%nat := cosmosRecord ]};
     mem_staking := {[ 0%nat := cosmosEntry ]};
     mem_cache := ∅ |}.

(** ** The HTTP handlers *)

(** [strings.Split(s, sep)] for a separator of one byte, the only kind the
    program uses: the pieces of [s] between the separators, [s] alone when it
    holds none. *)
Fixpoint strings_Split (s : string) (sep : ascii) : list string :=
  match s with
  | EmptyString => [EmptyString]
  | String c rest =>
      if Ascii.eqb c sep then EmptyString :: strings_Split rest sep
      else
        match strings_Split rest sep with
        | piece :: pieces => String c piece :: pieces
        | [] => [String c EmptyString]
        end
  end.

(** [strings.HasPrefix], [strings.HasSuffix] *)
Definition strings_HasPrefix (s prefix : string) : bool := String.prefix prefix s.

Definition strings_HasSuffix (s suffix : string) : bool :=
  (String.length suffix <=? String.length s)%nat
  && String.eqb (String.substring (String.length s - String.length suffix)
                                  (String.length suffix) s) suffix.

(** [strings.TrimPrefix]: [s] without the leading [prefix], or [s] itself. *)
Definition strings_TrimPrefix (s prefix : string) : string :=
  if strings_HasPrefix s prefix
  then String.substring (String.length prefix) (String.length s - String.length prefix) s
  else s.

(** [strings.TrimSuffix]: [s] without the trailing [suffix], or [s] itself. *)
Definition strings_TrimSuffix (s suffix : string) : string :=
  if strings_HasSuffix s suffix
  then String.substring 0 (String.length s - String.length suffix) s
  else s.

(** What the handlers read of a request: the path and the query parameters
    ([r.URL.Query().Get] gives the empty string for a missing parameter). *)
Record HttpRequest : Type := mkHttpRequest {
  hr_path : string;
  hr_query : gmap string string
}.

Definition Query_Get (r : HttpRequest) (key : string) : string :=
  default EmptyString (hr_query r !! key).

(** The message of an error response. *)
Inductive ErrorMessage : Type :=
  | TokenIDRequired
  | IdsRequired
  | ErrorText (err : Error).

(** The value a handler encodes in the body of its response. *)
Inductive ResponseBody : Type :=
  | BodyError (message : ErrorMessage)
  | BodyPrice (price : PriceResponse)
  | BodyPrices (prices : MultiPriceResponse)
  | BodySimple (result : gmap string (gmap string float64))
  | BodyMarkets (assets : list MarketAsset) (count : nat) (updated_at : Time).

(** A response: the status code, the [Cache-Control] header (empty when the
    handler does not set it) and the body. *)
Record HttpResponse : Type := mkHttpResponse {
  rs_status : Z;
  rs_cache_control : string;
  rs_body : ResponseBody
}.

Definition http_StatusBadRequest : Z := 400.
Definition http_StatusNotFound : Z := 404.

(** [http.Error(w, message, code)] *)
Definition http_Error (message : ErrorMessage) (code : Z) : HttpResponse :=
  {| rs_status := code; rs_cache_control := EmptyString; rs_body := BodyError message |}.

(** A JSON answer with the given [Cache-Control] header and the implicit
    status 200. *)
Definition jsonOK (cacheControl : string) (body : ResponseBody) : HttpResponse :=
  {| rs_status := http_StatusOK; rs_cache_control := cacheControl; rs_body := body |}.

(** The currency of a request: the query parameter, [usd] when it is empty. *)
Definition orUSD (value : string) : string :=
  if String.eqb value EmptyString then "usd" else value.

(** The token identifier of a [/price/{token_id}] path. *)
Definition pathTokenID (path : string) : string :=
  strings_TrimSuffix (strings_TrimPrefix path "/price/") "/".

(** [handlePrice]: the price of a single token. *)
Definition handlePrice (r : HttpRequest) : M HttpResponse :=
  let tokenID := pathTokenID (hr_path r) in
  if String.eqb tokenID EmptyString
  then ret (http_Error TokenIDRequired http_StatusBadRequest)
  else
    let currency := orUSD (Query_Get r "currency") in
    let* result := GetPrice tokenID currency in
    match result with
    | inr err => ret (http_Error (ErrorText err) http_StatusNotFound)
    | inl price => ret (jsonOK "public, max-age=3600" (BodyPrice price))
    end.


(** [result[id][currency] = p.Price], creating [result[id]] when it is nil. *)
Definition recordPrice (currency : string) (id : string) (p : PriceResponse)
    (result : gmap string (gmap string float64)) : gmap string (gmap string float64) :=
  <[id := <[currency := pr_Price p]> (default ∅ (result !! id))]> result.

(** The body of the loop of [handleSimplePrice] over the currencies. The
    error of [GetMultiplePrices] is discarded and the response dereferenced:
    a nil response is a run-time panic, modelled by [None]. The inner loop
    ranges over the map of the response, in an order the language leaves
    open. *)
Definition simplePriceStep (tokenIDs : list string)
    (acc : option (gmap string (gmap string float64))) (currency : string)
  : M (option (gmap string (gmap string float64))) :=
  match acc with
  | None => ret None
  | Some result =>
      let* answer := GetMultiplePrices tokenIDs currency in
      match answer with
      | inr _ => ret None
      | inl prices => ret (Some (map_fold (recordPrice currency) result (mp_Prices prices)))
      end
  end.

(** [handleSimplePrice]: the price map in the provider's own format. *)
Definition handleSimplePrice (r : HttpRequest) : M (option HttpResponse) :=
  let ids := Query_Get r "ids" in
  if String.eqb ids EmptyString
  then ret (Some (http_Error IdsRequired http_StatusBadRequest))
  else
    let vsCurrencies := orUSD (Query_Get r "vs_currencies") in
    let tokenIDs := strings_Split ids "," in
    let currencies := strings_Split vsCurrencies "," in
    let* result := forRange currencies (simplePriceStep tokenIDs) (Some ∅) in
    ret (jsonOK "public, max-age=3600" <$> (BodySimple <$> result)).


(** The configuration of a [PriceCache]: the fields beside the map. *)
Record PriceCacheConfig : Type := mkPriceCacheConfig {
  pc_apiKey : string;
  pc_baseURL : string
}.

(** [NewPriceCache]: the configuration and the initial state. *)
Definition NewPriceCache (apiKey : string) : PriceCacheConfig * World :=
  let baseURL := coingeckoDemoURL in
  let baseURL :=
    if negb (String.eqb apiKey EmptyString) && strings_HasPrefix apiKey "CG-"
       && (10 <? Z.of_nat (String.length apiKey))
    then coingeckoDemoURL
    else baseURL in
  ({| pc_apiKey := apiKey; pc_baseURL := baseURL |},
   {| prices := ∅; ticks := 0; sent := []; logged := [] |}).

(** ** The requests of the two fetchers and their effect on the world *)

(** The request [fetchFromCoinGecko] sends. *)
Definition singleRequest (tokenID currency : string) : Request :=
  {| rq_vs_currency := currency; rq_ids := tokenID; rq_per_page := 1 |}.

(** The request [fetchMultipleFromCoinGecko] sends. *)
Definition batchRequest (tokenIDs : list string) (currency : string) : Request :=
  {| rq_vs_currency := currency; rq_ids := strings_Join tokenIDs ","; rq_per_page := 250 |}.

(** The world after a request has been sent. *)
Definition sending (rq : Request) (w : World) : World :=
  {| prices := prices w; ticks := ticks w; sent := sent w ++ [rq]; logged := logged w |}.

(** The world after an error has been logged. *)
Definition logging (err : Error) (w : World) : World :=
  {| prices := prices w; ticks := ticks w; sent := sent w; logged := logged w ++ [err] |}.

(** The first reading of the clock after the freshness test of a key: the
    test reads the clock only when the key has an entry. *)
Definition readingAfterTest (w : World) (key : string) : nat :=
  match prices w !! key with
  | Some _ => S (ticks w)
  | None => ticks w
  end.

(** The byte [c] occurs in [s]. *)
Fixpoint containsByte (c : ascii) (s : string) : bool :=
  match s with
  | EmptyString => false
  | String a rest => Ascii.eqb a c || containsByte c rest
  end.

(** A text without control byte and without [#]: put in a URL of the
    provider it leaves the URL well formed. *)
Definition plainText (s : string) : bool :=
  negb (stringContainsCTLByte s) && negb (containsByte "#" s).

(** The reading of the clock at which the second loop of a batch lookup
    started in world [w] begins: after the reading that stamps the response
    and those of the first loop. *)
Definition writeBackAt (w : World) (currency : string) (tokenIDs : list string) : nat :=
  ticks w + 1 + clockReads (prices w) currency tokenIDs.

(** With a staking score [s] the total is the total without a staking entry
    plus [s], and without one it is at most 75: the check run on every
    combination of bracket values. *)
Definition stakingGainOK (m s se a t : float64) : bool :=
  match F64.toZ s,
        F64.toZ (F64.add (F64.add (F64.add (F64.add m F64.zero) se) a) t),
        F64.toZ (F64.add (F64.add (F64.add (F64.add m s) se) a) t) with
  | Some zs, Some z0, Some z1 => (z1 =? z0 + zs) && (z0 <=? 75)
  | _, _, _ => false
  end.

(** The clock stands at [t] and the provider answers every request with the
    records [ps]. *)
Definition onlineAt (t : Time) (ps : list CoinGeckoPrice) : Env :=
  {| clock := fun _ => t; upstream := fun _ _ => Reply 200 (Some ps) |}.

(** A request for the price of bitcoin, without a currency. *)
Definition bitcoinRequest : HttpRequest :=
  {| hr_path := "/price/bitcoin"; hr_query := ∅ |}.


(** A request in the provider's own format. *)
Definition simpleQuery : HttpRequest :=
  {| hr_path := "/simple/price";
     hr_query := <["ids" := "cosmos"]> (<["vs_currencies" := "usd"]> ∅) |}.

(** * Properties *)

(** ** Scoring *)

Ltac case_ifs :=
  repeat match goal with
         | |- context [if ?b then _ else _] => destruct b
         end.

Ltac case_Z_tests :=
  repeat match goal with
         | |- context [?a <? ?b] => destruct (Z.ltb_spec a b)
         | |- context [?a <=? ?b] => destruct (Z.leb_spec a b)
         end.

(** Every sub-score is one of the values of its brackets. *)

Lemma marketScore_cases (rank : Z) :
  marketScore rank ∈ [F64.ofZ 25; F64.ofZ 22; F64.ofZ 18; F64.ofZ 14; F64.ofZ 10; F64.ofZ 5].
Proof. unfold marketScore. case_ifs; set_solver. Qed.

Lemma stakingScore_cases (staking : option StakingData) :
  stakingScore staking
  ∈ [F64.ofZ 0; F64.ofZ 5; F64.ofZ 10; F64.ofZ 15; F64.ofZ 20; F64.ofZ 25].
Proof.
  unfold stakingScore. destruct staking as [st|]; [|set_solver].
  case_ifs; vm_compute; set_solver.
Qed.

Lemma securityScore_cases (marketCap : float64) :
  securityScore marketCap ∈ [F64.ofZ 20; F64.ofZ 16; F64.ofZ 12; F64.ofZ 8].
Proof. unfold securityScore. case_ifs; set_solver. Qed.

Lemma adoptionScore_cases (volume marketCap : float64) :
  adoptionScore volume marketCap ∈ [F64.ofZ 15; F64.ofZ 12; F64.ofZ 9; F64.ofZ 5].
Proof. unfold adoptionScore. cbv zeta. case_ifs; set_solver. Qed.

Lemma techScore_cases (athChange : float64) :
  techScore athChange ∈ [F64.ofZ 15; F64.ofZ 12; F64.ofZ 8; F64.ofZ 4].
Proof. unfold techScore. case_ifs; set_solver. Qed.

(** A property decided on every combination of bracket values holds of the
    sub-scores of any input. *)
Lemma all_brackets (check : float64 -> float64 -> float64 -> float64 -> float64 -> bool) :
  forallb (fun m => forallb (fun s => forallb (fun se => forallb (fun a =>
    forallb (fun t => check m s se a t)
      [F64.ofZ 15; F64.ofZ 12; F64.ofZ 8; F64.ofZ 4])
      [F64.ofZ 15; F64.ofZ 12; F64.ofZ 9; F64.ofZ 5])
      [F64.ofZ 20; F64.ofZ 16; F64.ofZ 12; F64.ofZ 8])
      [F64.ofZ 0; F64.ofZ 5; F64.ofZ 10; F64.ofZ 15; F64.ofZ 20; F64.ofZ 25])
      [F64.ofZ 25; F64.ofZ 22; F64.ofZ 18; F64.ofZ 14; F64.ofZ 10; F64.ofZ 5] = true ->
  forall (price : CoinGeckoPrice) (staking : option StakingData),
    check (marketScore (cg_MarketCapRank price)) (stakingScore staking)
          (securityScore (cg_MarketCap price))
          (adoptionScore (cg_TotalVolume price) (cg_MarketCap price))
          (techScore (cg_ATHChangePercentage price)) = true.
Proof.
  intros H price staking.
  pose proof (marketScore_cases (cg_MarketCapRank price)) as Hm.
  pose proof (stakingScore_cases staking) as Hs.
  pose proof (securityScore_cases (cg_MarketCap price)) as Hse.
  pose proof (adoptionScore_cases (cg_TotalVolume price) (cg_MarketCap price)) as Ha.
  pose proof (techScore_cases (cg_ATHChangePercentage price)) as Ht.
  rewrite forallb_forall in H. apply list_elem_of_In in Hm. specialize (H _ Hm).
  rewrite forallb_forall in H. apply list_elem_of_In in Hs. specialize (H _ Hs).
  rewrite forallb_forall in H. apply list_elem_of_In in Hse. specialize (H _ Hse).
  rewrite forallb_forall in H. apply list_elem_of_In in Ha. specialize (H _ Ha).
  rewrite forallb_forall in H. apply list_elem_of_In in Ht. specialize (H _ Ht).
  exact H.
Qed.

Lemma calculateScore_total (price : CoinGeckoPrice) (staking : option StakingData) :
  fst (calculateScore price staking) ∈ (F64.ofZ <$> totals).
Proof.
  unfold calculateScore.
  cbn [fst MarketScore StakingScore SecurityScore AdoptionScore TechScore]. cbv zeta.
  pose proof (all_brackets totalOK ltac:(vm_compute; reflexivity) price staking) as H.
  unfold totalOK in H. apply bool_decide_eq_true in H. exact H.
Qed.

(** C6: the total returned by [calculateScore] is the sum of the five fields
    of the breakdown, as a floating-point sum and, every field being an
    integer, as an exact integer sum; it lies between 22 and 100 inclusive.
    This holds of every record and every optional staking entry. *)
Theorem calculateScore_total_sum_range (price : CoinGeckoPrice) (staking : option StakingData) :
  let total := fst (calculateScore price staking) in
  let b := snd (calculateScore price staking) in
  total = F64.add (F64.add (F64.add (F64.add (MarketScore b) (StakingScore b))
                                     (SecurityScore b)) (AdoptionScore b)) (TechScore b)
  /\ exists zm zs zse za zt : Z,
       F64.toZ (MarketScore b) = Some zm /\ F64.toZ (StakingScore b) = Some zs /\
       F64.toZ (SecurityScore b) = Some zse /\ F64.toZ (AdoptionScore b) = Some za /\
       F64.toZ (TechScore b) = Some zt /\
       F64.toZ total = Some (zm + zs + zse + za + zt) /\
       22 <= zm + zs + zse + za + zt <= 100.
Proof.
  unfold calculateScore.
  cbn [fst snd MarketScore StakingScore SecurityScore AdoptionScore TechScore]. cbv zeta.
  split; [reflexivity|].
  pose proof (all_brackets sumOK ltac:(vm_compute; reflexivity) price staking) as H.
  unfold sumOK in H.
  repeat match type of H with
         | match ?x with _ => _ end = true => destruct x eqn:?; [|discriminate H]
         end.
  apply andb_prop in H as [H H3]. apply andb_prop in H as [H1 H2].
  do 5 eexists. repeat (split; [reflexivity|]).
  apply Z.eqb_eq in H1. subst. split; [reflexivity|]. lia.
Qed.

(** C2, as the code has it: with a market cap of zero the division raises no
    fault and yields an infinity or a NaN; the Adoption score is 5 when the
    volume is zero or a NaN or has the sign opposite to the zero's, and 15
    otherwise, in particular for every positive volume over a positive zero. *)
Theorem adoption_zero_market_cap (price : CoinGeckoPrice) (staking : option StakingData) :
  F64.is_zero (cg_MarketCap price) = true ->
  AdoptionScore (snd (calculateScore price staking)) =
    if F64.is_zero (cg_TotalVolume price) || F64.is_nan (cg_TotalVolume price)
       || xorb (F64.sign (cg_TotalVolume price)) (F64.sign (cg_MarketCap price))
    then F64.ofZ 5 else F64.ofZ 15.
Proof.
  unfold calculateScore. cbn [snd AdoptionScore].
  destruct (cg_MarketCap price) as [smc| | |]; try discriminate. intros _.
  destruct (cg_TotalVolume price) as [s|s| |s m e]; destruct smc; try destruct s;
    reflexivity.
Qed.

Lemma adoption_zero_market_cap_witness :
  F64.is_zero (cg_MarketCap (record "bitcoin" 1 F64.zero (F64.ofZ 6000000000) F64.zero)) = true
  /\ AdoptionScore
       (snd (calculateScore (record "bitcoin" 1 F64.zero (F64.ofZ 6000000000) F64.zero) None))
     = F64.ofZ 15.
Proof.
  split; [reflexivity|].
  exact (adoption_zero_market_cap
           (record "bitcoin" 1 F64.zero (F64.ofZ 6000000000) F64.zero) None eq_refl).
Defined.

(** C2 as stated fails: a record with market cap 0 and volume 1 gets the
    Adoption score 15, the highest bracket, not 5. *)
Lemma adoption_zero_market_cap_not_5 :
  ~ (forall (price : CoinGeckoPrice) (staking : option StakingData),
       F64.is_zero (cg_MarketCap price) = true ->
       AdoptionScore (snd (calculateScore price staking)) = F64.ofZ 5).
Proof.
  intros H.
  specialize (H (record "bitcoin" 1 F64.zero (F64.ofZ 1) F64.zero) None eq_refl).
  vm_compute in H. discriminate H.
Qed.

(** For a ranked asset (rank at least 1) the market score is the step
    function of the specification. *)
Lemma marketScore_ranked (rank : Z) :
  1 <= rank -> marketScore rank = marketScore_spec rank.
Proof.
  intros H. unfold marketScore, marketScore_spec.
  case_Z_tests; cbn [andb]; try reflexivity; lia.
Qed.

(** An unranked asset (rank 0 or below) fails the test [rank > 0] of the
    first bracket and is caught by [rank <= 25]. *)
Lemma marketScore_unranked (rank : Z) :
  rank <= 0 -> marketScore rank = F64.ofZ 22 /\ marketScore_spec rank = F64.ofZ 5.
Proof.
  intros H. unfold marketScore, marketScore_spec.
  case_Z_tests; cbn [andb]; try (split; reflexivity); lia.
Qed.

(** C5: at rank 0 the code gives the Market score 22, where the step function
    of the specification gives 5. *)
Theorem market_score_rank_zero :
  MarketScore (snd (calculateScore (record "unranked" 0 F64.zero F64.zero F64.zero) None))
  = F64.ofZ 22
  /\ marketScore_spec 0 = F64.ofZ 5
  /\ F64.ofZ 22 <> F64.ofZ 5.
Proof. split; [reflexivity|]. split; [reflexivity|]. discriminate. Qed.

(** C7, as the code has it. A rank equal to the upper bound of a bracket gets
    that bracket, and the Staking thresholds are inclusive: a yield of exactly
    10, 5 or 2 and a stake ratio of exactly 50 get the higher bracket. The
    Security, Adoption and Tech thresholds are strict: a market cap, a
    volume-to-market-cap ratio or an all-time-high change exactly equal to a
    threshold gets the lower bracket (market cap 10^10 gives 16, ratio 0.10
    gives 12, change -20 gives 12). *)
Theorem threshold_ties (price : CoinGeckoPrice) (staking : option StakingData) :
  let b := snd (calculateScore price staking) in
  (forall r s, In (r, s) [(10, 25); (25, 22); (50, 18); (100, 14); (250, 10)] ->
     cg_MarketCapRank price = r -> MarketScore b = F64.ofZ s)
  /\ (forall st y s, In (y, s) [(10, 20); (5, 15); (2, 10)] ->
        staking = Some st -> sd_APY st = F64.ofZ y ->
        StakingScore b =
          if F64.geb (sd_StakingRatio st) (F64.ofZ 50) then F64.ofZ (s + 5) else F64.ofZ s)
  /\ (forall st, staking = Some st -> sd_StakingRatio st = F64.ofZ 50 ->
        exists s, In s [20; 15; 10; 5] /\ StakingScore b = F64.ofZ (s + 5))
  /\ (forall c s, In (c, s) [(10000000000, 16); (1000000000, 12); (100000000, 8)] ->
        cg_MarketCap price = F64.ofZ c -> SecurityScore b = F64.ofZ s)
  /\ (forall n d s, In (n, d, s) [(1, 10, 12); (5, 100, 9); (1, 100, 5)] ->
        F64.div (cg_TotalVolume price) (cg_MarketCap price) = F64.lit n d ->
        AdoptionScore b = F64.ofZ s)
  /\ (forall a s, In (a, s) [(-20, 12); (-50, 8); (-80, 4)] ->
        cg_ATHChangePercentage price = F64.ofZ a -> TechScore b = F64.ofZ s).
Proof.
  unfold calculateScore.
  cbn [snd MarketScore StakingScore SecurityScore AdoptionScore TechScore].
  cbv zeta. repeat split.
  - intros r s Hin ->. cbn [In] in Hin.
    repeat destruct Hin as [Hin|Hin]; try contradiction; injection Hin as <- <-;
      vm_compute; reflexivity.
  - intros st y s Hin -> Hy. unfold stakingScore. rewrite Hy. cbn [In] in Hin.
    repeat destruct Hin as [Hin|Hin]; try contradiction; injection Hin as <- <-;
      destruct (F64.geb (sd_StakingRatio st) (F64.ofZ 50)); vm_compute; reflexivity.
  - intros st -> Hr. unfold stakingScore. rewrite Hr.
    replace (F64.geb (F64.ofZ 50) (F64.ofZ 50)) with true by reflexivity.
    destruct (F64.geb (sd_APY st) (F64.ofZ 10)); [exists 20; split; [cbn; tauto|reflexivity]|].
    destruct (F64.geb (sd_APY st) (F64.ofZ 5)); [exists 15; split; [cbn; tauto|reflexivity]|].
    destruct (F64.geb (sd_APY st) (F64.ofZ 2)); [exists 10; split; [cbn; tauto|reflexivity]|].
    exists 5; split; [cbn; tauto|reflexivity].
  - intros c s Hin Hc. unfold securityScore. rewrite Hc. cbn [In] in Hin.
    repeat destruct Hin as [Hin|Hin]; try contradiction; injection Hin as <- <-;
      vm_compute; reflexivity.
  - intros n d s Hin Hr. unfold adoptionScore. cbv zeta. rewrite Hr. cbn [In] in Hin.
    repeat destruct Hin as [Hin|Hin]; try contradiction; injection Hin as <- <- <-;
      vm_compute; reflexivity.
  - intros a s Hin Ha. unfold techScore. rewrite Ha. cbn [In] in Hin.
    repeat destruct Hin as [Hin|Hin]; try contradiction; injection Hin as <- <-;
      vm_compute; reflexivity.
Qed.

Lemma threshold_ties_witness :
  let price := record "bitcoin" 10 (F64.ofZ 10000000000) (F64.ofZ 1000000000) (F64.ofZ (-20)) in
  let staking := Some (staticEntry (F64.ofZ 10) (F64.ofZ 50) F64.zero 0 F64.zero) in
  let b := snd (calculateScore price staking) in
  (cg_MarketCapRank price = 10
   /\ sd_APY (staticEntry (F64.ofZ 10) (F64.ofZ 50) F64.zero 0 F64.zero) = F64.ofZ 10
   /\ cg_MarketCap price = F64.ofZ 10000000000
   /\ F64.div (cg_TotalVolume price) (cg_MarketCap price) = F64.lit 1 10
   /\ cg_ATHChangePercentage price = F64.ofZ (-20))
  /\ MarketScore b = F64.ofZ 25
  /\ StakingScore b = F64.ofZ 25
  /\ SecurityScore b = F64.ofZ 16
  /\ AdoptionScore b = F64.ofZ 12
  /\ TechScore b = F64.ofZ 12.
Proof.
  intros price staking b.
  destruct (threshold_ties price staking) as (Hm & Hs & _ & Hsec & Ha & Ht).
  split; [repeat split; vm_compute; reflexivity|].
  split; [exact (Hm 10 25 (or_introl eq_refl) eq_refl)|].
  split; [exact (Hs _ 10 20 (or_introl eq_refl) eq_refl eq_refl)|].
  split; [exact (Hsec 10000000000 16 (or_introl eq_refl) eq_refl)|].
  split; [apply (Ha 1 10 12 (or_introl eq_refl)); vm_compute; reflexivity|].
  exact (Ht (-20) 12 (or_introl eq_refl) eq_refl).
Defined.

(** C7 as stated fails: a market cap of exactly 10,000,000,000 gets the
    Security score 16, not 20, and a ratio of exactly 0.10 gets the Adoption
    score 12, not 15. *)
Lemma threshold_ties_not_inclusive :
  ~ (forall (price : CoinGeckoPrice) (staking : option StakingData),
       (cg_MarketCap price = F64.ofZ 10000000000 ->
        SecurityScore (snd (calculateScore price staking)) = F64.ofZ 20)
       /\ (F64.div (cg_TotalVolume price) (cg_MarketCap price) = F64.lit 1 10 ->
           AdoptionScore (snd (calculateScore price staking)) = F64.ofZ 15)).
Proof.
  intros H.
  destruct (H (record "bitcoin" 1 (F64.ofZ 10000000000) (F64.ofZ 1000000000) F64.zero) None)
    as [Hsec _].
  specialize (Hsec eq_refl). vm_compute in Hsec. discriminate Hsec.
Qed.

(** ** The scoring call and the program state *)

Lemma calculateScore_call_spec (m : Memory) (a : nat) (staking : Ptr)
    (p : CoinGeckoPrice) (st : option StakingData) :
  mem_prices m !! a = Some p ->
  pointsToStaking m staking st ->
  calculateScore_call (Some a) staking m = Some (calculateScore p st, m).
Proof.
  intros Hp Hst. unfold calculateScore_call, loadPrice, loadStaking. cbn.
  rewrite Hp. cbn. destruct staking as [b|]; cbn in Hst.
  - destruct Hst as (v & Hv & ->). cbn. rewrite Hv. reflexivity.
  - subst st. reflexivity.
Qed.

Lemma calculateScore_call_inv (m m' : Memory) (price staking : Ptr) (r : float64 * ScoreData) :
  calculateScore_call price staking m = Some (r, m') ->
  m' = m /\ exists a p st, price = Some a /\ mem_prices m !! a = Some p
                      /\ pointsToStaking m staking st /\ r = calculateScore p st.
Proof.
  unfold calculateScore_call, loadPrice, loadStaking.
  destruct price as [a|]; cbn; [|discriminate].
  destruct (mem_prices m !! a) as [p|] eqn:Hp; cbn; [|discriminate].
  destruct staking as [b|]; cbn.
  - destruct (mem_staking m !! b) as [v|] eqn:Hv; cbn; [|discriminate].
    intros [= <- <-]. split; [reflexivity|]. exists a, p, (Some v). eauto 10.
  - intros [= <- <-]. split; [reflexivity|]. exists a, p, None. eauto 10.
Qed.

(** C9: a call of [calculateScore] on valid pointers returns, its result is a
    function of the record and the staking entry pointed to, and the memory
    (provider records, staking table, price cache) is left as it was; so two
    calls on the same inputs return the same total and breakdown. *)
Theorem calculateScore_call_pure (m : Memory) (price staking : Ptr) :
  (forall a p st,
      price = Some a -> mem_prices m !! a = Some p -> pointsToStaking m staking st ->
      calculateScore_call price staking m = Some (calculateScore p st, m))
  /\ (forall r1 m1 r2 m2,
      calculateScore_call price staking m = Some (r1, m1) ->
      calculateScore_call price staking m1 = Some (r2, m2) ->
      r1 = r2 /\ m1 = m /\ m2 = m).
Proof.
  split.
  - intros a p st -> Hp Hst. apply calculateScore_call_spec; assumption.
  - intros r1 m1 r2 m2 H1 H2.
    pose proof (calculateScore_call_inv _ _ _ _ _ H1) as (-> & _).
    rewrite H1 in H2. injection H2 as <- <-. auto.
Qed.

Lemma calculateScore_call_pure_witness :
  (mem_prices sampleMemory !! 0%nat = Some cosmosRecord
   /\ pointsToStaking sampleMemory (Some 0%nat) (Some cosmosEntry))
  /\ calculateScore_call (Some 0%nat) (Some 0%nat) sampleMemory
     = Some (calculateScore cosmosRecord (Some cosmosEntry), sampleMemory)
  /\ forall r2 m2,
       calculateScore_call (Some 0%nat) (Some 0%nat) sampleMemory = Some (r2, m2) ->
       calculateScore cosmosRecord (Some cosmosEntry) = r2 /\ m2 = sampleMemory.
Proof.
  assert (Hp : mem_prices sampleMemory !! 0%nat = Some cosmosRecord)
    by (vm_compute; reflexivity).
  assert (Hs : pointsToStaking sampleMemory (Some 0%nat) (Some cosmosEntry))
    by (exists cosmosEntry; split; [vm_compute; reflexivity|reflexivity]).
  destruct (calculateScore_call_pure sampleMemory (Some 0%nat) (Some 0%nat)) as [Hret Hsame].
  pose proof (Hret 0%nat cosmosRecord (Some cosmosEntry) eq_refl Hp Hs) as Hcall.
  split; [split; assumption|]. split; [exact Hcall|].
  intros r2 m2 H2.
  destruct (Hsame _ sampleMemory r2 m2 Hcall H2) as (Hr & _ & Hm). split; assumption.
Defined.

(** ** The resolver: single-key path *)

(** Saturation does not change the outcome of the freshness test. *)
Lemma Time_Sub_lt_TTL (t u : Time) :
  (Time_Sub t u <? cacheTTL) = (t - u <? cacheTTL).
Proof.
  unfold Time_Sub. cbv zeta.
  assert (Hmin : minDuration < cacheTTL) by reflexivity.
  assert (Hmax : cacheTTL < maxDuration) by reflexivity.
  destruct (Z.ltb_spec (t - u) minDuration).
  - symmetry. apply Z.ltb_lt in Hmin. rewrite Hmin. apply Z.ltb_lt. lia.
  - destruct (Z.ltb_spec maxDuration (t - u)); [|reflexivity].
    transitivity false; [|symmetry]; apply Z.ltb_ge; lia.
Qed.

Lemma cacheTTL_one_hour : cacheTTL = 3600 * 1000000000.
Proof. vm_compute. reflexivity. Qed.

(** A single fetch sends one request when its URL parses and none
    otherwise, and touches nothing else. *)
Lemma fetchFromCoinGecko_world (env : Env) (w : World) (tokenID currency : string) :
  let w' := snd (fetchFromCoinGecko tokenID currency env w) in
  prices w' = prices w /\ ticks w' = ticks w /\ logged w' = logged w
  /\ sent w' = if url_Parse_ok (singleURL coingeckoDemoURL currency tokenID)
               then sent w ++ [{| rq_vs_currency := currency; rq_ids := tokenID;
                                  rq_per_page := 1 |}]
               else sent w.
Proof.
  unfold fetchFromCoinGecko, http_NewRequestWithContext. cbv zeta.
  destruct (url_Parse_ok _); [|unfold ret; cbn [snd]; auto].
  unfold bind, httpGet, ret.
  destruct (upstream env _ _) as [|status [[|p ps]|]];
    try destruct (negb (status =? http_StatusOK)); cbn [snd prices ticks sent logged]; auto.
Qed.

(** Its outcome does not depend on the clock. *)
Lemma fetchFromCoinGecko_tick (env : Env) (w : World) (tokenID currency : string) :
  fst (fetchFromCoinGecko tokenID currency env (tick w))
  = fst (fetchFromCoinGecko tokenID currency env w).
Proof.
  unfold fetchFromCoinGecko, http_NewRequestWithContext. cbv zeta.
  destruct (url_Parse_ok _); [|reflexivity].
  unfold bind, httpGet, ret. cbn [tick sent].
  destruct (upstream env _ _) as [|status [[|p ps]|]];
    try destruct (negb (status =? http_StatusOK)); reflexivity.
Qed.

(** C4: when the cache holds an entry for (tokenID, currency) and the entry
    is less than one hour old, [GetPrice] returns its fields with
    [Cached = true], sends no request upstream and leaves the cache as it
    was. *)
Theorem GetPrice_fresh_hit (env : Env) (w : World) (tokenID currency : string)
    (cached : CachedPrice) :
  prices w !! cacheKey tokenID currency = Some cached ->
  clock env (ticks w) - cp_UpdatedAt cached < 3600 * 1000000000 ->
  fst (GetPrice tokenID currency env w)
  = inl {| pr_ID := tokenID; pr_Symbol := ""; pr_Name := "";
           pr_Price := cp_Price cached; pr_Currency := cp_Currency cached;
           pr_Change24h := cp_Change24h cached; pr_MarketCap := cp_MarketCap cached;
           pr_Volume24h := cp_Volume24h cached; pr_UpdatedAt := cp_UpdatedAt cached;
           pr_Cached := true |}
  /\ sent (snd (GetPrice tokenID currency env w)) = sent w
  /\ prices (snd (GetPrice tokenID currency env w)) = prices w.
Proof.
  intros Hc Hf. unfold GetPrice, bind, lookupPrice, isFresh. rewrite Hc.
  unfold Since, bind, Now, ret. cbn. rewrite Time_Sub_lt_TTL.
  destruct (Z.ltb_spec (clock env (ticks w) - cp_UpdatedAt cached) cacheTTL) as [_|H].
  - cbn. auto.
  - rewrite cacheTTL_one_hour in H. lia.
Qed.

Lemma GetPrice_fresh_hit_witness :
  (prices sampleWorld !! cacheKey "bitcoin" "usd" = Some (entryAt 0)
   /\ clock (offlineAt (59 * minute)) (ticks sampleWorld) - cp_UpdatedAt (entryAt 0)
      < 3600 * 1000000000)
  /\ fst (GetPrice "bitcoin" "usd" (offlineAt (59 * minute)) sampleWorld)
     = inl (cachedResponse "bitcoin" (entryAt 0))
  /\ sent (snd (GetPrice "bitcoin" "usd" (offlineAt (59 * minute)) sampleWorld)) = []
  /\ prices (snd (GetPrice "bitcoin" "usd" (offlineAt (59 * minute)) sampleWorld))
     = prices sampleWorld.
Proof.
  assert (Hc : prices sampleWorld !! cacheKey "bitcoin" "usd" = Some (entryAt 0))
    by (vm_compute; reflexivity).
  assert (Hf : clock (offlineAt (59 * minute)) (ticks sampleWorld) - cp_UpdatedAt (entryAt 0)
               < 3600 * 1000000000) by (vm_compute; reflexivity).
  split; [split; assumption|].
  exact (GetPrice_fresh_hit (offlineAt (59 * minute)) sampleWorld "bitcoin" "usd"
           (entryAt 0) Hc Hf).
Defined.

(** C1: when the upstream fetch fails, [GetPrice] returns the fields of the
    stale entry of (tokenID, currency), one hour old or more, under the
    requested identifier, with [Cached = true] and no error; when there is
    no entry at all it returns the fetch error. In both cases the cache is
    left as it was, so no entry is created. *)
Theorem GetPrice_fetch_failure (env : Env) (w : World) (tokenID currency : string)
    (err : Error) :
  fst (fetchFromCoinGecko tokenID currency env w) = inr err ->
  (forall cached : CachedPrice,
      prices w !! cacheKey tokenID currency = Some cached ->
      3600 * 1000000000 <= clock env (ticks w) - cp_UpdatedAt cached ->
      fst (GetPrice tokenID currency env w)
      = inl {| pr_ID := tokenID; pr_Symbol := ""; pr_Name := "";
               pr_Price := cp_Price cached; pr_Currency := cp_Currency cached;
               pr_Change24h := cp_Change24h cached; pr_MarketCap := cp_MarketCap cached;
               pr_Volume24h := cp_Volume24h cached; pr_UpdatedAt := cp_UpdatedAt cached;
               pr_Cached := true |}
      /\ prices (snd (GetPrice tokenID currency env w)) = prices w)
  /\ (prices w !! cacheKey tokenID currency = None ->
      fst (GetPrice tokenID currency env w) = inr err
      /\ prices (snd (GetPrice tokenID currency env w)) = prices w).
Proof.
  intros Hfetch.
  destruct (GetPrice tokenID currency env w) as [r w'] eqn:HG. cbn [fst snd].
  unfold GetPrice, bind, lookupPrice in HG.
  destruct (prices w !! cacheKey tokenID currency) as [cached|] eqn:Hc.
  - split; [|discriminate]. intros c [= <-] Hstale.
    unfold isFresh, Since, bind, Now, ret in HG. rewrite Time_Sub_lt_TTL in HG.
    destruct (Z.ltb_spec (clock env (ticks w) - cp_UpdatedAt cached) cacheTTL) as [H|_].
    { rewrite cacheTTL_one_hour in H. lia. }
    fold (tick w) in HG.
    pose proof (fetchFromCoinGecko_tick env w tokenID currency) as Ht.
    pose proof (fetchFromCoinGecko_world env (tick w) tokenID currency) as (Hp & _).
    destruct (fetchFromCoinGecko tokenID currency env (tick w)) as [f w1].
    cbn [fst snd] in *. rewrite Hfetch in Ht. subst f.
    injection HG as <- <-. split; [reflexivity|exact Hp].
  - split; [discriminate|]. intros _.
    unfold isFresh, ret in HG.
    pose proof (fetchFromCoinGecko_world env w tokenID currency) as (Hp & _).
    destruct (fetchFromCoinGecko tokenID currency env w) as [f w1].
    cbn [fst snd] in *. subst f. injection HG as <- <-. auto.
Qed.

Lemma GetPrice_fetch_failure_witness :
  (fst (fetchFromCoinGecko "bitcoin" "usd" (offlineAt (61 * minute)) sampleWorld)
   = inr ErrTransport
   /\ prices sampleWorld !! cacheKey "bitcoin" "usd" = Some (entryAt 0)
   /\ 3600 * 1000000000
      <= clock (offlineAt (61 * minute)) (ticks sampleWorld) - cp_UpdatedAt (entryAt 0))
  /\ fst (GetPrice "bitcoin" "usd" (offlineAt (61 * minute)) sampleWorld)
     = inl {| pr_ID := "bitcoin"; pr_Symbol := ""; pr_Name := "";
              pr_Price := F64.ofZ 97234; pr_Currency := "usd";
              pr_Change24h := F64.ofZ 2; pr_MarketCap := F64.ofZ 1923456789012;
              pr_Volume24h := F64.ofZ 45678901234; pr_UpdatedAt := 0;
              pr_Cached := true |}
  /\ prices (snd (GetPrice "bitcoin" "usd" (offlineAt (61 * minute)) sampleWorld))
     = prices sampleWorld.
Proof.
  assert (Hf : fst (fetchFromCoinGecko "bitcoin" "usd" (offlineAt (61 * minute)) sampleWorld)
               = inr ErrTransport) by reflexivity.
  assert (Hc : prices sampleWorld !! cacheKey "bitcoin" "usd" = Some (entryAt 0))
    by (vm_compute; reflexivity).
  assert (Hs : 3600 * 1000000000
               <= clock (offlineAt (61 * minute)) (ticks sampleWorld) - cp_UpdatedAt (entryAt 0))
    by (vm_compute; discriminate).
  split; [repeat split; assumption|].
  destruct (GetPrice_fetch_failure (offlineAt (61 * minute)) sampleWorld "bitcoin" "usd"
              ErrTransport Hf) as [Hstale _].
  destruct (Hstale (entryAt 0) Hc Hs) as (Hr & Hp). split; assumption.
Defined.

(** ** The resolver: batch path *)

Lemma forRange_invariant {A S : Type} (P : S -> World -> Prop) (body : S -> A -> M S)
    (env : Env) :
  (forall s x w, P s w -> P (fst (body s x env w)) (snd (body s x env w))) ->
  forall l s w, P s w -> P (fst (forRange l body s env w)) (snd (forRange l body s env w)).
Proof.
  intros Hbody l. induction l as [|x l IH]; intros s w HP; [exact HP|].
  cbn [forRange]. unfold bind. specialize (Hbody s x w HP).
  destruct (body s x env w) as [s' w']. apply IH. exact Hbody.
Qed.

(** One iteration of the first loop. *)
Lemma checkCache_step (currency : string) (env : Env) resp toFetch id w :
  checkCache currency (resp, toFetch) id env w =
    match prices w !! cacheKey id currency with
    | Some c =>
        if clock env (ticks w) - cp_UpdatedAt c <? cacheTTL
        then ((<[id := cachedResponse id c]> resp, toFetch), tick w)
        else ((resp, toFetch ++ [id]), tick w)
    | None => ((resp, toFetch ++ [id]), w)
    end.
Proof.
  unfold checkCache, bind, lookupPrice.
  destruct (prices w !! cacheKey id currency) as [c|]; [|reflexivity].
  unfold isFresh, Since, bind, Now, ret. rewrite Time_Sub_lt_TTL.
  destruct (_ <? cacheTTL); reflexivity.
Qed.

(** The first loop: what it leaves alone, and what the result map holds. *)
Lemma checkCache_loop (currency : string) (env : Env) (l : list string) :
  forall resp toFetch w,
    let '((resp', toFetch'), w') := forRange l (checkCache currency) (resp, toFetch) env w in
    prices w' = prices w /\ sent w' = sent w /\ logged w' = logged w
    /\ (forall id r, resp' !! id = Some r ->
          resp !! id = Some r
          \/ exists k c, l !! k = Some id /\ prices w !! cacheKey id currency = Some c
                /\ freshAt env (ticks w + clockReads (prices w) currency (take k l)) c
                /\ r = cachedResponse id c)
    /\ (forall id r, resp !! id = Some r ->
          resp' !! id = Some r
          \/ exists c, prices w !! cacheKey id currency = Some c
                /\ resp' !! id = Some (cachedResponse id c))
    /\ (forall k id c, l !! k = Some id -> prices w !! cacheKey id currency = Some c ->
          freshAt env (ticks w + clockReads (prices w) currency (take k l)) c ->
          resp' !! id = Some (cachedResponse id c)).
Proof.
  induction l as [|x l IH]; intros resp toFetch w.
  - cbn. repeat split; auto. intros k id c Hk. rewrite lookup_nil in Hk. discriminate.
  - cbn [forRange]. unfold bind. rewrite checkCache_step.
    destruct (prices w !! cacheKey x currency) as [cx|] eqn:Hx.
    + assert (Hshift : forall k, (ticks w + clockReads (prices w) currency (take (S k) (x :: l))
                                  = S (ticks w) + clockReads (prices w) currency (take k l))%nat).
      { intros k. cbn [take clockReads]. rewrite Hx. lia. }
      assert (Hhere : (ticks w + clockReads (prices w) currency (take 0 (x :: l)) = ticks w)%nat).
      { cbn. lia. }
      destruct (Z.ltb_spec (clock env (ticks w) - cp_UpdatedAt cx) cacheTTL) as [Hf|Hs].
      * specialize (IH (<[x := cachedResponse x cx]> resp) toFetch (tick w)).
        destruct (forRange l _ _ env (tick w)) as [[resp' toFetch'] w'].
        cbn [tick prices sent logged ticks] in IH.
        destruct IH as (Hp & Hse & Hl & Ha & Hd & Hb).
        assert (Hx' : resp' !! x = Some (cachedResponse x cx)).
        { destruct (Hd x (cachedResponse x cx)) as [H|(c & Hc & H)].
          - apply lookup_insert_eq.
          - exact H.
          - rewrite Hx in Hc. injection Hc as <-. exact H. }
        repeat split; try assumption.
        -- intros id r Hr. destruct (Ha id r Hr) as [H|(k & c & Hk & Hc & Hfr & ->)].
           ++ destruct (decide (x = id)) as [->|Hne].
              ** rewrite lookup_insert_eq in H. injection H as <-.
                 right. exists 0%nat, cx. rewrite Hhere. auto.
              ** rewrite lookup_insert_ne in H by exact Hne. left. exact H.
           ++ right. exists (S k), c. rewrite Hshift. auto.
        -- intros id r Hr. destruct (decide (x = id)) as [->|Hne].
           ++ right. exists cx. auto.
           ++ apply Hd. rewrite lookup_insert_ne by exact Hne. exact Hr.
        -- intros [|k] id c Hk Hc Hfr.
           ++ injection Hk as <-. rewrite Hx in Hc. injection Hc as <-. exact Hx'.
           ++ rewrite Hshift in Hfr. apply (Hb k id c); assumption.
      * specialize (IH resp (toFetch ++ [x]) (tick w)).
        destruct (forRange l _ _ env (tick w)) as [[resp' toFetch'] w'].
        cbn [tick prices sent logged ticks] in IH.
        destruct IH as (Hp & Hse & Hl & Ha & Hd & Hb).
        repeat split; try assumption.
        -- intros id r Hr. destruct (Ha id r Hr) as [H|(k & c & Hk & Hc & Hfr & ->)].
           ++ left. exact H.
           ++ right. exists (S k), c. rewrite Hshift. auto.
        -- intros [|k] id c Hk Hc Hfr.
           ++ injection Hk as <-. rewrite Hx in Hc. injection Hc as <-.
              rewrite Hhere in Hfr. unfold freshAt in Hfr. lia.
           ++ rewrite Hshift in Hfr. apply (Hb k id c); assumption.
    + assert (Hshift : forall k, (ticks w + clockReads (prices w) currency (take (S k) (x :: l))
                                  = ticks w + clockReads (prices w) currency (take k l))%nat).
      { intros k. cbn [take clockReads]. rewrite Hx. lia. }
      specialize (IH resp (toFetch ++ [x]) w).
      destruct (forRange l _ _ env w) as [[resp' toFetch'] w'].
      destruct IH as (Hp & Hse & Hl & Ha & Hd & Hb).
      repeat split; try assumption.
      -- intros id r Hr. destruct (Ha id r Hr) as [H|(k & c & Hk & Hc & Hfr & ->)].
         ++ left. exact H.
         ++ right. exists (S k), c. rewrite Hshift. auto.
      -- intros [|k] id c Hk Hc Hfr.
         ++ injection Hk as <-. rewrite Hx in Hc. discriminate.
         ++ rewrite Hshift in Hfr. apply (Hb k id c); assumption.
Qed.

(** The first loop: the identifiers it queues, and the clock readings it
    makes. *)
Lemma checkCache_loop_needs (currency : string) (env : Env) (l : list string) :
  forall resp toFetch w,
  exists rest,
    (fst (forRange l (checkCache currency) (resp, toFetch) env w)).2 = toFetch ++ rest
    /\ ticks (snd (forRange l (checkCache currency) (resp, toFetch) env w))
       = (ticks w + clockReads (prices w) currency l)%nat
    /\ forall id, id ∈ rest <->
         exists k, l !! k = Some id
           /\ forall c, prices w !! cacheKey id currency = Some c ->
                ~ freshAt env (ticks w + clockReads (prices w) currency (take k l)) c.
Proof.
  induction l as [|x l IH]; intros resp toFetch w.
  - exists []. cbn. rewrite app_nil_r. split; [reflexivity|]. split; [lia|].
    intros id. split; [intros H; inversion H|].
    intros (k & Hk & _). rewrite lookup_nil in Hk. discriminate.
  - cbn [forRange]. unfold bind. rewrite checkCache_step.
    assert (Hhere : (ticks w + clockReads (prices w) currency (take 0 (x :: l)) = ticks w)%nat).
    { cbn. lia. }
    destruct (prices w !! cacheKey x currency) as [cx|] eqn:Hx.
    + assert (Hshift : forall k, (ticks w + clockReads (prices w) currency (take (S k) (x :: l))
                                  = S (ticks w) + clockReads (prices w) currency (take k l))%nat).
      { intros k. cbn [take clockReads]. rewrite Hx. lia. }
      destruct (Z.ltb_spec (clock env (ticks w) - cp_UpdatedAt cx) cacheTTL) as [Hf|Hs].
      * destruct (IH (<[x := cachedResponse x cx]> resp) toFetch (tick w))
          as (rest & Hq & Ht & Hiff).
        cbn [tick ticks prices] in Ht, Hiff.
        exists rest. split; [exact Hq|]. split.
        { rewrite Ht. cbn [clockReads]. rewrite Hx. lia. }
        intros id. rewrite Hiff. split.
        -- intros (k & Hk & Hn). exists (S k). split; [exact Hk|].
           intros c Hc. rewrite Hshift. apply Hn. exact Hc.
        -- intros ([|k] & Hk & Hn).
           ++ injection Hk as <-. exfalso. apply (Hn cx Hx). rewrite Hhere. exact Hf.
           ++ exists k. split; [exact Hk|]. intros c Hc. rewrite <- Hshift. apply Hn. exact Hc.
      * destruct (IH resp (toFetch ++ [x]) (tick w)) as (rest & Hq & Ht & Hiff).
        cbn [tick ticks prices] in Ht, Hiff.
        exists (x :: rest). split; [rewrite Hq, <- app_assoc; reflexivity|]. split.
        { rewrite Ht. cbn [clockReads]. rewrite Hx. lia. }
        intros id. rewrite elem_of_cons, Hiff. split.
        -- intros [->|(k & Hk & Hn)].
           ++ exists 0%nat. split; [reflexivity|]. intros c Hc. rewrite Hx in Hc.
              injection Hc as <-. rewrite Hhere. unfold freshAt. lia.
           ++ exists (S k). split; [exact Hk|]. intros c Hc. rewrite Hshift. apply Hn. exact Hc.
        -- intros ([|k] & Hk & Hn).
           ++ injection Hk as <-. left. reflexivity.
           ++ right. exists k. split; [exact Hk|]. intros c Hc. rewrite <- Hshift.
              apply Hn. exact Hc.
    + assert (Hshift : forall k, (ticks w + clockReads (prices w) currency (take (S k) (x :: l))
                                  = ticks w + clockReads (prices w) currency (take k l))%nat).
      { intros k. cbn [take clockReads]. rewrite Hx. lia. }
      destruct (IH resp (toFetch ++ [x]) w) as (rest & Hq & Ht & Hiff).
      exists (x :: rest). split; [rewrite Hq, <- app_assoc; reflexivity|]. split.
      { rewrite Ht. cbn [clockReads]. rewrite Hx. lia. }
      intros id. rewrite elem_of_cons, Hiff. split.
      * intros [->|(k & Hk & Hn)].
        -- exists 0%nat. split; [reflexivity|]. intros c Hc. rewrite Hx in Hc. discriminate.
        -- exists (S k). split; [exact Hk|]. intros c Hc. rewrite Hshift. apply Hn. exact Hc.
      * intros ([|k] & Hk & Hn).
        -- injection Hk as <-. left. reflexivity.
        -- right. exists k. split; [exact Hk|]. intros c Hc. rewrite <- Hshift.
           apply Hn. exact Hc.
Qed.

(** The outcome of a batch fetch depends on the world only through the
    number of requests sent before it. *)
Lemma fetchMultiple_fst_sent (env : Env) (w w1 : World) (ids : list string) (currency : string) :
  sent w1 = sent w ->
  fst (fetchMultipleFromCoinGecko ids currency env w1)
  = fst (fetchMultipleFromCoinGecko ids currency env w).
Proof.
  intros Hs. unfold fetchMultipleFromCoinGecko, http_NewRequestWithContext. cbv zeta.
  destruct (url_Parse_ok _); [|reflexivity].
  unfold bind, httpGet, ret. rewrite Hs.
  destruct (upstream env _ _) as [|status [ps|]];
    try destruct (negb (status =? http_StatusOK)); reflexivity.
Qed.

(** A batch fetch sends one request when its URL parses and none otherwise,
    and touches nothing else. *)
Lemma fetchMultiple_snd (env : Env) (w : World) (ids : list string) (currency : string) :
  snd (fetchMultipleFromCoinGecko ids currency env w)
  = if url_Parse_ok (batchURL coingeckoDemoURL currency (strings_Join ids ","))
    then sending (batchRequest ids currency) w
    else w.
Proof.
  unfold fetchMultipleFromCoinGecko, http_NewRequestWithContext. cbv zeta.
  destruct (url_Parse_ok _); [|reflexivity].
  unfold bind, httpGet, ret, sending, batchRequest.
  destruct (upstream env _ _) as [|status [qs|]];
    try destruct (negb (status =? http_StatusOK)); reflexivity.
Qed.

Lemma fetchMultiple_prices (env : Env) (w : World) (ids : list string) (currency : string) :
  prices (snd (fetchMultipleFromCoinGecko ids currency env w)) = prices w
  /\ ticks (snd (fetchMultipleFromCoinGecko ids currency env w)) = ticks w
  /\ logged (snd (fetchMultipleFromCoinGecko ids currency env w)) = logged w.
Proof.
  rewrite fetchMultiple_snd. destruct (url_Parse_ok _); auto.
Qed.

(** The batch lookup, step by step. *)
Lemma GetMultiplePrices_eq (env : Env) (w : World) (tokenIDs : list string) (currency : string) :
  GetMultiplePrices tokenIDs currency env w =
    let '((resp1, toFetch), w1) :=
      forRange tokenIDs (checkCache currency) (∅, []) env (tick w) in
    let started := clock env (ticks w) in
    match toFetch with
    | [] => (inl {| mp_Prices := resp1; mp_UpdatedAt := started |}, w1)
    | _ :: _ =>
        match fetchMultipleFromCoinGecko toFetch currency env w1 with
        | (inr err, w2) =>
            (inl {| mp_Prices := resp1; mp_UpdatedAt := started |}, logging err w2)
        | (inl ps, w2) =>
            (inl {| mp_Prices := fst (forRange ps (writeBack currency) resp1 env w2);
                    mp_UpdatedAt := started |},
             snd (forRange ps (writeBack currency) resp1 env w2))
        end
    end.
Proof.
  unfold GetMultiplePrices, bind. cbn [Now]. fold (tick w).
  destruct (forRange tokenIDs (checkCache currency) (∅, []) env (tick w))
    as [[resp1 toFetch] w1].
  destruct toFetch as [|id toFetch]; [reflexivity|].
  replace (0 <? Z.of_nat (length (id :: toFetch))) with true
    by (symmetry; apply Z.ltb_lt; cbn [length]; lia).
  destruct (fetchMultipleFromCoinGecko (id :: toFetch) currency env w1) as [[ps|err] w2].
  - destruct (forRange ps (writeBack currency) resp1 env w2) as [resp2 w3]. reflexivity.
  - reflexivity.
Qed.

(** C3, as the code has it: when the batch fetch fails, [GetMultiplePrices]
    returns a response and no error, and leaves the cache as it was. The
    result map holds exactly the identifiers whose entry passes the
    freshness test at one of their occurrences in the batch, each with the
    fields of its cached entry and [Cached = true]; the identifiers asked
    from the provider are those that need the fetch at one of their
    occurrences; an identifier that needs the fetch at each of its
    occurrences, its entry being missing or failing the test, is absent: no
    stale entry is served. *)
Theorem GetMultiplePrices_fetch_failure (env : Env) (w : World) (tokenIDs : list string)
    (currency : string) (err : Error) :
  fst (fetchMultipleFromCoinGecko (toFetchOf env w currency tokenIDs) currency env w)
  = inr err ->
  exists resp : MultiPriceResponse,
    fst (GetMultiplePrices tokenIDs currency env w) = inl resp
    /\ prices (snd (GetMultiplePrices tokenIDs currency env w)) = prices w
    /\ (forall id p, mp_Prices resp !! id = Some p <->
          exists c, servedFresh env w currency tokenIDs id c
            /\ p = {| pr_ID := id; pr_Symbol := ""; pr_Name := "";
                      pr_Price := cp_Price c; pr_Currency := cp_Currency c;
                      pr_Change24h := cp_Change24h c; pr_MarketCap := cp_MarketCap c;
                      pr_Volume24h := cp_Volume24h c; pr_UpdatedAt := cp_UpdatedAt c;
                      pr_Cached := true |})
    /\ (forall id, id ∈ toFetchOf env w currency tokenIDs <->
          exists k, needsFetch env w currency tokenIDs k id)
    /\ (forall id, (forall k, tokenIDs !! k = Some id ->
                              needsFetch env w currency tokenIDs k id) ->
          mp_Prices resp !! id = None).
Proof.
  intros Hfail. unfold toFetchOf in *. rewrite GetMultiplePrices_eq.
  pose proof (checkCache_loop currency env tokenIDs ∅ [] (tick w)) as Hloop.
  destruct (checkCache_loop_needs currency env tokenIDs ∅ [] (tick w))
    as (rest & Hq & _ & Hneeds).
  destruct (forRange tokenIDs (checkCache currency) (∅, []) env (tick w))
    as [[resp1 toFetch] w1].
  cbn [fst snd tick prices sent logged ticks app] in *. subst toFetch.
  destruct Hloop as (Hp & Hse & Hl & Ha & _ & Hb).
  assert (Hreads : forall k, (S (ticks w) + clockReads (prices w) currency (take k tokenIDs)
                              = checkedAt w currency tokenIDs k)%nat).
  { intros k. unfold checkedAt. lia. }
  assert (Hiff : forall id p, resp1 !! id = Some p <->
            exists c, servedFresh env w currency tokenIDs id c /\ p = cachedResponse id c).
  { intros id p. split.
    - intros Hr. destruct (Ha id p Hr) as [H|(k & c & Hk & Hc & Hfr & ->)].
      + rewrite lookup_empty in H. discriminate.
      + exists c. split; [|reflexivity]. exists k. rewrite <- Hreads. auto.
    - intros (c & (k & Hk & Hc & Hfr) & ->). rewrite <- Hreads in Hfr.
      apply (Hb k id c); assumption. }
  match goal with
  | |- exists resp, fst ?e = _ /\ _ =>
      assert (Hres : exists w2, e = (inl {| mp_Prices := resp1;
                                            mp_UpdatedAt := clock env (ticks w) |}, w2)
                                /\ prices w2 = prices w)
  end.
  { destruct rest as [|id rest]; [eauto|].
    pose proof (fetchMultiple_fst_sent env w w1 (id :: rest) currency Hse) as Hfst.
    pose proof (fetchMultiple_prices env w1 (id :: rest) currency) as (Hp2 & _).
    destruct (fetchMultipleFromCoinGecko (id :: rest) currency env w1) as [[ps|e] w2];
      cbn [fst snd] in *.
    - rewrite Hfail in Hfst. discriminate Hfst.
    - eexists. split; [reflexivity|]. cbn [logging prices]. rewrite Hp2. exact Hp. }
  destruct Hres as (w2 & -> & Hp2). cbn [fst snd mp_Prices].
  eexists. split; [reflexivity|]. split; [exact Hp2|]. cbn [mp_Prices].
  split; [exact Hiff|]. split.
  - intros id. rewrite Hneeds. unfold needsFetch. split.
    + intros (k & Hk & Hn). exists k. split; [exact Hk|]. intros c Hc.
      rewrite <- Hreads. apply Hn. exact Hc.
    + intros (k & Hk & Hn). exists k. split; [exact Hk|]. intros c Hc.
      rewrite Hreads. apply Hn. exact Hc.
  - intros id Hall. destruct (resp1 !! id) as [p|] eqn:Hr; [|reflexivity].
    apply Hiff in Hr as (c & (k & Hk & Hc & Hfr) & _).
    destruct (Hall k Hk) as (_ & Hn). destruct (Hn c Hc Hfr).
Qed.

Lemma GetMultiplePrices_fetch_failure_witness :
  fst (fetchMultipleFromCoinGecko
         (toFetchOf (offlineAt (30 * minute)) sampleWorld "usd"
            ["bitcoin"; "ethereum"; "solana"])
         "usd" (offlineAt (30 * minute)) sampleWorld) = inr ErrTransport
  /\ exists resp : MultiPriceResponse,
       fst (GetMultiplePrices ["bitcoin"; "ethereum"; "solana"] "usd"
              (offlineAt (30 * minute)) sampleWorld) = inl resp
       /\ mp_Prices resp !! "bitcoin"
          = Some {| pr_ID := "bitcoin"; pr_Symbol := ""; pr_Name := "";
                    pr_Price := F64.ofZ 97234; pr_Currency := "usd";
                    pr_Change24h := F64.ofZ 2; pr_MarketCap := F64.ofZ 1923456789012;
                    pr_Volume24h := F64.ofZ 45678901234; pr_UpdatedAt := 0;
                    pr_Cached := true |}
       /\ mp_Prices resp !! "ethereum" = None
       /\ mp_Prices resp !! "solana" = None.
Proof.
  assert (Hfail : fst (fetchMultipleFromCoinGecko
                         (toFetchOf (offlineAt (30 * minute)) sampleWorld "usd"
                            ["bitcoin"; "ethereum"; "solana"])
                         "usd" (offlineAt (30 * minute)) sampleWorld) = inr ErrTransport)
    by (vm_compute; reflexivity).
  split; [exact Hfail|].
  destruct (GetMultiplePrices_fetch_failure (offlineAt (30 * minute)) sampleWorld
              ["bitcoin"; "ethereum"; "solana"] "usd" ErrTransport Hfail)
    as (resp & Hr & _ & Hiff & _ & Habsent).
  exists resp. split; [exact Hr|]. split; [|split].
  - apply Hiff. exists (entryAt 0). split; [|reflexivity].
    exists 0%nat. repeat split; vm_compute; reflexivity.
  - apply Habsent. intros k Hk. split; [exact Hk|]. intros c Hc Hfr.
    assert (Hc' : prices sampleWorld !! cacheKey "ethereum" "usd"
                  = Some (entryAt (- 120 * minute))) by (vm_compute; reflexivity).
    rewrite Hc' in Hc. injection Hc as <-. vm_compute in Hfr. discriminate Hfr.
  - apply Habsent. intros k Hk. split; [exact Hk|]. intros c Hc.
    assert (Hc' : prices sampleWorld !! cacheKey "solana" "usd" = None)
      by (vm_compute; reflexivity).
    rewrite Hc' in Hc. discriminate Hc.
Defined.

(** C3 as stated fails: in the batch bitcoin, bitcoin the entry of bitcoin
    passes the freshness test at its first occurrence, 59 minutes after it
    was written, and fails it at the second, two minutes later; bitcoin is
    asked from the provider, the fetch fails, and bitcoin is in the result
    map all the same. *)
Lemma GetMultiplePrices_fetched_not_absent :
  ~ (forall (env : Env) (w : World) (tokenIDs : list string) (currency : string)
            (err : Error) (resp : MultiPriceResponse) (id : string),
       fst (fetchMultipleFromCoinGecko (toFetchOf env w currency tokenIDs) currency env w)
       = inr err ->
       fst (GetMultiplePrices tokenIDs currency env w) = inl resp ->
       id ∈ toFetchOf env w currency tokenIDs ->
       mp_Prices resp !! id = None).
Proof.
  intros H.
  destruct (GetMultiplePrices ["bitcoin"; "bitcoin"] "usd" hourPassing sampleWorld)
    as [[resp|e] w'] eqn:HG; [|vm_compute in HG; discriminate HG].
  specialize (H hourPassing sampleWorld ["bitcoin"; "bitcoin"] "usd" ErrTransport resp
                "bitcoin").
  rewrite HG in H. cbn [fst] in H.
  assert (Hnone : mp_Prices resp !! "bitcoin" = None).
  { apply H; [vm_compute; reflexivity|reflexivity|].
    change (toFetchOf hourPassing sampleWorld "usd" ["bitcoin"; "bitcoin"])
      with ["bitcoin"]. left. }
  vm_compute in HG. injection HG as <- _. vm_compute in Hnone. discriminate Hnone.
Qed.

(** ** Answers from the cache *)

Lemma checkCache_shape (currency : string) (env : Env) acc id w :
  map_Forall (fun _ => fromCacheShape) acc.1 ->
  map_Forall (fun _ => fromCacheShape) (fst (checkCache currency acc id env w)).1.
Proof.
  destruct acc as [resp toFetch]. intros H. rewrite checkCache_step.
  destruct (prices w !! cacheKey id currency) as [c|]; [|exact H].
  destruct (_ <? cacheTTL); [|exact H].
  apply map_Forall_insert_2; [|exact H]. intros _. split; reflexivity.
Qed.

Lemma writeBack_shape (currency : string) (env : Env) resp p w :
  map_Forall (fun _ => fromCacheShape) resp ->
  map_Forall (fun _ => fromCacheShape) (fst (writeBack currency resp p env w)).
Proof.
  intros H. unfold writeBack, bind, Now, storePrice, ret. cbn.
  apply map_Forall_insert_2; [|exact H]. intros [=].
Qed.

(** C10: a response of [GetPrice], and every entry of the map returned by
    [GetMultiplePrices], that is flagged [Cached = true] has an empty [Symbol]
    and an empty [Name]: only responses built from a fetched record carry
    them, and those are flagged [Cached = false]. *)
Theorem cached_answers_without_symbol_name (env : Env) (w : World) (currency : string) :
  (forall tokenID r,
      fst (GetPrice tokenID currency env w) = inl r ->
      pr_Cached r = true -> pr_Symbol r = "" /\ pr_Name r = "")
  /\ (forall tokenIDs resp id r,
      fst (GetMultiplePrices tokenIDs currency env w) = inl resp ->
      mp_Prices resp !! id = Some r ->
      pr_Cached r = true -> pr_Symbol r = "" /\ pr_Name r = "").
Proof.
  split.
  - intros tokenID r. unfold GetPrice, bind, lookupPrice.
    destruct (prices w !! cacheKey tokenID currency) as [c|].
    + unfold isFresh, Since, bind, Now, ret.
      destruct (Time_Sub _ _ <? cacheTTL).
      * intros [= <-] _. split; reflexivity.
      * match goal with
        | |- context [fetchFromCoinGecko ?a ?b ?c ?d] =>
            destruct (fetchFromCoinGecko a b c d) as [[p|e] w1]
        end.
        -- intros [= <-] [=].
        -- intros [= <-] _. split; reflexivity.
    + unfold isFresh, ret.
      match goal with
      | |- context [fetchFromCoinGecko ?a ?b ?c ?d] =>
          destruct (fetchFromCoinGecko a b c d) as [[p|e] w1]
      end.
      * unfold Now, storePrice. intros [= <-] [=].
      * intros [=].
  - intros tokenIDs resp id r. unfold GetMultiplePrices, bind. cbn [Now]. fold (tick w).
    pose proof (forRange_invariant (fun s _ => map_Forall (fun _ => fromCacheShape) s.1)
                  (checkCache currency) env
                  (fun s x w H => checkCache_shape currency env s x w H)
                  tokenIDs (∅, []) (tick w) (map_Forall_empty _)) as H1.
    destruct (forRange tokenIDs (checkCache currency) (∅, []) env (tick w))
      as [[resp1 toFetch] w1].
    cbn [fst snd] in H1.
    match goal with
    | |- context [let (_, _) := ?e in _] =>
        assert (H2 : map_Forall (fun _ => fromCacheShape) (fst e))
    end.
    { destruct (0 <? Z.of_nat (length toFetch)); [|exact H1].
      destruct (fetchMultipleFromCoinGecko toFetch currency env w1) as [[ps|e] w3].
      - exact (forRange_invariant (fun s _ => map_Forall (fun _ => fromCacheShape) s)
                 (writeBack currency) env
                 (fun s x w H => writeBack_shape currency env s x w H) ps resp1 w3 H1).
      - exact H1. }
    match goal with
    | |- context [let (_, _) := ?e in _] => destruct e as [r2 w2]
    end.
    cbn [fst] in H2. unfold ret. cbn. intros [= <-]. cbn.
    intros Hl. exact (H2 id r Hl).
Qed.

Lemma cached_answers_without_symbol_name_witness :
  (fst (GetPrice "bitcoin" "usd" (offlineAt (59 * minute)) sampleWorld)
   = inl (cachedResponse "bitcoin" (entryAt 0))
   /\ pr_Cached (cachedResponse "bitcoin" (entryAt 0)) = true)
  /\ pr_Symbol (cachedResponse "bitcoin" (entryAt 0)) = ""
  /\ pr_Name (cachedResponse "bitcoin" (entryAt 0)) = "".
Proof.
  assert (Hr : fst (GetPrice "bitcoin" "usd" (offlineAt (59 * minute)) sampleWorld)
               = inl (cachedResponse "bitcoin" (entryAt 0))) by (vm_compute; reflexivity).
  split; [split; [exact Hr|reflexivity]|].
  destruct (cached_answers_without_symbol_name (offlineAt (59 * minute)) sampleWorld "usd")
    as [Hsingle _].
  exact (Hsingle "bitcoin" (cachedResponse "bitcoin" (entryAt 0)) Hr eq_refl).
Defined.

(** ** The market listing *)

(** On the totals of [calculateScore] the floating-point comparisons are the
    comparisons of the integers they denote. *)
Lemma totals_compare (x y : float64) :
  x ∈ (F64.ofZ <$> totals) -> y ∈ (F64.ofZ <$> totals) ->
  F64.gtb x y = (default 0 (F64.toZ y) <? default 0 (F64.toZ x))
  /\ F64.geb x y = (default 0 (F64.toZ y) <=? default 0 (F64.toZ x)).
Proof.
  intros Hx Hy.
  assert (H : forallb (fun x => forallb (fun y =>
                Bool.eqb (F64.gtb x y) (default 0 (F64.toZ y) <? default 0 (F64.toZ x))
                && Bool.eqb (F64.geb x y) (default 0 (F64.toZ y) <=? default 0 (F64.toZ x)))
                (F64.ofZ <$> totals)) (F64.ofZ <$> totals) = true)
    by (vm_compute; reflexivity).
  rewrite forallb_forall in H. apply list_elem_of_In in Hx. specialize (H _ Hx).
  rewrite forallb_forall in H. apply list_elem_of_In in Hy. specialize (H _ Hy).
  apply andb_prop in H as [H1 H2].
  apply Bool.eqb_prop in H1, H2. auto.
Qed.

Lemma buildAsset_scored (table : gmap string StakingData) (p : CoinGeckoPrice) :
  scored (buildAsset table p).
Proof.
  unfold scored, buildAsset. pose proof (calculateScore_total p (table !! cg_ID p)) as H.
  destruct (calculateScore p (table !! cg_ID p)) as [score breakdown]. exact H.
Qed.

Lemma scored_lookup (l0 a : list MarketAsset) (k : nat) (x : MarketAsset) :
  Forall scored l0 -> a ≡ₚ l0 -> a !! k = Some x -> scored x.
Proof.
  intros Hall Hperm Hk. rewrite <- Hperm in Hall.
  rewrite Forall_lookup in Hall. exact (Hall k x Hk).
Qed.

(** Writing [a] over an occurrence of [y] and putting [y] in front. *)
Lemma insert_cons_Permutation {A : Type} (l : list A) (j : nat) (y a : A) :
  l !! j = Some y -> y :: <[j := a]> l ≡ₚ a :: l.
Proof.
  revert j. induction l as [|b t IH]; intros [|j] H; try discriminate.
  - injection H as ->. cbn. apply perm_swap.
  - cbn in H |- *. rewrite (perm_swap b y). rewrite (IH j H). apply perm_swap.
Qed.

(** Exchanging two elements of a slice permutes it. *)
Lemma exchange_Permutation {A : Type} (l : list A) (i j : nat) (x y : A) :
  l !! i = Some x -> l !! j = Some y -> <[j := x]> (<[i := y]> l) ≡ₚ l.
Proof.
  revert i j. induction l as [|a t IH]; intros [|i] [|j] Hi Hj; try discriminate; cbn in *.
  - injection Hi as ->. injection Hj as ->. reflexivity.
  - injection Hi as ->. apply insert_cons_Permutation. exact Hj.
  - injection Hj as ->. apply insert_cons_Permutation. exact Hi.
  - f_equiv. apply IH; assumption.
Qed.

(** A counting loop keeps an invariant indexed by its counter. *)
Lemma foldl_seq_invariant {B : Type} (f : B -> nat -> B) (P : nat -> B -> Prop) (len : nat) :
  forall (start : nat) (b : B),
    P start b ->
    (forall j b, (start <= j < start + len)%nat -> P j b -> P (S j) (f b j)) ->
    P (start + len)%nat (foldl f b (seq start len)).
Proof.
  induction len as [|len IH]; intros start b H0 Hstep.
  - rewrite Nat.add_0_r. exact H0.
  - cbn [seq foldl]. replace (start + S len)%nat with (S start + len)%nat by lia.
    apply IH.
    + apply Hstep; [lia|exact H0].
    + intros j b' Hj. apply Hstep. lia.
Qed.

Lemma exchangeIfGreater_pass (l0 a : list MarketAsset) (i j : nat) :
  Forall scored l0 -> (i < j < length a)%nat ->
  passInv l0 a i j ->
  exists a', exchangeIfGreater i j a = Some a' /\ length a' = length a /\ passInv l0 a' i (S j).
Proof.
  intros Hall Hij [Hperm Hbest Hdone].
  destruct (lookup_lt_is_Some_2 a i) as [ai Hai]; [lia|].
  destruct (lookup_lt_is_Some_2 a j) as [aj Haj]; [lia|].
  unfold exchangeIfGreater. rewrite Haj, Hai. cbn.
  pose proof (scored_lookup _ _ _ _ Hall Hperm Hai) as Hsi.
  pose proof (scored_lookup _ _ _ _ Hall Hperm Haj) as Hsj.
  destruct (totals_compare _ _ Hsj Hsi) as [Hgt _]. rewrite Hgt.
  fold (scoreValue ai). fold (scoreValue aj).
  destruct (Z.ltb_spec (scoreValue ai) (scoreValue aj)) as [Hlt|Hge].
  - eexists. split; [reflexivity|]. split; [rewrite !length_insert; reflexivity|].
    assert (Hi' : <[j:=ai]> (<[i:=aj]> a) !! i = Some aj).
    { rewrite list_lookup_insert_ne by lia. apply list_lookup_insert_eq. lia. }
    assert (Hj' : <[j:=ai]> (<[i:=aj]> a) !! j = Some ai).
    { apply list_lookup_insert_eq. rewrite length_insert. lia. }
    assert (Hother : forall k, k <> i -> k <> j -> <[j:=ai]> (<[i:=aj]> a) !! k = a !! k).
    { intros k Hki Hkj. rewrite !list_lookup_insert_ne by lia. reflexivity. }
    split.
    + rewrite exchange_Permutation by assumption. exact Hperm.
    + intros k x y Hk Hx Hy. rewrite Hi' in Hy. injection Hy as <-.
      destruct (decide (k = j)) as [->|Hkj].
      * rewrite Hj' in Hx. injection Hx as <-. lia.
      * rewrite Hother in Hx by lia.
        assert (scoreValue x <= scoreValue ai) by (apply (Hbest k x ai); [lia|assumption..]).
        lia.
    + intros p q x y Hp Hpq Hx Hy. rewrite Hother in Hx by lia.
      destruct (decide (q = i)) as [->|Hqi]; [|destruct (decide (q = j)) as [->|Hqj]].
      * rewrite Hi' in Hy. injection Hy as <-. apply (Hdone p j x aj); auto; lia.
      * rewrite Hj' in Hy. injection Hy as <-. apply (Hdone p i x ai); auto; lia.
      * rewrite Hother in Hy by lia. apply (Hdone p q x y); auto.
  - eexists. split; [reflexivity|]. split; [reflexivity|]. split; [exact Hperm| |exact Hdone].
    intros k x y Hk Hx Hy. rewrite Hai in Hy. injection Hy as <-.
    destruct (decide (k = j)) as [->|Hkj].
    + rewrite Haj in Hx. injection Hx as <-. exact Hge.
    + apply (Hbest k x ai); auto; lia.
Qed.

Lemma innerLoop_pass (l0 a : list MarketAsset) (i : nat) :
  Forall scored l0 -> (i < length a)%nat ->
  sortInv l0 a i ->
  exists a', innerLoop i a = Some a' /\ length a' = length a /\ sortInv l0 a' (S i).
Proof.
  intros Hall Hi [Hperm Hdone]. unfold innerLoop.
  pose proof (foldl_seq_invariant
                (fun acc j => acc ≫= exchangeIfGreater i j)
                (fun j acc => exists a', acc = Some a' /\ length a' = length a
                                         /\ passInv l0 a' i j)
                (length a - (i + 1)) (i + 1) (Some a)) as H.
  destruct H as (a' & -> & Hlen & [Hperm' Hbest' Hdone']).
  - exists a. split; [reflexivity|]. split; [reflexivity|]. split; [exact Hperm| |exact Hdone].
    intros k x y Hk. lia.
  - intros j acc Hj (a1 & -> & Hlen1 & Hinv). cbn.
    destruct (exchangeIfGreater_pass l0 a1 i j Hall) as (a2 & -> & Hlen2 & Hinv2);
      [lia|exact Hinv|].
    exists a2. split; [reflexivity|]. split; [lia|exact Hinv2].
  - exists a'. split; [reflexivity|]. split; [exact Hlen|]. split; [exact Hperm'|].
    intros p q x y Hp Hpq Hx Hy.
    destruct (decide (p = i)) as [->|Hne].
    + apply (Hbest' q y x); auto. split; [lia|].
      apply lookup_lt_Some in Hy. lia.
    + apply (Hdone' p q x y); auto. lia.
Qed.

(** The two loops never index out of range, permute the slice and leave it
    in descending order of score. *)
Lemma sortByScore_sorted (l0 : list MarketAsset) :
  Forall scored l0 ->
  exists a, sortByScore l0 = Some a /\ a ≡ₚ l0 /\
            forall p q x y, (p < q)%nat -> a !! p = Some x -> a !! q = Some y ->
                            scoreValue y <= scoreValue x.
Proof.
  intros Hall. unfold sortByScore.
  pose proof (foldl_seq_invariant
                (fun acc i => acc ≫= innerLoop i)
                (fun i acc => exists a', acc = Some a' /\ length a' = length l0
                                         /\ sortInv l0 a' i)
                (length l0 - 1) 0 (Some l0)) as H.
  destruct H as (a & -> & Hlen & [Hperm Hdone]).
  - exists l0. split; [reflexivity|]. split; [reflexivity|]. split; [reflexivity|].
    intros p q x y Hp. lia.
  - intros i acc Hi (a1 & -> & Hlen1 & Hinv). cbn.
    destruct (innerLoop_pass l0 a1 i Hall) as (a2 & -> & Hlen2 & Hinv2); [lia|exact Hinv|].
    exists a2. split; [reflexivity|]. split; [lia|exact Hinv2].
  - exists a. split; [reflexivity|]. split; [exact Hperm|].
    intros p q x y Hpq Hx Hy. apply (Hdone p q x y); auto.
    apply lookup_lt_Some in Hy. lia.
Qed.

Lemma StronglySorted_of_lookup {A : Type} (R : A -> A -> Prop) (l : list A) :
  (forall p q x y, (p < q)%nat -> l !! p = Some x -> l !! q = Some y -> R x y) ->
  StronglySorted R l.
Proof.
  induction l as [|a l IH]; intros H; constructor.
  - apply IH. intros p q x y Hpq Hx Hy. apply (H (S p) (S q)); [lia|exact Hx|exact Hy].
  - apply Forall_lookup. intros k y Hy. apply (H 0%nat (S k)); [lia|reflexivity|exact Hy].
Qed.

(** C8, as the code has it: the asset list of the markets handler is a
    permutation of the assets built from the fetched records, in descending
    order of total score: every asset has a score greater than or equal to
    the score of every asset after it. The order among assets of equal score
    is not promised. *)
Theorem marketAssets_sorted_permutation (cgPrices : list CoinGeckoPrice) :
  exists assets : list MarketAsset,
    marketAssets cgPrices = Some assets
    /\ assets ≡ₚ (buildAsset stakingDataCache <$> cgPrices)
    /\ StronglySorted byScoreDesc assets.
Proof.
  assert (Hall : Forall scored (buildAsset stakingDataCache <$> cgPrices)).
  { apply Forall_fmap, Forall_forall. intros p _. apply buildAsset_scored. }
  destruct (sortByScore_sorted _ Hall) as (a & Ha & Hperm & Hsorted).
  exists a. split; [exact Ha|]. split; [exact Hperm|].
  apply StronglySorted_of_lookup. intros p q x y Hpq Hx Hy. unfold byScoreDesc.
  pose proof (scored_lookup _ _ _ _ Hall Hperm Hx) as Hsx.
  pose proof (scored_lookup _ _ _ _ Hall Hperm Hy) as Hsy.
  destruct (totals_compare _ _ Hsx Hsy) as [_ ->].
  apply Z.leb_le. exact (Hsorted p q x y Hpq Hx Hy).
Qed.

(** C8 as stated fails: ethereum and tron are fetched in this order with the
    same score 76, cosmos after them with the score 91; the handler lists
    cosmos, tron, ethereum, so the two assets of equal score change places. *)
Lemma marketAssets_not_stable :
  ~ (forall cgPrices assets,
       marketAssets cgPrices = Some assets ->
       stableOrder (buildAsset stakingDataCache <$> cgPrices) assets).
Proof.
  intros H.
  destruct (marketAssets fetched) as [assets|] eqn:Hm; [|vm_compute in Hm; discriminate].
  specialize (H fetched assets Hm 0%nat 1%nat _ _ ltac:(lia) eq_refl eq_refl
                ltac:(vm_compute; reflexivity)).
  destruct H as (i' & j' & Hlt & Hi & Hj).
  vm_compute in Hm. injection Hm as <-.
  apply (f_equal (fmap ma_ID)) in Hi, Hj.
  destruct i' as [|[|[|i']]]; try (vm_compute in Hi; discriminate Hi);
  destruct j' as [|[|[|j']]]; try (vm_compute in Hj; discriminate Hj); lia.
Qed.

(** The listing of the three sample records, by identifier and score. *)
Example marketAssets_fetched :
  (fun a => (ma_ID a, F64.toZ (ma_Score a))) <$> default [] (marketAssets fetched)
  = [("cosmos", Some 91); ("tron", Some 76); ("ethereum", Some 76)].
Proof. vm_compute. reflexivity. Qed.

(** ** Checks on concrete inputs *)

(** The constant 0.1 is the binary64 number 0x3FB999999999999A. *)
Example lit_one_tenth : F64.lit 1 10 = S754_finite false 7205759403792794 (-56).
Proof. vm_compute. reflexivity. Qed.

Example lit_valid :
  F64.valid (F64.lit 1 10) && F64.valid (F64.lit 5 100) && F64.valid (F64.lit 1 100) = true.
Proof. vm_compute. reflexivity. Qed.

Example stakingDataCache_size : size stakingDataCache = 42%nat.
Proof. vm_compute. reflexivity. Qed.

(** The scenario of the specification: rank 5, market cap 50 billion, volume
    6 billion, 10 percent below the all-time high, yield 12 and stake ratio
    60 give 25 + 25 + 20 + 15 + 15 = 100. *)
Example scenario_total_100 :
  let '(total, b) :=
    calculateScore (record "asset" 5 (F64.ofZ 50000000000) (F64.ofZ 6000000000) (F64.ofZ (-10)))
                   (Some (staticEntry (F64.ofZ 12) (F64.ofZ 60) F64.zero 0 F64.zero)) in
  (F64.toZ total, F64.toZ (MarketScore b), F64.toZ (StakingScore b),
   F64.toZ (SecurityScore b), F64.toZ (AdoptionScore b), F64.toZ (TechScore b))
  = (Some 100, Some 25, Some 25, Some 20, Some 15, Some 15).
Proof. vm_compute. reflexivity. Qed.

(** The lowest total: an unranked position beyond 250, no staking entry,
    NaN everywhere else. *)
Example lowest_total_22 :
  F64.toZ (fst (calculateScore (record "asset" 251 S754_nan S754_nan S754_nan) None)) = Some 22.
Proof. vm_compute. reflexivity. Qed.

(** One minute past the hour the entry is stale: when the provider answers,
    the entry is replaced and the answer is flagged as not cached. *)
Example refetch_after_ttl :
  let env := {| clock := fun _ => 61 * minute;
                upstream := fun _ _ => Reply 200 (Some [cosmosRecord]) |} in
  let '(r, w') := GetPrice "bitcoin" "usd" env sampleWorld in
  (pr_Cached <$> (match r with inl p => Some p | inr _ => None end),
   cp_UpdatedAt <$> prices w' !! "bitcoin:usd", length (sent w'))
  = (Some false, Some (61 * minute), 1%nat).
Proof. vm_compute. reflexivity. Qed.

(** * Further properties *)

(** ** The order of binary64 numbers *)

Ltac fold_Pos_compare :=
  repeat match goal with
         | |- context [Pos.compare_cont Eq ?a ?b] =>
             change (Pos.compare_cont Eq a b) with (Pos.compare a b)
         end.

Ltac order_cases :=
  repeat match goal with
         | s : bool |- _ => destruct s
         end;
  cbn; try discriminate; try reflexivity; fold_Pos_compare;
  repeat match goal with
         | |- context [(?a ?= ?b)%Z] => destruct (Z.compare_spec a b)
         end;
  try discriminate; try reflexivity; try lia; subst;
  repeat match goal with
         | |- context [(?a ?= ?b)%positive] => destruct (Pos.compare_spec a b)
         end;
  cbn; try discriminate; try reflexivity; try lia.

(** [>=] followed by [>] is [>], on all numbers; a NaN satisfies neither. *)
Lemma geb_gtb_trans (x y c : float64) :
  F64.geb x y = true -> F64.gtb y c = true -> F64.gtb x c = true.
Proof.
  unfold F64.geb, F64.gtb.
  destruct x as [sx|sx| |sx mx ex], y as [sy|sy| |sy my ey], c as [sc|sc| |sc mc ec];
    order_cases.
Qed.

Lemma geb_trans (x y c : float64) :
  F64.geb x y = true -> F64.geb y c = true -> F64.geb x c = true.
Proof.
  unfold F64.geb.
  destruct x as [sx|sx| |sx mx ex], y as [sy|sy| |sy my ey], c as [sc|sc| |sc mc ec];
    order_cases.
Qed.

Lemma geb_not_gtb (x y : float64) : F64.geb x y = true -> F64.gtb y x = false.
Proof.
  unfold F64.geb, F64.gtb.
  destruct x as [sx|sx| |sx mx ex], y as [sy|sy| |sy my ey]; order_cases.
Qed.

(** ** Scoring: monotonicity and edge inputs *)

(** Settles [exists z1 z2, toZ u = Some z1 /\ toZ v = Some z2 /\ z2 <= z1] on
    closed scores. *)
Ltac compare_scores :=
  do 2 eexists; split; [vm_compute; reflexivity|]; split; [vm_compute; reflexivity|];
  vm_compute; discriminate.

Ltac push_gtb H :=
  repeat match goal with
         | |- context [F64.gtb ?b ?c] =>
             lazymatch type of H with
             | F64.geb ?a b = true =>
                 let E := fresh "E" in
                 destruct (F64.gtb b c) eqn:E;
                 [rewrite (geb_gtb_trans a b c H E)|]
             end
         end.

Ltac push_geb H :=
  repeat match goal with
         | |- context [F64.geb ?b ?c] =>
             lazymatch type of H with
             | F64.geb ?a b = true =>
                 let E := fresh "E" in
                 destruct (F64.geb b c) eqn:E;
                 [rewrite (geb_trans a b c H E)|]
             end
         end.

Lemma securityScore_monotone (a b : float64) :
  F64.geb a b = true ->
  exists za zb, F64.toZ (securityScore a) = Some za /\ F64.toZ (securityScore b) = Some zb
                /\ zb <= za.
Proof.
  intros H. unfold securityScore. push_gtb H; case_ifs; compare_scores.
Qed.

Lemma techScore_monotone (a b : float64) :
  F64.geb a b = true ->
  exists za zb, F64.toZ (techScore a) = Some za /\ F64.toZ (techScore b) = Some zb
                /\ zb <= za.
Proof.
  intros H. unfold techScore. push_gtb H; case_ifs; compare_scores.
Qed.

(** X1: a market cap greater than or equal to another never gets a lower
    Security score, and an all-time-high change greater than or equal to
    another never gets a lower Tech score, whatever the other fields are. *)
Theorem security_tech_monotone (p1 p2 : CoinGeckoPrice) (st1 st2 : option StakingData) :
  (F64.geb (cg_MarketCap p1) (cg_MarketCap p2) = true ->
   exists z1 z2,
     F64.toZ (SecurityScore (snd (calculateScore p1 st1))) = Some z1
     /\ F64.toZ (SecurityScore (snd (calculateScore p2 st2))) = Some z2 /\ z2 <= z1)
  /\ (F64.geb (cg_ATHChangePercentage p1) (cg_ATHChangePercentage p2) = true ->
      exists z1 z2,
        F64.toZ (TechScore (snd (calculateScore p1 st1))) = Some z1
        /\ F64.toZ (TechScore (snd (calculateScore p2 st2))) = Some z2 /\ z2 <= z1).
Proof.
  unfold calculateScore. cbn [snd SecurityScore TechScore]. split.
  - apply securityScore_monotone.
  - apply techScore_monotone.
Qed.

Lemma security_tech_monotone_witness :
  let p1 := record "a" 1 (F64.ofZ 20000000000) F64.zero (F64.ofZ (-10)) in
  let p2 := record "b" 2 (F64.ofZ 500000000) F64.zero (F64.ofZ (-60)) in
  (F64.geb (cg_MarketCap p1) (cg_MarketCap p2) = true
   /\ F64.geb (cg_ATHChangePercentage p1) (cg_ATHChangePercentage p2) = true)
  /\ (exists z1 z2,
        F64.toZ (SecurityScore (snd (calculateScore p1 None))) = Some z1
        /\ F64.toZ (SecurityScore (snd (calculateScore p2 None))) = Some z2 /\ z2 <= z1)
  /\ (exists z1 z2,
        F64.toZ (TechScore (snd (calculateScore p1 None))) = Some z1
        /\ F64.toZ (TechScore (snd (calculateScore p2 None))) = Some z2 /\ z2 <= z1).
Proof.
  intros p1 p2.
  assert (H1 : F64.geb (cg_MarketCap p1) (cg_MarketCap p2) = true) by (vm_compute; reflexivity).
  assert (H2 : F64.geb (cg_ATHChangePercentage p1) (cg_ATHChangePercentage p2) = true)
    by (vm_compute; reflexivity).
  destruct (security_tech_monotone p1 p2 None None) as [Hs Ht].
  split; [split; assumption|]. split; [exact (Hs H1)|exact (Ht H2)].
Defined.

(** X2: between two staking entries, the one whose yield and whose stake
    ratio are both greater than or equal to the other's never gets the lower
    Staking score. *)
Theorem staking_monotone (st1 st2 : StakingData) (p1 p2 : CoinGeckoPrice) :
  F64.geb (sd_APY st1) (sd_APY st2) = true ->
  F64.geb (sd_StakingRatio st1) (sd_StakingRatio st2) = true ->
  exists z1 z2,
    F64.toZ (StakingScore (snd (calculateScore p1 (Some st1)))) = Some z1
    /\ F64.toZ (StakingScore (snd (calculateScore p2 (Some st2)))) = Some z2 /\ z2 <= z1.
Proof.
  intros Hy Hr. unfold calculateScore. cbn [snd StakingScore]. unfold stakingScore.
  cbv zeta.
  destruct (F64.geb (sd_StakingRatio st2) (F64.ofZ 50)) eqn:E50;
    [rewrite (geb_trans _ _ _ Hr E50)|];
    push_geb Hy; case_ifs; compare_scores.
Qed.

Lemma staking_monotone_witness :
  let st1 := staticEntry (F64.lit 2021 100) (F64.lit 6102 100) (F64.ofZ 5) 21 (F64.lit 1 100) in
  let st2 := staticEntry (F64.lit 313 100) (F64.lit 3046 100) (F64.ofZ 0) 27 (F64.ofZ 32) in
  (F64.geb (sd_APY st1) (sd_APY st2) = true
   /\ F64.geb (sd_StakingRatio st1) (sd_StakingRatio st2) = true)
  /\ exists z1 z2,
       F64.toZ (StakingScore (snd (calculateScore cosmosRecord (Some st1)))) = Some z1
       /\ F64.toZ (StakingScore (snd (calculateScore cosmosRecord (Some st2)))) = Some z2
       /\ z2 <= z1.
Proof.
  intros st1 st2.
  assert (H1 : F64.geb (sd_APY st1) (sd_APY st2) = true) by (vm_compute; reflexivity).
  assert (H2 : F64.geb (sd_StakingRatio st1) (sd_StakingRatio st2) = true)
    by (vm_compute; reflexivity).
  split; [split; assumption|].
  exact (staking_monotone st1 st2 cosmosRecord cosmosRecord H1 H2).
Defined.

(** X3: among ranked assets (rank at least 1), a better rank (a smaller
    number) never gets a lower Market score. *)
Theorem market_score_monotone (p1 p2 : CoinGeckoPrice) (st1 st2 : option StakingData) :
  1 <= cg_MarketCapRank p1 <= cg_MarketCapRank p2 ->
  exists z1 z2,
    F64.toZ (MarketScore (snd (calculateScore p1 st1))) = Some z1
    /\ F64.toZ (MarketScore (snd (calculateScore p2 st2))) = Some z2 /\ z2 <= z1.
Proof.
  intros H. unfold calculateScore. cbn [snd MarketScore]. unfold marketScore.
  case_Z_tests; cbn [andb]; try lia; compare_scores.
Qed.

Lemma market_score_monotone_witness :
  1 <= cg_MarketCapRank (record "a" 7 F64.zero F64.zero F64.zero)
    <= cg_MarketCapRank (record "b" 120 F64.zero F64.zero F64.zero)
  /\ exists z1 z2,
       F64.toZ (MarketScore (snd (calculateScore
                  (record "a" 7 F64.zero F64.zero F64.zero) None))) = Some z1
       /\ F64.toZ (MarketScore (snd (calculateScore
                  (record "b" 120 F64.zero F64.zero F64.zero) None))) = Some z2
       /\ z2 <= z1.
Proof.
  assert (H : 1 <= cg_MarketCapRank (record "a" 7 F64.zero F64.zero F64.zero)
                <= cg_MarketCapRank (record "b" 120 F64.zero F64.zero F64.zero))
    by (cbn; lia).
  split; [exact H|].
  exact (market_score_monotone (record "a" 7 F64.zero F64.zero F64.zero)
           (record "b" 120 F64.zero F64.zero F64.zero) None None H).
Defined.

Lemma stakingScore_some_range (st : StakingData) :
  exists zs, F64.toZ (stakingScore (Some st)) = Some zs /\ 5 <= zs <= 25.
Proof.
  unfold stakingScore. case_ifs; eexists; (split; [vm_compute; reflexivity|]); lia.
Qed.

(** X4: for the same record, the total with a staking entry is the total
    without one plus the Staking score, which lies between 5 and 25; the
    total without a staking entry lies between 22 and 75. *)
Theorem staking_entry_gain (price : CoinGeckoPrice) (st : StakingData) :
  exists z0 zs,
    F64.toZ (fst (calculateScore price None)) = Some z0
    /\ F64.toZ (StakingScore (snd (calculateScore price (Some st)))) = Some zs
    /\ F64.toZ (fst (calculateScore price (Some st))) = Some (z0 + zs)
    /\ 5 <= zs <= 25 /\ 22 <= z0 <= 75.
Proof.
  pose proof (all_brackets stakingGainOK ltac:(vm_compute; reflexivity) price (Some st)) as H.
  pose proof (all_brackets sumOK ltac:(vm_compute; reflexivity) price None) as H0.
  destruct (stakingScore_some_range st) as (zs & Hzs & Hrange).
  unfold calculateScore.
  cbn [fst snd MarketScore StakingScore SecurityScore AdoptionScore TechScore]. cbv zeta.
  unfold stakingGainOK in H. rewrite Hzs in H.
  change (stakingScore None) with F64.zero in *.
  unfold sumOK in H0.
  repeat match type of H0 with
         | match ?x with _ => _ end = true => destruct x eqn:?; [|discriminate H0]
         end.
  repeat match type of H with
         | match ?x with _ => _ end = true => destruct x eqn:?; [|discriminate H]
         end.
  apply andb_prop in H as [H1 H2]. apply Z.eqb_eq in H1. apply Z.leb_le in H2.
  apply andb_prop in H0 as [H0 _]. apply andb_prop in H0 as [_ H3]. apply Z.leb_le in H3.
  simplify_eq. do 2 eexists. repeat split; try eassumption; try reflexivity; lia.
Qed.

(** X5: a NaN among the inputs falls into the lowest bracket of the sub-scores
    that read it: a NaN market cap gives Security 8 and Adoption 5, a NaN
    volume gives Adoption 5, a NaN all-time-high change gives Tech 4, and a
    staking entry whose yield and stake ratio are NaN gives Staking 5. *)
Theorem nan_inputs_lowest_bracket (price : CoinGeckoPrice) (staking : option StakingData) :
  let b := snd (calculateScore price staking) in
  (F64.is_nan (cg_MarketCap price) = true ->
   SecurityScore b = F64.ofZ 8 /\ AdoptionScore b = F64.ofZ 5)
  /\ (F64.is_nan (cg_TotalVolume price) = true -> AdoptionScore b = F64.ofZ 5)
  /\ (F64.is_nan (cg_ATHChangePercentage price) = true -> TechScore b = F64.ofZ 4)
  /\ (forall st, staking = Some st ->
        F64.is_nan (sd_APY st) = true -> F64.is_nan (sd_StakingRatio st) = true ->
        StakingScore b = F64.ofZ 5).
Proof.
  unfold calculateScore.
  cbn [snd MarketScore StakingScore SecurityScore AdoptionScore TechScore]. cbv zeta.
  split; [|split; [|split]].
  - intros H. destruct (cg_MarketCap price); try discriminate. split; [reflexivity|].
    unfold adoptionScore. destruct (cg_TotalVolume price); reflexivity.
  - intros H. destruct (cg_TotalVolume price); try discriminate. reflexivity.
  - intros H. destruct (cg_ATHChangePercentage price); try discriminate. reflexivity.
  - intros st -> Hy Hr. unfold stakingScore.
    destruct (sd_APY st); try discriminate. destruct (sd_StakingRatio st); try discriminate.
    reflexivity.
Qed.

Lemma nan_inputs_lowest_bracket_witness :
  let price := record "a" 1 S754_nan S754_nan S754_nan in
  let st := staticEntry S754_nan S754_nan F64.zero 0 F64.zero in
  let b := snd (calculateScore price (Some st)) in
  (F64.is_nan (cg_MarketCap price) = true /\ F64.is_nan (cg_TotalVolume price) = true
   /\ F64.is_nan (cg_ATHChangePercentage price) = true
   /\ F64.is_nan (sd_APY st) = true /\ F64.is_nan (sd_StakingRatio st) = true)
  /\ SecurityScore b = F64.ofZ 8 /\ AdoptionScore b = F64.ofZ 5
  /\ TechScore b = F64.ofZ 4 /\ StakingScore b = F64.ofZ 5.
Proof.
  intros price st b.
  destruct (nan_inputs_lowest_bracket price (Some st)) as (Hm & _ & Ht & Hs).
  split; [repeat split|].
  destruct (Hm eq_refl) as [Hsec Had].
  split; [exact Hsec|]. split; [exact Had|]. split; [exact (Ht eq_refl)|].
  exact (Hs st eq_refl eq_refl eq_refl).
Defined.

(** ** Well-formed URLs *)

Lemma append_String (c : ascii) (s t : string) : String c s +:+ t = String c (s +:+ t).
Proof. reflexivity. Qed.

Lemma stringContainsCTLByte_app (s t : string) :
  stringContainsCTLByte (s +:+ t) = stringContainsCTLByte s || stringContainsCTLByte t.
Proof.
  induction s as [|c s IH]; [reflexivity|].
  rewrite append_String. cbn [stringContainsCTLByte]. rewrite IH. apply orb_assoc.
Qed.

Lemma containsByte_app (c : ascii) (s t : string) :
  containsByte c (s +:+ t) = containsByte c s || containsByte c t.
Proof.
  induction s as [|a s IH]; [reflexivity|].
  rewrite append_String. cbn [containsByte]. rewrite IH. apply orb_assoc.
Qed.

Lemma plainText_app (s t : string) : plainText (s +:+ t) = plainText s && plainText t.
Proof.
  unfold plainText. rewrite stringContainsCTLByte_app, containsByte_app.
  destruct (stringContainsCTLByte s), (stringContainsCTLByte t),
    (containsByte "#" s), (containsByte "#" t); reflexivity.
Qed.

Lemma strings_Cut_absent (s : string) (sep : ascii) :
  containsByte sep s = false -> strings_Cut s sep = (s, EmptyString).
Proof.
  induction s as [|c s IH]; [reflexivity|]. cbn [containsByte strings_Cut].
  intros H. apply orb_false_elim in H as [Hc Hs]. rewrite Hc, (IH Hs). reflexivity.
Qed.

(** Without [#] a URL of the provider parses exactly when it holds no control
    byte. *)
Lemma url_Parse_ok_no_fragment (url : string) :
  containsByte "#" url = false -> url_Parse_ok url = negb (stringContainsCTLByte url).
Proof.
  intros H. unfold url_Parse_ok. rewrite (strings_Cut_absent _ _ H). cbn [escapesOK].
  apply andb_true_r.
Qed.

Lemma url_Parse_ok_plain (url : string) : plainText url = true -> url_Parse_ok url = true.
Proof.
  unfold plainText. intros H. apply andb_prop in H as [H1 H2].
  apply negb_true_iff in H2. rewrite (url_Parse_ok_no_fragment _ H2). exact H1.
Qed.

Lemma plainText_Join (pieces : list string) :
  Forall (fun id => plainText id = true) pieces -> plainText (strings_Join pieces ",") = true.
Proof.
  induction 1 as [|x l Hx Hl IH]; [reflexivity|].
  destruct l as [|y l]; [exact Hx|].
  change (strings_Join (x :: y :: l) ",") with (x +:+ "," +:+ strings_Join (y :: l) ",").
  rewrite !plainText_app, Hx, IH. reflexivity.
Qed.

Lemma containsByte_Join (c : ascii) (pieces : list string) :
  c <> ","%char ->
  Forall (fun id => containsByte c id = false) pieces ->
  containsByte c (strings_Join pieces ",") = false.
Proof.
  intros Hc. induction 1 as [|x l Hx Hl IH]; [reflexivity|].
  destruct l as [|y l]; [exact Hx|].
  change (strings_Join (x :: y :: l) ",") with (x +:+ "," +:+ strings_Join (y :: l) ",").
  rewrite !containsByte_app, Hx, IH. cbn [containsByte].
  replace (Ascii.eqb "," c) with false; [reflexivity|].
  symmetry. apply Ascii.eqb_neq. congruence.
Qed.

Lemma stringContainsCTLByte_Join (pieces : list string) :
  Exists (fun id => stringContainsCTLByte id = true) pieces ->
  stringContainsCTLByte (strings_Join pieces ",") = true.
Proof.
  induction 1 as [x l Hx|x l Hl IH].
  - destruct l as [|y l]; [exact Hx|].
    change (strings_Join (x :: y :: l) ",") with (x +:+ "," +:+ strings_Join (y :: l) ",").
    rewrite stringContainsCTLByte_app, Hx. reflexivity.
  - destruct l as [|y l]; [inversion Hl|].
    change (strings_Join (x :: y :: l) ",") with (x +:+ "," +:+ strings_Join (y :: l) ",").
    rewrite !stringContainsCTLByte_app, IH. rewrite !orb_true_r. reflexivity.
Qed.

(** The URLs of the two fetchers parse when the currency and the identifiers
    are plain. *)
Lemma singleURL_plain (currency tokenID : string) :
  plainText currency = true -> plainText tokenID = true ->
  url_Parse_ok (singleURL coingeckoDemoURL currency tokenID) = true.
Proof.
  intros Hc Ht. apply url_Parse_ok_plain. unfold singleURL.
  rewrite !plainText_app, Hc, Ht. vm_compute. reflexivity.
Qed.

Lemma batchURL_plain (currency ids : string) :
  plainText currency = true -> plainText ids = true ->
  url_Parse_ok (batchURL coingeckoDemoURL currency ids) = true.
Proof.
  intros Hc Ht. apply url_Parse_ok_plain. unfold batchURL.
  rewrite !plainText_app, Hc, Ht. vm_compute. reflexivity.
Qed.

(** They do not parse when the currency or the identifiers hold a control
    byte and no [#] precedes it. *)
Lemma singleURL_control (currency tokenID : string) :
  containsByte "#" currency = false -> containsByte "#" tokenID = false ->
  stringContainsCTLByte currency || stringContainsCTLByte tokenID = true ->
  url_Parse_ok (singleURL coingeckoDemoURL currency tokenID) = false.
Proof.
  intros Hc Ht Hctl. rewrite url_Parse_ok_no_fragment.
  - unfold singleURL. rewrite !stringContainsCTLByte_app.
    apply orb_prop in Hctl as [-> | ->]; rewrite ?orb_true_r; reflexivity.
  - unfold singleURL. rewrite !containsByte_app, Hc, Ht. vm_compute. reflexivity.
Qed.

Lemma batchURL_control (currency ids : string) :
  containsByte "#" currency = false -> containsByte "#" ids = false ->
  stringContainsCTLByte currency || stringContainsCTLByte ids = true ->
  url_Parse_ok (batchURL coingeckoDemoURL currency ids) = false.
Proof.
  intros Hc Ht Hctl. rewrite url_Parse_ok_no_fragment.
  - unfold batchURL. rewrite !stringContainsCTLByte_app.
    apply orb_prop in Hctl as [-> | ->]; rewrite ?orb_true_r; reflexivity.
  - unfold batchURL. rewrite !containsByte_app, Hc, Ht. vm_compute. reflexivity.
Qed.

(** The keys of the static staking table are plain, so that the URL of
    [handleMarkets] parses in whatever order the map is iterated. *)
Lemma stakingKeys_buildable (tokenIDs : list string) :
  tokenIDs ≡ₚ (map_to_list stakingDataCache).*1 ->
  url_Parse_ok
    (coingeckoDemoURL +:+ "/coins/markets?vs_currency=usd&ids=" +:+ strings_Join tokenIDs ","
     +:+ "&order=market_cap_desc&per_page=250&page=1&sparkline=false&price_change_percentage=7d")
  = true.
Proof.
  intros Hperm. apply url_Parse_ok_plain.
  rewrite !plainText_app, plainText_Join; [vm_compute; reflexivity|].
  rewrite Hperm. apply Forall_forall. intros id Hin.
  apply (Forall_forall (fun id => plainText id = true) (map_to_list stakingDataCache).*1);
    [|exact Hin].
  apply Forall_fold_right. vm_compute. repeat split.
Qed.

(** ** The upstream fetcher *)

Lemma fetchFromCoinGecko_snd (env : Env) (w : World) (tokenID currency : string) :
  snd (fetchFromCoinGecko tokenID currency env w)
  = if url_Parse_ok (singleURL coingeckoDemoURL currency tokenID)
    then sending (singleRequest tokenID currency) w
    else w.
Proof.
  unfold fetchFromCoinGecko, http_NewRequestWithContext. cbv zeta.
  destruct (url_Parse_ok _); [|reflexivity].
  unfold bind, httpGet, ret, sending, singleRequest.
  destruct (upstream env _ _) as [|status [[|p ps]|]];
    try destruct (negb (status =? http_StatusOK)); reflexivity.
Qed.

(** A fetch whose URL does not parse returns the error at once. *)
Lemma fetchFromCoinGecko_unbuilt (env : Env) (w : World) (tokenID currency : string) :
  url_Parse_ok (singleURL coingeckoDemoURL currency tokenID) = false ->
  fetchFromCoinGecko tokenID currency env w = (inr ErrParseURL, w).
Proof.
  intros H. unfold fetchFromCoinGecko, http_NewRequestWithContext. cbv zeta.
  rewrite H. reflexivity.
Qed.

Lemma fetchMultiple_unbuilt (env : Env) (w : World) (ids : list string) (currency : string) :
  url_Parse_ok (batchURL coingeckoDemoURL currency (strings_Join ids ",")) = false ->
  fetchMultipleFromCoinGecko ids currency env w = (inr ErrParseURL, w).
Proof.
  intros H. unfold fetchMultipleFromCoinGecko, http_NewRequestWithContext. cbv zeta.
  rewrite H. reflexivity.
Qed.

(** A fetch whose URL parses: the reply decides. *)
Lemma fetchFromCoinGecko_built (env : Env) (w : World) (tokenID currency : string) :
  url_Parse_ok (singleURL coingeckoDemoURL currency tokenID) = true ->
  fetchFromCoinGecko tokenID currency env w
  = (match upstream env (length (sent w)) (singleRequest tokenID currency) with
     | NoReply => inr ErrTransport
     | Reply status body =>
         if negb (status =? http_StatusOK) then inr (ErrStatus status)
         else match body with
              | None => inr ErrDecode
              | Some [] => inr (ErrNotFound tokenID)
              | Some (p :: _) => inl p
              end
     end, sending (singleRequest tokenID currency) w).
Proof.
  intros H. unfold fetchFromCoinGecko, http_NewRequestWithContext. cbv zeta.
  rewrite H. unfold bind, httpGet, ret, sending, singleRequest.
  destruct (upstream env _ _) as [|status [[|p ps]|]];
    try destruct (negb (status =? http_StatusOK)); reflexivity.
Qed.

Lemma fetchMultiple_built (env : Env) (w : World) (ids : list string) (currency : string) :
  url_Parse_ok (batchURL coingeckoDemoURL currency (strings_Join ids ",")) = true ->
  fetchMultipleFromCoinGecko ids currency env w
  = (match upstream env (length (sent w)) (batchRequest ids currency) with
     | NoReply => inr ErrTransport
     | Reply status body =>
         if negb (status =? http_StatusOK) then inr (ErrStatus status)
         else match body with
              | None => inr ErrDecode
              | Some ps => inl ps
              end
     end, sending (batchRequest ids currency) w).
Proof.
  intros H. unfold fetchMultipleFromCoinGecko, http_NewRequestWithContext. cbv zeta.
  rewrite H. unfold bind, httpGet, ret, sending, batchRequest.
  destruct (upstream env _ _) as [|status [ps|]];
    try destruct (negb (status =? http_StatusOK)); reflexivity.
Qed.

(** A successful fetch has sent its request. *)
Lemma fetchFromCoinGecko_ok_sent (env : Env) (w : World) (tokenID currency : string)
    (p : CoinGeckoPrice) :
  fst (fetchFromCoinGecko tokenID currency env w) = inl p ->
  snd (fetchFromCoinGecko tokenID currency env w) = sending (singleRequest tokenID currency) w.
Proof.
  intros H. rewrite fetchFromCoinGecko_snd.
  destruct (url_Parse_ok _) eqn:Hurl; [reflexivity|].
  rewrite (fetchFromCoinGecko_unbuilt env w _ _ Hurl) in H. discriminate H.
Qed.

Lemma fetchMultiple_ok_sent (env : Env) (w : World) (ids : list string) (currency : string)
    (ps : list CoinGeckoPrice) :
  fst (fetchMultipleFromCoinGecko ids currency env w) = inl ps ->
  snd (fetchMultipleFromCoinGecko ids currency env w) = sending (batchRequest ids currency) w.
Proof.
  intros H. rewrite fetchMultiple_snd.
  destruct (url_Parse_ok _) eqn:Hurl; [reflexivity|].
  rewrite (fetchMultiple_unbuilt env w _ _ Hurl) in H. discriminate H.
Qed.

(** X6: a fetch whose currency and identifiers are plain (no control byte, no
    [#]) sends one request, touches nothing else, and the reply decides: the
    single fetch succeeds exactly when the provider answers 200 with a list
    that is not empty, and returns its first record; a 200 answer with an
    empty list is "token not found" for the single fetch and a success with
    no records for the batch fetch; any other status is an error whatever the
    body. A control byte in the currency or in an identifier (and no [#])
    makes the fetch fail before anything is sent, whatever the provider would
    answer: the world is left as it was. *)
Theorem fetch_outcomes (env : Env) (w : World) (tokenID : string) (tokenIDs : list string)
    (currency : string) :
  let one := upstream env (length (sent w)) (singleRequest tokenID currency) in
  let many := upstream env (length (sent w)) (batchRequest tokenIDs currency) in
  (plainText currency = true -> plainText tokenID = true ->
   snd (fetchFromCoinGecko tokenID currency env w) = sending (singleRequest tokenID currency) w
   /\ (forall p, fst (fetchFromCoinGecko tokenID currency env w) = inl p <->
                 exists rest, one = Reply 200 (Some (p :: rest)))
   /\ (one = Reply 200 (Some []) ->
       fst (fetchFromCoinGecko tokenID currency env w) = inr (ErrNotFound tokenID))
   /\ (forall status body, status <> 200 -> one = Reply status body ->
       fst (fetchFromCoinGecko tokenID currency env w) = inr (ErrStatus status)))
  /\ (plainText currency = true -> Forall (fun id => plainText id = true) tokenIDs ->
      snd (fetchMultipleFromCoinGecko tokenIDs currency env w)
      = sending (batchRequest tokenIDs currency) w
      /\ (forall ps, fst (fetchMultipleFromCoinGecko tokenIDs currency env w) = inl ps <->
                     many = Reply 200 (Some ps))
      /\ (forall status body, status <> 200 -> many = Reply status body ->
          fst (fetchMultipleFromCoinGecko tokenIDs currency env w) = inr (ErrStatus status)))
  /\ (containsByte "#" currency = false -> containsByte "#" tokenID = false ->
      stringContainsCTLByte currency || stringContainsCTLByte tokenID = true ->
      fetchFromCoinGecko tokenID currency env w = (inr ErrParseURL, w))
  /\ (containsByte "#" currency = false ->
      Forall (fun id => containsByte "#" id = false) tokenIDs ->
      stringContainsCTLByte currency = true
      \/ Exists (fun id => stringContainsCTLByte id = true) tokenIDs ->
      fetchMultipleFromCoinGecko tokenIDs currency env w = (inr ErrParseURL, w)).
Proof.
  cbv zeta. split; [|split; [|split]].
  - intros Hc Ht. rewrite (fetchFromCoinGecko_built env w _ _ (singleURL_plain _ _ Hc Ht)).
    cbn [fst snd]. split; [reflexivity|]. split; [|split].
    + intros p. split.
      * destruct (upstream env _ _) as [|status [[|q ps]|]]; try discriminate;
          destruct (Z.eqb_spec status http_StatusOK) as [->|Hne]; cbn [negb];
          try discriminate.
        intros [= <-]. eauto.
      * intros (rest & ->). reflexivity.
    + intros ->. reflexivity.
    + intros status body Hstatus ->.
      destruct (Z.eqb_spec status http_StatusOK) as [->|Hne]; [contradiction|reflexivity].
  - intros Hc Ht.
    rewrite (fetchMultiple_built env w _ _ (batchURL_plain _ _ Hc (plainText_Join _ Ht))).
    cbn [fst snd]. split; [reflexivity|]. split.
    + intros ps. split.
      * destruct (upstream env _ _) as [|status [qs|]]; try discriminate;
          destruct (Z.eqb_spec status http_StatusOK) as [->|Hne]; cbn [negb];
          try discriminate.
        intros [= <-]. reflexivity.
      * intros ->. reflexivity.
    + intros status body Hstatus ->.
      destruct (Z.eqb_spec status http_StatusOK) as [->|Hne]; [contradiction|reflexivity].
  - intros Hc Ht Hctl. apply fetchFromCoinGecko_unbuilt, singleURL_control; assumption.
  - intros Hc Ht Hctl. apply fetchMultiple_unbuilt, batchURL_control.
    + exact Hc.
    + apply containsByte_Join; [discriminate|exact Ht].
    + destruct Hctl as [->|Hex]; [reflexivity|].
      rewrite (stringContainsCTLByte_Join _ Hex). apply orb_true_r.
Qed.

Lemma fetch_outcomes_witness :
  ((plainText "usd" = true /\ plainText "nosuchcoin" = true
    /\ upstream (onlineAt 0 []) (length (sent sampleWorld)) (singleRequest "nosuchcoin" "usd")
       = Reply 200 (Some []))
   /\ fst (fetchFromCoinGecko "nosuchcoin" "usd" (onlineAt 0 []) sampleWorld)
      = inr (ErrNotFound "nosuchcoin"))
  /\ ((containsByte "#" "usd" = false /\ containsByte "#" lineFeed = false
       /\ stringContainsCTLByte "usd" || stringContainsCTLByte lineFeed = true)
      /\ fetchFromCoinGecko lineFeed "usd" (onlineAt 0 [cosmosRecord]) sampleWorld
         = (inr ErrParseURL, sampleWorld)).
Proof.
  destruct (fetch_outcomes (onlineAt 0 []) sampleWorld "nosuchcoin" ["nosuchcoin"] "usd")
    as (Hone & _).
  destruct (Hone eq_refl eq_refl) as (_ & _ & Hnone & _).
  split; [split; [repeat split|exact (Hnone eq_refl)]|].
  destruct (fetch_outcomes (onlineAt 0 [cosmosRecord]) sampleWorld lineFeed [lineFeed] "usd")
    as (_ & _ & Hctl & _).
  split; [repeat split|exact (Hctl eq_refl eq_refl eq_refl)].
Defined.

(** ** The resolver: what a single lookup does to the world *)

(** A fresh entry is answered at once; only the clock has been read. *)
Lemma GetPrice_hit (env : Env) (w : World) (tokenID currency : string) (c : CachedPrice) :
  prices w !! cacheKey tokenID currency = Some c ->
  clock env (ticks w) - cp_UpdatedAt c < cacheTTL ->
  GetPrice tokenID currency env w = (inl (cachedResponse tokenID c), tick w).
Proof.
  intros Hc Hf. unfold GetPrice, bind, lookupPrice, isFresh. rewrite Hc.
  unfold Since, bind, Now, ret. rewrite Time_Sub_lt_TTL.
  apply Z.ltb_lt in Hf. rewrite Hf. reflexivity.
Qed.

(** Without a fresh entry the outcome is that of the fetch, made in a world
    where the clock has been read if and only if the key has an entry. *)
Lemma GetPrice_miss (env : Env) (w : World) (tokenID currency : string) :
  (forall c, prices w !! cacheKey tokenID currency = Some c ->
             cacheTTL <= clock env (ticks w) - cp_UpdatedAt c) ->
  let w0 := match prices w !! cacheKey tokenID currency with
            | Some _ => tick w
            | None => w
            end in
  GetPrice tokenID currency env w =
    match fetchFromCoinGecko tokenID currency env w0 with
    | (inr err, w1) =>
        (match prices w !! cacheKey tokenID currency with
         | Some c => inl (cachedResponse tokenID c)
         | None => inr err
         end, w1)
    | (inl p, w1) =>
        (inl (fetchedResponse tokenID p currency (clock env (S (ticks w1)))),
         {| prices := <[cacheKey tokenID currency := freshEntry p currency (clock env (ticks w1))]>
                        (prices w1);
            ticks := S (S (ticks w1)); sent := sent w1; logged := logged w1 |})
    end.
Proof.
  intros Hstale. cbv zeta. unfold GetPrice, bind, lookupPrice, isFresh.
  destruct (prices w !! cacheKey tokenID currency) as [c|] eqn:Hc.
  - unfold Since, bind, Now, ret. rewrite Time_Sub_lt_TTL.
    specialize (Hstale c eq_refl). apply Z.ltb_ge in Hstale. rewrite Hstale.
    fold (tick w).
    destruct (fetchFromCoinGecko tokenID currency env (tick w)) as [[p|e] w1]; reflexivity.
  - unfold ret.
    destruct (fetchFromCoinGecko tokenID currency env w) as [[p|e] w1]; reflexivity.
Qed.

Lemma GetPrice_fetched (env : Env) (w : World) (tokenID currency : string)
    (p : CoinGeckoPrice) :
  (forall c, prices w !! cacheKey tokenID currency = Some c ->
             cacheTTL <= clock env (ticks w) - cp_UpdatedAt c) ->
  fst (fetchFromCoinGecko tokenID currency env w) = inl p ->
  let n := readingAfterTest w (cacheKey tokenID currency) in
  GetPrice tokenID currency env w
  = (inl (fetchedResponse tokenID p currency (clock env (S n))),
     {| prices := <[cacheKey tokenID currency := freshEntry p currency (clock env n)]> (prices w);
        ticks := S (S n);
        sent := sent w ++ [singleRequest tokenID currency];
        logged := logged w |}).
Proof.
  intros Hstale Hfetch. cbv zeta. unfold readingAfterTest.
  rewrite GetPrice_miss by exact Hstale.
  destruct (prices w !! cacheKey tokenID currency) as [c|] eqn:Hc.
  - pose proof (fetchFromCoinGecko_tick env w tokenID currency) as Hf.
    rewrite Hfetch in Hf.
    pose proof (fetchFromCoinGecko_ok_sent env (tick w) tokenID currency p Hf) as Hs.
    destruct (fetchFromCoinGecko tokenID currency env (tick w)) as [r w1].
    cbn [fst snd] in *. subst. reflexivity.
  - pose proof (fetchFromCoinGecko_ok_sent env w tokenID currency p Hfetch) as Hs.
    destruct (fetchFromCoinGecko tokenID currency env w) as [r w1].
    cbn [fst snd] in *. subst. reflexivity.
Qed.

(** X7: when the key has no fresh entry and the fetch succeeds, [GetPrice]
    answers with the fetched record under the requested identifier, flagged
    [Cached = false]; it replaces the entry of the key alone by the fetched
    values stamped with the clock reading that follows the freshness test,
    and has sent exactly one request. *)
Theorem GetPrice_fetch_success (env : Env) (w : World) (tokenID currency : string)
    (p : CoinGeckoPrice) :
  (forall c, prices w !! cacheKey tokenID currency = Some c ->
             3600 * 1000000000 <= clock env (ticks w) - cp_UpdatedAt c) ->
  fst (fetchFromCoinGecko tokenID currency env w) = inl p ->
  let n := readingAfterTest w (cacheKey tokenID currency) in
  GetPrice tokenID currency env w
  = (inl (fetchedResponse tokenID p currency (clock env (S n))),
     {| prices := <[cacheKey tokenID currency := freshEntry p currency (clock env n)]> (prices w);
        ticks := S (S n);
        sent := sent w ++ [singleRequest tokenID currency];
        logged := logged w |}).
Proof.
  intros Hstale Hfetch. apply GetPrice_fetched; [|exact Hfetch].
  intros c Hc. rewrite cacheTTL_one_hour. auto.
Qed.

Lemma GetPrice_fetch_success_witness :
  ((forall c, prices sampleWorld !! cacheKey "cosmos" "usd" = Some c ->
              3600 * 1000000000
              <= clock (onlineAt (5 * minute) [cosmosRecord]) (ticks sampleWorld)
                 - cp_UpdatedAt c)
   /\ fst (fetchFromCoinGecko "cosmos" "usd" (onlineAt (5 * minute) [cosmosRecord]) sampleWorld)
      = inl cosmosRecord)
  /\ fst (GetPrice "cosmos" "usd" (onlineAt (5 * minute) [cosmosRecord]) sampleWorld)
     = inl (fetchedResponse "cosmos" cosmosRecord "usd" (5 * minute))
  /\ prices (snd (GetPrice "cosmos" "usd" (onlineAt (5 * minute) [cosmosRecord]) sampleWorld))
       !! "cosmos:usd"
     = Some (freshEntry cosmosRecord "usd" (5 * minute)).
Proof.
  assert (Hc : prices sampleWorld !! cacheKey "cosmos" "usd" = None)
    by (vm_compute; reflexivity).
  assert (H1 : forall c, prices sampleWorld !! cacheKey "cosmos" "usd" = Some c ->
                 3600 * 1000000000
                 <= clock (onlineAt (5 * minute) [cosmosRecord]) (ticks sampleWorld)
                    - cp_UpdatedAt c)
    by (intros c H; rewrite Hc in H; discriminate H).
  assert (H2 : fst (fetchFromCoinGecko "cosmos" "usd" (onlineAt (5 * minute) [cosmosRecord])
                      sampleWorld) = inl cosmosRecord) by reflexivity.
  split; [split; assumption|].
  rewrite (GetPrice_fetch_success (onlineAt (5 * minute) [cosmosRecord]) sampleWorld
             "cosmos" "usd" cosmosRecord H1 H2).
  split; [reflexivity|]. cbn [snd prices]. apply lookup_insert_eq.
Defined.

(** X8: a successful fetch followed by a second lookup of the same key less
    than one hour after the entry was written is a round trip through the
    cache: the second lookup returns the fetched price, market cap, volume and
    24h change under the requested currency, flagged [Cached = true], sends
    no request and leaves the cache as the first lookup left it. *)
Theorem GetPrice_round_trip (env : Env) (w : World) (tokenID currency : string)
    (p : CoinGeckoPrice) :
  (forall c, prices w !! cacheKey tokenID currency = Some c ->
             3600 * 1000000000 <= clock env (ticks w) - cp_UpdatedAt c) ->
  fst (fetchFromCoinGecko tokenID currency env w) = inl p ->
  let w1 := snd (GetPrice tokenID currency env w) in
  (forall c, prices w1 !! cacheKey tokenID currency = Some c ->
             clock env (ticks w1) - cp_UpdatedAt c < 3600 * 1000000000) ->
  exists r,
    fst (GetPrice tokenID currency env w1) = inl r
    /\ pr_Cached r = true
    /\ pr_Price r = cg_CurrentPrice p
    /\ pr_Currency r = currency
    /\ pr_MarketCap r = cg_MarketCap p
    /\ pr_Volume24h r = cg_TotalVolume p
    /\ pr_Change24h r = cg_PriceChangePercentage24h p
    /\ sent (snd (GetPrice tokenID currency env w1)) = sent w1
    /\ prices (snd (GetPrice tokenID currency env w1)) = prices w1.
Proof.
  intros Hstale Hfetch. cbv zeta.
  rewrite (GetPrice_fetched env w tokenID currency p)
    by (try (intros c Hc; rewrite cacheTTL_one_hour; auto); exact Hfetch).
  cbn [snd].
  set (n := readingAfterTest w (cacheKey tokenID currency)).
  set (w1 := {| prices := _; ticks := _; sent := _; logged := _ |}).
  intros Hfresh.
  assert (Hc : prices w1 !! cacheKey tokenID currency
               = Some (freshEntry p currency (clock env n))).
  { unfold w1. cbn [prices]. apply lookup_insert_eq. }
  specialize (Hfresh _ Hc).
  rewrite (GetPrice_hit env w1 tokenID currency _ Hc)
    by (rewrite cacheTTL_one_hour; exact Hfresh).
  eexists. split; [reflexivity|]. repeat split.
Qed.

Lemma GetPrice_round_trip_witness :
  let env := onlineAt (5 * minute) [cosmosRecord] in
  let w1 := snd (GetPrice "cosmos" "usd" env sampleWorld) in
  ((forall c, prices sampleWorld !! cacheKey "cosmos" "usd" = Some c ->
              3600 * 1000000000 <= clock env (ticks sampleWorld) - cp_UpdatedAt c)
   /\ fst (fetchFromCoinGecko "cosmos" "usd" env sampleWorld) = inl cosmosRecord
   /\ (forall c, prices w1 !! cacheKey "cosmos" "usd" = Some c ->
                 clock env (ticks w1) - cp_UpdatedAt c < 3600 * 1000000000))
  /\ exists r,
       fst (GetPrice "cosmos" "usd" env w1) = inl r
       /\ pr_Cached r = true /\ pr_Price r = cg_CurrentPrice cosmosRecord
       /\ sent (snd (GetPrice "cosmos" "usd" env w1)) = sent w1.
Proof.
  intros env w1.
  assert (Hc : prices sampleWorld !! cacheKey "cosmos" "usd" = None)
    by (vm_compute; reflexivity).
  assert (H1 : forall c, prices sampleWorld !! cacheKey "cosmos" "usd" = Some c ->
                 3600 * 1000000000 <= clock env (ticks sampleWorld) - cp_UpdatedAt c)
    by (intros c H; rewrite Hc in H; discriminate H).
  assert (H2 : fst (fetchFromCoinGecko "cosmos" "usd" env sampleWorld) = inl cosmosRecord)
    by reflexivity.
  assert (Hc1 : prices w1 !! cacheKey "cosmos" "usd"
                = Some (freshEntry cosmosRecord "usd" (5 * minute)))
    by (vm_compute; reflexivity).
  assert (H3 : forall c, prices w1 !! cacheKey "cosmos" "usd" = Some c ->
                 clock env (ticks w1) - cp_UpdatedAt c < 3600 * 1000000000)
    by (intros c H; rewrite Hc1 in H; injection H as <-; vm_compute; reflexivity).
  split; [repeat split; assumption|].
  destruct (GetPrice_round_trip env sampleWorld "cosmos" "usd" cosmosRecord H1 H2 H3)
    as (r & Hr & Hcached & Hprice & _ & _ & _ & _ & Hsent & _).
  exists r. repeat split; assumption.
Defined.

Ltac frame_goals :=
  repeat split; auto;
  first
    [ discriminate
    | solve [intros _; rewrite lookup_insert_eq; eauto]
    | solve [intros k Hk; rewrite lookup_insert_ne by congruence; reflexivity]
    | solve [intros ? [= <-]; reflexivity]
    | solve [intros ? [= <-]; discriminate]
    | solve [intros [? [=]]]
    | idtac ].

(** X9: whatever the provider does, [GetPrice] changes no cache slot but the
    one of its own key and never empties that one; it sends at most one
    request and logs nothing; a response carries the requested identifier;
    an error is returned only when the key had no entry, and then the cache
    is left as it was. *)
Theorem GetPrice_frame (env : Env) (w : World) (tokenID currency : string) :
  let r := fst (GetPrice tokenID currency env w) in
  let w' := snd (GetPrice tokenID currency env w) in
  (forall k, k <> cacheKey tokenID currency -> prices w' !! k = prices w !! k)
  /\ (is_Some (prices w !! cacheKey tokenID currency) ->
      is_Some (prices w' !! cacheKey tokenID currency))
  /\ (sent w' = sent w \/ sent w' = sent w ++ [singleRequest tokenID currency])
  /\ logged w' = logged w
  /\ (forall resp, r = inl resp -> pr_ID resp = tokenID)
  /\ (forall err, r = inr err ->
        prices w !! cacheKey tokenID currency = None /\ prices w' = prices w).
Proof.
  cbv zeta.
  destruct (prices w !! cacheKey tokenID currency) as [c|] eqn:Hc.
  - destruct (Z.lt_ge_cases (clock env (ticks w) - cp_UpdatedAt c) cacheTTL) as [Hf|Hs].
    + rewrite (GetPrice_hit env w tokenID currency c Hc Hf). cbn [fst snd tick prices sent logged].
      rewrite Hc. frame_goals.
    + rewrite GetPrice_miss by (intros c' Hc'; rewrite Hc in Hc'; injection Hc' as <-; exact Hs).
      rewrite Hc.
      pose proof (fetchFromCoinGecko_snd env (tick w) tokenID currency) as Hsnd.
      destruct (url_Parse_ok (singleURL coingeckoDemoURL currency tokenID));
      destruct (fetchFromCoinGecko tokenID currency env (tick w)) as [[p|e] w1];
        cbn [fst snd] in *; subst w1; cbn [sending tick prices sent logged];
        try rewrite Hc; frame_goals.
  - rewrite GetPrice_miss by (intros c' Hc'; rewrite Hc in Hc'; discriminate).
    rewrite Hc.
    pose proof (fetchFromCoinGecko_snd env w tokenID currency) as Hsnd.
    destruct (url_Parse_ok (singleURL coingeckoDemoURL currency tokenID));
    destruct (fetchFromCoinGecko tokenID currency env w) as [[p|e] w1];
      cbn [fst snd] in *; subst w1; cbn [sending tick prices sent logged];
      try rewrite Hc; frame_goals.
Qed.

Lemma GetPrice_frame_witness :
  let env := onlineAt (5 * minute) [cosmosRecord] in
  ("bitcoin:usd" <> cacheKey "cosmos" "usd")
  /\ prices (snd (GetPrice "cosmos" "usd" env sampleWorld)) !! "bitcoin:usd"
     = prices sampleWorld !! "bitcoin:usd".
Proof.
  intros env.
  assert (Hne : "bitcoin:usd" <> cacheKey "cosmos" "usd") by (vm_compute; discriminate).
  split; [exact Hne|].
  destruct (GetPrice_frame env sampleWorld "cosmos" "usd") as (Hframe & _).
  exact (Hframe "bitcoin:usd" Hne).
Defined.

(** ** Cache keys *)

Lemma cacheKey_inj_no_colon (t1 t2 c1 c2 : string) :
  containsByte ":" t1 = false -> containsByte ":" t2 = false ->
  cacheKey t1 c1 = cacheKey t2 c2 -> t1 = t2 /\ c1 = c2.
Proof.
  unfold cacheKey. revert t2.
  induction t1 as [|a t1 IH]; intros [|b t2] H1 H2 Heq; simpl in *.
  - injection Heq as Heq. auto.
  - injection Heq as Hb _. subst b. discriminate.
  - injection Heq as Ha _. subst a. discriminate.
  - injection Heq as Hab Heq. subst b. apply orb_false_elim in H1 as [_ H1].
    apply orb_false_elim in H2 as [_ H2].
    destruct (IH t2 H1 H2 Heq) as [-> ->]. auto.
Qed.

(** X10: two pairs (token, currency) whose tokens hold no colon have
    different cache keys unless they are equal, and one token never shares a
    key between two currencies; but a colon in the token makes slots collide:
    the token [t:c] in [usd] and the token [t] in the currency [c:usd] have
    the same key. *)
Theorem cacheKey_slots :
  (forall t1 t2 c1 c2,
      containsByte ":" t1 = false -> containsByte ":" t2 = false ->
      cacheKey t1 c1 = cacheKey t2 c2 -> t1 = t2 /\ c1 = c2)
  /\ (forall t c1 c2, cacheKey t c1 = cacheKey t c2 -> c1 = c2)
  /\ (forall t c, cacheKey (t +:+ ":" +:+ c) "usd" = cacheKey t (c +:+ ":usd")).
Proof.
  split; [exact cacheKey_inj_no_colon|]. split.
  - intros t c1 c2 H. unfold cacheKey in H.
    apply (inj (String.append t)) in H. simpl in H. injection H as H. exact H.
  - intros t c. unfold cacheKey.
    induction t as [|a t IH]; [reflexivity|].
    change (String a ((t +:+ ":" +:+ c) +:+ ":" +:+ "usd")
            = String a (t +:+ ":" +:+ c +:+ ":usd")).
    f_equal. exact IH.
Qed.

Lemma cacheKey_slots_witness :
  (containsByte ":" "bitcoin" = false /\ containsByte ":" "ethereum" = false)
  /\ (forall c1 c2, cacheKey "bitcoin" c1 = cacheKey "ethereum" c2 -> False).
Proof.
  assert (H1 : containsByte ":" "bitcoin" = false) by reflexivity.
  assert (H2 : containsByte ":" "ethereum" = false) by reflexivity.
  split; [split; assumption|].
  intros c1 c2 Heq.
  destruct cacheKey_slots as (Hinj & _).
  destruct (Hinj "bitcoin" "ethereum" c1 c2 H1 H2 Heq) as [Ht _]. discriminate Ht.
Defined.

(** ** The resolver: what a batch lookup does to the world *)

(** The second loop: every fetched record is written to the cache and to the
    result map; for an identifier the provider returns twice the last record
    stays. *)
Lemma writeBack_loop (currency : string) (env : Env) (ps : list CoinGeckoPrice) :
  forall resp w,
    let resp' := fst (forRange ps (writeBack currency) resp env w) in
    let w' := snd (forRange ps (writeBack currency) resp env w) in
    sent w' = sent w /\ logged w' = logged w
    /\ (forall k, (forall p, p ∈ ps -> cacheKey (cg_ID p) currency <> k) ->
          prices w' !! k = prices w !! k)
    /\ (forall k, is_Some (prices w !! k) -> is_Some (prices w' !! k))
    /\ (forall p, p ∈ ps ->
          exists q n, q ∈ ps /\ cacheKey (cg_ID q) currency = cacheKey (cg_ID p) currency
                      /\ prices w' !! cacheKey (cg_ID p) currency
                         = Some (freshEntry q currency (clock env n)))
    /\ (forall id, (forall p, p ∈ ps -> cg_ID p <> id) -> resp' !! id = resp !! id)
    /\ (forall p, p ∈ ps ->
          exists q n, q ∈ ps /\ cg_ID q = cg_ID p
                      /\ resp' !! cg_ID p
                         = Some (fetchedResponse (cg_ID p) q currency (clock env n))).
Proof.
  induction ps as [|x ps IH]; intros resp w; cbv zeta.
  - cbn. repeat split; auto; intros p Hp; inversion Hp.
  - cbn [forRange]. unfold bind at 1 2. unfold writeBack at 1 3, bind, Now, storePrice, ret.
    cbn [fst snd prices ticks sent logged].
    set (w1 := {| prices := _; ticks := _; sent := _; logged := _ |}).
    set (resp1 := <[cg_ID x := _]> resp).
    specialize (IH resp1 w1). cbv zeta in IH.
    destruct IH as (Hs & Hl & Hframe & Hkeep & Hcache & Hrframe & Hresp).
    split; [exact Hs|]. split; [exact Hl|]. split; [|split; [|split; [|split]]].
    + intros k Hk. rewrite Hframe by (intros p Hp; apply Hk; right; exact Hp).
      unfold w1. cbn [prices]. apply lookup_insert_ne. apply Hk. left.
    + intros k Hk. apply Hkeep. unfold w1. cbn [prices].
      destruct (decide (cacheKey (cg_ID x) currency = k)) as [<-|Hne].
      * rewrite lookup_insert_eq. eauto.
      * rewrite lookup_insert_ne by exact Hne. exact Hk.
    + intros p Hp. apply elem_of_cons in Hp as [->|Hp].
      * destruct (decide (cacheKey (cg_ID x) currency
                          ∈ (fun q => cacheKey (cg_ID q) currency) <$> ps)) as [Hin|Hnin].
        -- apply list_elem_of_fmap in Hin as (q & Hq & Hqin).
           destruct (Hcache q Hqin) as (q' & n & Hq'in & Hq' & Hval).
           exists q', n. split; [right; exact Hq'in|]. split; [congruence|].
           rewrite Hq. exact Hval.
        -- exists x, (ticks w). split; [left|]. split; [reflexivity|].
           rewrite Hframe.
           ++ unfold w1. cbn [prices]. apply lookup_insert_eq.
           ++ intros p Hp Heq. apply Hnin. apply list_elem_of_fmap. eauto.
      * destruct (Hcache p Hp) as (q & n & Hqin & Hq & Hval).
        exists q, n. split; [right; exact Hqin|]. auto.
    + intros id Hid. rewrite Hrframe by (intros p Hp; apply Hid; right; exact Hp).
      unfold resp1. apply lookup_insert_ne. apply Hid. left.
    + intros p Hp. apply elem_of_cons in Hp as [->|Hp].
      * destruct (decide (cg_ID x ∈ cg_ID <$> ps)) as [Hin|Hnin].
        -- apply list_elem_of_fmap in Hin as (q & Hq & Hqin).
           destruct (Hresp q Hqin) as (q' & n & Hq'in & Hq' & Hval).
           exists q', n. split; [right; exact Hq'in|]. split; [congruence|].
           rewrite Hq. exact Hval.
        -- exists x, (S (ticks w)). split; [left|]. split; [reflexivity|].
           rewrite Hrframe.
           ++ unfold resp1. apply lookup_insert_eq.
           ++ intros p Hp Heq. apply Hnin. apply list_elem_of_fmap. eauto.
      * destruct (Hresp p Hp) as (q & n & Hqin & Hq & Hval).
        exists q, n. split; [right; exact Hqin|]. auto.
Qed.

(** The first loop: the identifiers queued for the fetch. *)
Lemma checkCache_loop_queue (currency : string) (env : Env) (l : list string) :
  forall resp toFetch w,
  exists rest,
    (fst (forRange l (checkCache currency) (resp, toFetch) env w)).2 = toFetch ++ rest
    /\ sublist rest l
    /\ (forall id, id ∈ l -> prices w !! cacheKey id currency = None -> id ∈ rest)
    /\ ((forall id, id ∈ l -> prices w !! cacheKey id currency = None) ->
        forRange l (checkCache currency) (resp, toFetch) env w = ((resp, toFetch ++ l), w))
    /\ ((forall k id, l !! k = Some id ->
           exists c, prices w !! cacheKey id currency = Some c
                     /\ freshAt env (ticks w + clockReads (prices w) currency (take k l)) c) ->
        rest = []).
Proof.
  induction l as [|x l IH]; intros resp toFetch w.
  - exists []. cbn. rewrite app_nil_r.
    split; [reflexivity|]. split; [constructor|]. split; [|split; auto].
    intros id Hin. inversion Hin.
  - cbn [forRange]. unfold bind. rewrite checkCache_step.
    destruct (prices w !! cacheKey x currency) as [cx|] eqn:Hx.
    + assert (Hshift : forall k, (ticks w + clockReads (prices w) currency (take (S k) (x :: l))
                                  = S (ticks w) + clockReads (prices w) currency (take k l))%nat).
      { intros k. cbn [take clockReads]. rewrite Hx. lia. }
      destruct (Z.ltb_spec (clock env (ticks w) - cp_UpdatedAt cx) cacheTTL) as [Hf|Hs].
      * destruct (IH (<[x := cachedResponse x cx]> resp) toFetch (tick w))
          as (rest & Hq & Hsub & Hnone & _ & Hall).
        exists rest. split; [exact Hq|]. split; [apply sublist_cons; exact Hsub|].
        split; [|split].
        -- intros id Hin Hid. apply elem_of_cons in Hin as [->|Hin]; [congruence|].
           apply Hnone; assumption.
        -- intros Hcold. specialize (Hcold x (list_elem_of_here _ _)). congruence.
        -- intros Hfresh. apply Hall. intros k id Hk.
           destruct (Hfresh (S k) id Hk) as (c & Hc & Hfr).
           exists c. split; [exact Hc|]. rewrite Hshift in Hfr. exact Hfr.
      * destruct (IH resp (toFetch ++ [x]) (tick w)) as (rest & Hq & Hsub & Hnone & _ & _).
        exists (x :: rest). split; [rewrite Hq, <- app_assoc; reflexivity|].
        split; [apply sublist_skip; exact Hsub|]. split; [|split].
        -- intros id Hin Hid. apply elem_of_cons in Hin as [->|Hin]; [congruence|].
           right. apply Hnone; assumption.
        -- intros Hcold. specialize (Hcold x (list_elem_of_here _ _)). congruence.
        -- intros Hfresh. destruct (Hfresh 0%nat x eq_refl) as (c & Hc & Hfr).
           rewrite Hx in Hc. injection Hc as <-. cbn in Hfr.
           rewrite Nat.add_0_r in Hfr. unfold freshAt in Hfr. lia.
    + destruct (IH resp (toFetch ++ [x]) w) as (rest & Hq & Hsub & Hnone & Hcold' & _).
      exists (x :: rest). split; [rewrite Hq, <- app_assoc; reflexivity|].
      split; [apply sublist_skip; exact Hsub|]. split; [|split].
      * intros id Hin Hid. apply elem_of_cons in Hin as [->|Hin]; [left|].
        right. apply Hnone; assumption.
      * intros Hcold. rewrite Hcold' by (intros id Hin; apply Hcold; right; exact Hin).
        rewrite <- app_assoc. reflexivity.
      * intros Hfresh. destruct (Hfresh 0%nat x eq_refl) as (c & Hc & _). congruence.
Qed.

(** X11: whatever the provider does, [GetMultiplePrices] returns a response
    and never an error; it sends at most one request, which asks for a
    subsequence of the batch that is not empty; it removes no cache entry and
    logs at most one error. *)
Theorem GetMultiplePrices_frame (env : Env) (w : World) (tokenIDs : list string)
    (currency : string) :
  let w' := snd (GetMultiplePrices tokenIDs currency env w) in
  (exists resp, fst (GetMultiplePrices tokenIDs currency env w) = inl resp)
  /\ (sent w' = sent w
      \/ exists toFetch, toFetch <> [] /\ sublist toFetch tokenIDs
                         /\ sent w' = sent w ++ [batchRequest toFetch currency])
  /\ (forall k, is_Some (prices w !! k) -> is_Some (prices w' !! k))
  /\ (logged w' = logged w \/ exists err, logged w' = logged w ++ [err]).
Proof.
  cbv zeta. rewrite GetMultiplePrices_eq.
  pose proof (checkCache_loop currency env tokenIDs ∅ [] (tick w)) as Hloop.
  destruct (checkCache_loop_queue currency env tokenIDs ∅ [] (tick w))
    as (rest & Hq & Hsub & _).
  destruct (forRange tokenIDs (checkCache currency) (∅, []) env (tick w))
    as [[resp1 toFetch] w1].
  cbn [fst snd tick prices sent logged ticks app] in *. subst toFetch.
  destruct Hloop as (Hp & Hse & Hl & _).
  destruct rest as [|id rest].
  - cbn [fst snd]. rewrite Hp, Hse, Hl. eauto 10.
  - pose proof (fetchMultiple_snd env w1 (id :: rest) currency) as Hsnd.
    pose proof (fetchMultiple_ok_sent env w1 (id :: rest) currency) as Hok.
    destruct (fetchMultipleFromCoinGecko (id :: rest) currency env w1) as [[ps|err] w2];
      cbn [fst snd] in *.
    + specialize (Hok ps eq_refl). clear Hsnd. subst w2.
      pose proof (writeBack_loop currency env ps resp1
                    (sending (batchRequest (id :: rest) currency) w1))
        as (Hs' & Hl' & _ & Hkeep & _).
      cbv zeta in *. cbn [sending prices sent logged] in *.
      split; [eauto|]. split; [|split].
      * right. exists (id :: rest). split; [discriminate|]. split; [exact Hsub|].
        rewrite Hs', Hse. reflexivity.
      * intros k Hk. apply Hkeep. rewrite Hp. exact Hk.
      * left. rewrite Hl', Hl. reflexivity.
    + clear Hok. destruct (url_Parse_ok _) in Hsnd; subst w2;
        cbn [logging sending prices sent logged].
      * split; [eauto|]. split; [|split].
        -- right. exists (id :: rest). split; [discriminate|]. split; [exact Hsub|].
           rewrite Hse. reflexivity.
        -- intros k Hk. rewrite Hp. exact Hk.
        -- right. exists err. rewrite Hl. reflexivity.
      * split; [eauto|]. split; [|split].
        -- left. exact Hse.
        -- intros k Hk. rewrite Hp. exact Hk.
        -- right. exists err. rewrite Hl. reflexivity.
Qed.

Lemma GetMultiplePrices_frame_witness :
  let env := offlineAt (30 * minute) in
  let w' := snd (GetMultiplePrices ["bitcoin"; "solana"] "usd" env sampleWorld) in
  is_Some (prices sampleWorld !! "ethereum:usd")
  /\ is_Some (prices w' !! "ethereum:usd").
Proof.
  intros env w'.
  assert (H : is_Some (prices sampleWorld !! "ethereum:usd"))
    by (exists (entryAt (- 120 * minute)); vm_compute; reflexivity).
  split; [exact H|].
  destruct (GetMultiplePrices_frame env sampleWorld ["bitcoin"; "solana"] "usd")
    as (_ & _ & Hkeep & _).
  exact (Hkeep "ethereum:usd" H).
Defined.

(** X12: when every identifier of the batch has an entry that passes the
    freshness test at its check, [GetMultiplePrices] sends no request, logs
    nothing and leaves the cache as it was, and the result map holds for each
    identifier of the batch, and for no other, its cached entry. *)
Theorem GetMultiplePrices_all_fresh (env : Env) (w : World) (tokenIDs : list string)
    (currency : string) :
  (forall k id, tokenIDs !! k = Some id ->
     exists c, prices w !! cacheKey id currency = Some c
               /\ freshAt env (checkedAt w currency tokenIDs k) c) ->
  exists resp,
    fst (GetMultiplePrices tokenIDs currency env w) = inl resp
    /\ sent (snd (GetMultiplePrices tokenIDs currency env w)) = sent w
    /\ prices (snd (GetMultiplePrices tokenIDs currency env w)) = prices w
    /\ logged (snd (GetMultiplePrices tokenIDs currency env w)) = logged w
    /\ forall id, mp_Prices resp !! id =
         if decide (id ∈ tokenIDs)
         then cachedResponse id <$> prices w !! cacheKey id currency
         else None.
Proof.
  intros Hfresh. rewrite GetMultiplePrices_eq.
  assert (Hfresh' : forall k id, tokenIDs !! k = Some id ->
            exists c, prices w !! cacheKey id currency = Some c
              /\ freshAt env (ticks (tick w)
                              + clockReads (prices (tick w)) currency (take k tokenIDs)) c).
  { intros k id Hk. destruct (Hfresh k id Hk) as (c & Hc & Hfr). exists c. split; [exact Hc|].
    unfold checkedAt in Hfr. cbn [tick ticks prices].
    replace (S (ticks w) + clockReads (prices w) currency (take k tokenIDs))%nat
      with (ticks w + 1 + clockReads (prices w) currency (take k tokenIDs))%nat by lia.
    exact Hfr. }
  pose proof (checkCache_loop currency env tokenIDs ∅ [] (tick w)) as Hloop.
  destruct (checkCache_loop_queue currency env tokenIDs ∅ [] (tick w))
    as (rest & Hq & _ & _ & _ & Hnil).
  specialize (Hnil Hfresh'). subst rest.
  destruct (forRange tokenIDs (checkCache currency) (∅, []) env (tick w))
    as [[resp1 toFetch] w1].
  cbn [fst snd tick prices sent logged ticks app] in *. subst toFetch.
  destruct Hloop as (Hp & Hse & Hl & Ha & _ & Hb).
  eexists. split; [reflexivity|]. cbn [snd mp_Prices].
  split; [exact Hse|]. split; [exact Hp|]. split; [exact Hl|].
  intros id. destruct (decide (id ∈ tokenIDs)) as [Hin|Hnin].
  - apply list_elem_of_lookup in Hin as (k & Hk).
    destruct (Hfresh' k id Hk) as (c & Hc & Hfr). rewrite Hc. cbn.
    apply (Hb k id c Hk Hc Hfr).
  - destruct (resp1 !! id) as [r|] eqn:Hr; [|reflexivity].
    destruct (Ha id r Hr) as [H|(k & c & Hk & _)].
    + rewrite lookup_empty in H. discriminate.
    + exfalso. apply Hnin. apply list_elem_of_lookup. eauto.
Qed.

Lemma GetMultiplePrices_all_fresh_witness :
  let env := offlineAt (30 * minute) in
  (forall k id, ["bitcoin"; "bitcoin"] !! k = Some id ->
     exists c, prices sampleWorld !! cacheKey id "usd" = Some c
               /\ freshAt env (checkedAt sampleWorld "usd" ["bitcoin"; "bitcoin"] k) c)
  /\ exists resp,
       fst (GetMultiplePrices ["bitcoin"; "bitcoin"] "usd" env sampleWorld) = inl resp
       /\ sent (snd (GetMultiplePrices ["bitcoin"; "bitcoin"] "usd" env sampleWorld)) = []
       /\ mp_Prices resp !! "bitcoin" = Some (cachedResponse "bitcoin" (entryAt 0)).
Proof.
  intros env.
  assert (H : forall k id, ["bitcoin"; "bitcoin"] !! k = Some id ->
            exists c, prices sampleWorld !! cacheKey id "usd" = Some c
              /\ freshAt env (checkedAt sampleWorld "usd" ["bitcoin"; "bitcoin"] k) c).
  { intros k id Hk. exists (entryAt 0).
    destruct k as [|[|k]]; try discriminate Hk; injection Hk as <-;
      (split; [vm_compute; reflexivity|vm_compute; reflexivity]). }
  split; [exact H|].
  destruct (GetMultiplePrices_all_fresh env sampleWorld ["bitcoin"; "bitcoin"] "usd" H)
    as (resp & Hr & Hsent & _ & _ & Hmap).
  exists resp. split; [exact Hr|]. split; [exact Hsent|].
  rewrite Hmap. vm_compute. reflexivity.
Defined.

(** One iteration of a loop, and one iteration of the second loop. *)
Lemma forRange_cons {A S : Type} (x : A) (l : list A) (body : S -> A -> M S) (s : S)
    (env : Env) (w : World) :
  forRange (x :: l) body s env w
  = forRange l body (fst (body s x env w)) env (snd (body s x env w)).
Proof. cbn [forRange]. unfold bind. destruct (body s x env w). reflexivity. Qed.

Lemma writeBack_step (currency : string) (env : Env) (resp : gmap string PriceResponse)
    (x : CoinGeckoPrice) (w : World) :
  writeBack currency resp x env w
  = (<[cg_ID x := fetchedResponse (cg_ID x) x currency (clock env (S (ticks w)))]> resp,
     {| prices := <[cacheKey (cg_ID x) currency := freshEntry x currency (clock env (ticks w))]>
                    (prices w);
        ticks := S (S (ticks w)); sent := sent w; logged := logged w |}).
Proof. reflexivity. Qed.

(** The last element of a list with a given image. *)
Lemma last_occurrence {A B : Type} `{EqDecision B} (f : A -> B) (l : list A) (b : B) :
  b ∈ f <$> l ->
  exists i x, l !! i = Some x /\ f x = b
    /\ forall j y, l !! j = Some y -> (i < j)%nat -> f y <> b.
Proof.
  induction l as [|a l IH]; intros Hin; [inversion Hin|].
  destruct (decide (b ∈ f <$> l)) as [Hl|Hl].
  - destruct (IH Hl) as (i & x & Hi & Hx & Hlater).
    exists (S i), x. split; [exact Hi|]. split; [exact Hx|].
    intros [|j] y Hj Hlt; [lia|]. apply (Hlater j y Hj). lia.
  - exists 0%nat, a. rewrite fmap_cons in Hin.
    apply elem_of_cons in Hin as [Hin|Hin]; [|contradiction].
    split; [reflexivity|]. split; [symmetry; exact Hin|].
    intros [|j] y Hj Hlt; [lia|]. intros Heq. apply Hl. rewrite <- Heq.
    apply list_elem_of_fmap. exists y. split; [reflexivity|].
    apply list_elem_of_lookup. exists j. exact Hj.
Qed.

(** The second loop: the record at index [i] is stored at the reading
    [2 * i] of the clock after the start of the loop and answered at the
    next; it stays in the result map when no later record has its
    identifier, and in the cache when no later record has its key. *)
Lemma writeBack_loop_last (currency : string) (env : Env) (ps : list CoinGeckoPrice) :
  forall resp w i p,
    ps !! i = Some p ->
    ((forall j q, ps !! j = Some q -> (i < j)%nat -> cg_ID q <> cg_ID p) ->
     fst (forRange ps (writeBack currency) resp env w) !! cg_ID p
     = Some (fetchedResponse (cg_ID p) p currency (clock env (ticks w + 2 * i + 1)%nat)))
    /\ ((forall j q, ps !! j = Some q -> (i < j)%nat ->
           cacheKey (cg_ID q) currency <> cacheKey (cg_ID p) currency) ->
        prices (snd (forRange ps (writeBack currency) resp env w)) !! cacheKey (cg_ID p) currency
        = Some (freshEntry p currency (clock env (ticks w + 2 * i)%nat))).
Proof.
  induction ps as [|x ps IH]; intros resp w i p Hi; [rewrite lookup_nil in Hi; discriminate|].
  rewrite !forRange_cons, !writeBack_step. cbn [fst snd].
  set (w1 := {| prices := _; ticks := _; sent := _; logged := _ |}).
  set (resp1 := <[cg_ID x := _]> resp).
  destruct i as [|i].
  - injection Hi as <-.
    pose proof (writeBack_loop currency env ps resp1 w1)
      as (_ & _ & Hframe & _ & _ & Hrframe & _).
    cbv zeta in Hframe, Hrframe. split.
    + intros Hlater. rewrite Hrframe.
      * unfold resp1. rewrite lookup_insert_eq.
        replace (ticks w + 2 * 0 + 1)%nat with (S (ticks w)) by lia. reflexivity.
      * intros q Hq. apply list_elem_of_lookup in Hq as (j & Hj).
        apply (Hlater (S j) q Hj). lia.
    + intros Hlater. rewrite Hframe.
      * unfold w1. cbn [prices]. rewrite lookup_insert_eq.
        replace (ticks w + 2 * 0)%nat with (ticks w) by lia. reflexivity.
      * intros q Hq. apply list_elem_of_lookup in Hq as (j & Hj).
        apply (Hlater (S j) q Hj). lia.
  - cbn [lookup list_lookup] in Hi. destruct (IH resp1 w1 i p Hi) as [Hr Hc]. split.
    + intros Hlater. rewrite Hr.
      * unfold w1. cbn [ticks].
        replace (S (S (ticks w)) + 2 * i + 1)%nat with (ticks w + 2 * S i + 1)%nat by lia.
        reflexivity.
      * intros j q Hj Hlt. apply (Hlater (S j) q Hj). lia.
    + intros Hlater. rewrite Hc.
      * unfold w1. cbn [ticks].
        replace (S (S (ticks w)) + 2 * i)%nat with (ticks w + 2 * S i)%nat by lia.
        reflexivity.
      * intros j q Hj Hlt. apply (Hlater (S j) q Hj). lia.
Qed.

(** X13: when the queue of a batch lookup is not empty and its fetch returns
    the records [ps], every record of [ps] is answered and cached, asked for
    or not: the result map holds, under the identifier of each record, the
    last record of [ps] with this identifier, flagged [Cached = false] and
    stamped with the clock reading that follows its write; the cache holds,
    under the key of each record, the last record of [ps] with this key,
    stamped with the reading of its write. Every entry of the result map is
    either such a record or the cached entry of an identifier of the batch;
    the cache slots of other keys are unchanged, nothing is logged and one
    request has been sent, for the queue. *)
Theorem GetMultiplePrices_write_back (env : Env) (w : World) (tokenIDs : list string)
    (currency : string) (ps : list CoinGeckoPrice) :
  toFetchOf env w currency tokenIDs <> [] ->
  fst (fetchMultipleFromCoinGecko (toFetchOf env w currency tokenIDs) currency env w)
  = inl ps ->
  let w' := snd (GetMultiplePrices tokenIDs currency env w) in
  let t0 := writeBackAt w currency tokenIDs in
  exists resp,
    fst (GetMultiplePrices tokenIDs currency env w) = inl resp
    /\ (forall p, p ∈ ps ->
          exists i q, ps !! i = Some q /\ cg_ID q = cg_ID p
            /\ (forall j q', ps !! j = Some q' -> (i < j)%nat -> cg_ID q' <> cg_ID p)
            /\ mp_Prices resp !! cg_ID p
               = Some {| pr_ID := cg_ID p; pr_Symbol := cg_Symbol q; pr_Name := cg_Name q;
                         pr_Price := cg_CurrentPrice q; pr_Currency := currency;
                         pr_Change24h := cg_PriceChangePercentage24h q;
                         pr_MarketCap := cg_MarketCap q; pr_Volume24h := cg_TotalVolume q;
                         pr_UpdatedAt := clock env (t0 + 2 * i + 1)%nat;
                         pr_Cached := false |})
    /\ (forall p, p ∈ ps ->
          exists i q, ps !! i = Some q
            /\ cacheKey (cg_ID q) currency = cacheKey (cg_ID p) currency
            /\ (forall j q', ps !! j = Some q' -> (i < j)%nat ->
                  cacheKey (cg_ID q') currency <> cacheKey (cg_ID p) currency)
            /\ prices w' !! cacheKey (cg_ID p) currency
               = Some {| cp_Price := cg_CurrentPrice q; cp_Currency := currency;
                         cp_UpdatedAt := clock env (t0 + 2 * i)%nat;
                         cp_Change24h := cg_PriceChangePercentage24h q;
                         cp_MarketCap := cg_MarketCap q; cp_Volume24h := cg_TotalVolume q |})
    /\ (forall id r, mp_Prices resp !! id = Some r ->
          (pr_Cached r = false /\ exists p, p ∈ ps /\ cg_ID p = id)
          \/ (id ∈ tokenIDs
              /\ exists c, prices w !! cacheKey id currency = Some c
                   /\ r = {| pr_ID := id; pr_Symbol := ""; pr_Name := "";
                             pr_Price := cp_Price c; pr_Currency := cp_Currency c;
                             pr_Change24h := cp_Change24h c; pr_MarketCap := cp_MarketCap c;
                             pr_Volume24h := cp_Volume24h c; pr_UpdatedAt := cp_UpdatedAt c;
                             pr_Cached := true |}))
    /\ (forall k, (forall p, p ∈ ps -> cacheKey (cg_ID p) currency <> k) ->
          prices w' !! k = prices w !! k)
    /\ logged w' = logged w
    /\ sent w' = sent w ++ [batchRequest (toFetchOf env w currency tokenIDs) currency].
Proof.
  intros Hne Hfetch. cbv zeta. unfold toFetchOf in *. rewrite GetMultiplePrices_eq.
  pose proof (checkCache_loop currency env tokenIDs ∅ [] (tick w)) as Hloop.
  destruct (checkCache_loop_needs currency env tokenIDs ∅ [] (tick w))
    as (rest & Hq & Ht & _).
  destruct (forRange tokenIDs (checkCache currency) (∅, []) env (tick w))
    as [[resp1 toFetch] w1].
  cbn [fst snd tick prices sent logged ticks app] in *. subst toFetch.
  destruct Hloop as (Hp & Hse & Hl & Ha & _ & _).
  destruct rest as [|id rest]; [contradiction|].
  pose proof (fetchMultiple_fst_sent env w w1 (id :: rest) currency Hse) as Hfst.
  rewrite Hfetch in Hfst.
  pose proof (fetchMultiple_ok_sent env w1 (id :: rest) currency ps Hfst) as Hsnd.
  destruct (fetchMultipleFromCoinGecko (id :: rest) currency env w1) as [r w2].
  cbn [fst snd] in Hfst, Hsnd. subst r w2.
  pose proof (writeBack_loop currency env ps resp1
                (sending (batchRequest (id :: rest) currency) w1))
    as (Hs' & Hl' & Hframe & _ & _ & Hrframe & Hresp).
  pose proof (writeBack_loop_last currency env ps resp1
                (sending (batchRequest (id :: rest) currency) w1)) as Hlast.
  cbv zeta in *. cbn [sending prices sent logged ticks] in *.
  assert (Ht0 : ticks w1 = writeBackAt w currency tokenIDs).
  { unfold writeBackAt. rewrite Ht. lia. }
  rewrite Ht0 in Hlast.
  eexists. split; [reflexivity|]. cbn [snd mp_Prices].
  split; [|split; [|split; [|split; [|split]]]].
  - intros p Hpin.
    destruct (last_occurrence cg_ID ps (cg_ID p)) as (i & q & Hi & Hqid & Hlater).
    { apply list_elem_of_fmap. eauto. }
    exists i, q. split; [exact Hi|]. split; [exact Hqid|]. split; [exact Hlater|].
    destruct (Hlast i q Hi) as [Hr _]. rewrite <- Hqid. apply Hr.
    intros j q' Hj Hlt. rewrite Hqid. exact (Hlater j q' Hj Hlt).
  - intros p Hpin.
    destruct (last_occurrence (fun q => cacheKey (cg_ID q) currency) ps
                (cacheKey (cg_ID p) currency)) as (i & q & Hi & Hqid & Hlater).
    { apply list_elem_of_fmap. eauto. }
    exists i, q. split; [exact Hi|]. split; [exact Hqid|]. split; [exact Hlater|].
    destruct (Hlast i q Hi) as [_ Hc]. rewrite <- Hqid. apply Hc.
    intros j q' Hj Hlt. rewrite Hqid. exact (Hlater j q' Hj Hlt).
  - intros id' r Hr.
    destruct (decide (id' ∈ cg_ID <$> ps)) as [Hin|Hnin].
    + apply list_elem_of_fmap in Hin as (p & -> & Hpin).
      destruct (Hresp p Hpin) as (q & n & Hqin & Hqid & Hval).
      rewrite Hval in Hr. injection Hr as <-. left. split; [reflexivity|]. eauto.
    + rewrite Hrframe in Hr
        by (intros p Hpin Heq; apply Hnin; apply list_elem_of_fmap; eauto).
      destruct (Ha id' r Hr) as [H|(k & c & Hk & Hc & _ & ->)].
      * rewrite lookup_empty in H. discriminate.
      * right. split; [apply list_elem_of_lookup; eauto|]. exists c. split; [exact Hc|].
        reflexivity.
  - intros k Hk. rewrite Hframe by exact Hk. rewrite Hp. reflexivity.
  - rewrite Hl', Hl. reflexivity.
  - rewrite Hs', Hse. reflexivity.
Qed.

Lemma GetMultiplePrices_write_back_witness :
  let env := onlineAt (5 * minute) [cosmosRecord; cosmosRecord] in
  (toFetchOf env sampleWorld "usd" ["bitcoin"; "solana"] <> []
   /\ fst (fetchMultipleFromCoinGecko (toFetchOf env sampleWorld "usd" ["bitcoin"; "solana"])
             "usd" env sampleWorld) = inl [cosmosRecord; cosmosRecord])
  /\ exists resp,
       fst (GetMultiplePrices ["bitcoin"; "solana"] "usd" env sampleWorld) = inl resp
       /\ mp_Prices resp !! "cosmos"
          = Some (fetchedResponse "cosmos" cosmosRecord "usd" (5 * minute))
       /\ mp_Prices resp !! "solana" = None
       /\ sent (snd (GetMultiplePrices ["bitcoin"; "solana"] "usd" env sampleWorld))
          = [batchRequest ["solana"] "usd"].
Proof.
  intros env.
  assert (H1 : toFetchOf env sampleWorld "usd" ["bitcoin"; "solana"] <> [])
    by (vm_compute; discriminate).
  assert (H2 : fst (fetchMultipleFromCoinGecko
                      (toFetchOf env sampleWorld "usd" ["bitcoin"; "solana"])
                      "usd" env sampleWorld) = inl [cosmosRecord; cosmosRecord])
    by (vm_compute; reflexivity).
  split; [split; assumption|].
  destruct (GetMultiplePrices_write_back env sampleWorld ["bitcoin"; "solana"] "usd"
              [cosmosRecord; cosmosRecord] H1 H2)
    as (resp & Hr & Hserved & _ & Horigin & _ & _ & Hsent).
  exists resp. split; [exact Hr|]. split; [|split].
  - destruct (Hserved cosmosRecord (list_elem_of_here _ _)) as (i & q & Hi & _ & _ & Hval).
    assert (Hq : q = cosmosRecord)
      by (destruct i as [|[|i]]; try discriminate Hi; injection Hi as <-; reflexivity).
    subst q. etransitivity; [exact Hval|]. reflexivity.
  - destruct (mp_Prices resp !! "solana") as [r|] eqn:Hs; [|reflexivity].
    destruct (Horigin "solana" r Hs) as [(_ & p & Hp & Hid)|(_ & c & Hc & _)].
    + apply elem_of_cons in Hp as [->|Hp]; [discriminate Hid|].
      apply list_elem_of_singleton in Hp. subst p. discriminate Hid.
    + vm_compute in Hc. discriminate Hc.
  - rewrite Hsent. vm_compute. reflexivity.
Defined.


(** ** Splitting and joining identifiers *)

Lemma strings_Split_nonempty (s : string) (sep : ascii) : strings_Split s sep <> [].
Proof.
  destruct s as [|c rest]; cbn; [discriminate|].
  destruct (Ascii.eqb c sep); [discriminate|].
  destruct (strings_Split rest sep); discriminate.
Qed.

Lemma strings_Join_cons_byte (a : ascii) (piece : string) (pieces : list string)
    (sep : string) :
  strings_Join (String a piece :: pieces) sep = String a (strings_Join (piece :: pieces) sep).
Proof. destruct pieces; reflexivity. Qed.

Lemma strings_Join_Split (s : string) (sep : ascii) :
  strings_Join (strings_Split s sep) (String sep EmptyString) = s.
Proof.
  induction s as [|c rest IH]; [reflexivity|]. cbn [strings_Split].
  destruct (Ascii.eqb_spec c sep) as [->|Hne].
  - pose proof (strings_Split_nonempty rest sep) as Hn.
    destruct (strings_Split rest sep) as [|piece pieces]; [contradiction|].
    cbn [strings_Join]. rewrite <- IH. reflexivity.
  - pose proof (strings_Split_nonempty rest sep) as Hn.
    destruct (strings_Split rest sep) as [|piece pieces]; [contradiction|].
    rewrite strings_Join_cons_byte, IH. reflexivity.
Qed.

Lemma strings_Split_pieces (s : string) (sep : ascii) :
  Forall (fun piece => containsByte sep piece = false) (strings_Split s sep).
Proof.
  induction s as [|c rest IH]; cbn [strings_Split].
  - repeat constructor.
  - destruct (Ascii.eqb c sep) eqn:Hc.
    + constructor; [reflexivity|exact IH].
    + destruct (strings_Split rest sep) as [|piece pieces]; [repeat constructor; cbn; rewrite Hc; reflexivity|].
      inversion IH as [|? ? Hp Hps]; subst. constructor; [|exact Hps].
      cbn. rewrite Hc, Hp. reflexivity.
Qed.

Lemma strings_Split_no_sep (s : string) (sep : ascii) :
  containsByte sep s = false -> strings_Split s sep = [s].
Proof.
  induction s as [|c rest IH]; [reflexivity|]. cbn. intros H.
  apply orb_false_elim in H as [Hc Hrest]. rewrite Hc, (IH Hrest). reflexivity.
Qed.

Lemma strings_Split_Join (pieces : list string) (sep : ascii) :
  pieces <> [] ->
  Forall (fun piece => containsByte sep piece = false) pieces ->
  strings_Split (strings_Join pieces (String sep EmptyString)) sep = pieces.
Proof.
  induction pieces as [|piece pieces IH]; [contradiction|]. intros _ Hall.
  inversion Hall as [|? ? Hp Hps]; subst.
  destruct pieces as [|next pieces].
  - cbn. apply strings_Split_no_sep. exact Hp.
  - change (strings_Join (piece :: next :: pieces) (String sep EmptyString))
      with (piece +:+ String sep EmptyString +:+ strings_Join (next :: pieces) (String sep EmptyString)).
    specialize (IH ltac:(discriminate) Hps).
    revert Hp. clear Hall.
    induction piece as [|c piece IHp]; intros Hp.
    + change (strings_Split (String sep (strings_Join (next :: pieces) (String sep EmptyString))) sep
              = EmptyString :: next :: pieces).
      cbn [strings_Split]. rewrite Ascii.eqb_refl, IH. reflexivity.
    + cbn in Hp. apply orb_false_elim in Hp as [Hc Hp].
      change (strings_Split (String c (piece +:+ String sep EmptyString
                +:+ strings_Join (next :: pieces) (String sep EmptyString))) sep
              = String c piece :: next :: pieces).
      cbn [strings_Split]. rewrite Hc, (IHp Hp). reflexivity.
Qed.

(** X14: [strings.Join] undoes [strings.Split] on every string; [Split]
    never returns an empty list and none of its pieces holds the separator;
    and [Split] undoes [Join] on a list that is not empty and whose pieces do
    not hold the separator. *)
Theorem Split_Join_round_trip (sep : ascii) :
  (forall s, strings_Join (strings_Split s sep) (String sep EmptyString) = s)
  /\ (forall s, strings_Split s sep <> []
                /\ Forall (fun piece => containsByte sep piece = false) (strings_Split s sep))
  /\ (forall pieces,
        pieces <> [] -> Forall (fun piece => containsByte sep piece = false) pieces ->
        strings_Split (strings_Join pieces (String sep EmptyString)) sep = pieces).
Proof.
  split; [intros s; apply strings_Join_Split|]. split.
  - intros s. split; [apply strings_Split_nonempty|apply strings_Split_pieces].
  - intros pieces. apply strings_Split_Join.
Qed.


Lemma Split_Join_round_trip_witness :
  (["solana"; "cardano"] <> []
   /\ Forall (fun piece => containsByte "," piece = false) ["solana"; "cardano"])
  /\ strings_Split (strings_Join ["solana"; "cardano"] ",") "," = ["solana"; "cardano"].
Proof.
  assert (H1 : ["solana"; "cardano"] <> []) by discriminate.
  assert (H2 : Forall (fun piece => containsByte "," piece = false) ["solana"; "cardano"])
    by (repeat constructor).
  split; [split; assumption|].
  destruct (Split_Join_round_trip ",") as (_ & _ & Hsplit).
  exact (Hsplit ["solana"; "cardano"] H1 H2).
Defined.

(** ** The path of a price request *)


Lemma substring_all (s : string) : String.substring 0 (String.length s) s = s.
Proof. induction s as [|c s IH]; [reflexivity|]. cbn. rewrite IH. reflexivity. Qed.

Lemma string_length_append (s t : string) :
  String.length (s +:+ t) = (String.length s + String.length t)%nat.
Proof.
  induction s as [|c s IH]; [reflexivity|].
  rewrite append_String. cbn [String.length]. rewrite IH. reflexivity.
Qed.

Lemma substring_append_l (s t : string) :
  String.substring 0 (String.length s) (s +:+ t) = s.
Proof.
  induction s as [|c s IH]; [destruct t; reflexivity|].
  rewrite append_String. cbn [String.length String.substring]. rewrite IH. reflexivity.
Qed.

Lemma substring_append_r (s t : string) :
  String.substring (String.length s) (String.length t) (s +:+ t) = t.
Proof.
  induction s as [|c s IH]; [apply substring_all|].
  rewrite append_String. cbn [String.length String.substring]. exact IH.
Qed.

Lemma TrimPrefix_price (t : string) : strings_TrimPrefix ("/price/" +:+ t) "/price/" = t.
Proof.
  unfold strings_TrimPrefix, strings_HasPrefix.
  replace (String.prefix "/price/" ("/price/" +:+ t)) with true
    by (symmetry; apply String.prefix_correct; apply (substring_append_l "/price/" t)).
  rewrite string_length_append, Nat.add_comm, Nat.add_sub.
  apply (substring_append_r "/price/" t).
Qed.

Lemma string_eqb_refl (s : string) : String.eqb s s = true.
Proof. apply String.eqb_eq. reflexivity. Qed.

Lemma TrimSuffix_slash (t : string) : strings_TrimSuffix (t +:+ "/") "/" = t.
Proof.
  unfold strings_TrimSuffix, strings_HasSuffix.
  assert (H1 : (String.length (t +:+ "/") - String.length "/")%nat = String.length t)
    by (rewrite string_length_append; cbn [String.length]; lia).
  assert (H2 : (String.length "/" <=? String.length (t +:+ "/"))%nat = true)
    by (apply Nat.leb_le; rewrite string_length_append; cbn [String.length]; lia).
  rewrite H1, H2, (substring_append_r t "/"), string_eqb_refl.
  cbn [andb]. apply substring_append_l.
Qed.

(** X15: the token identifier of a price request is what follows [/price/],
    without one trailing slash: [/price/t/] and, when [t] does not end with a
    slash, [/price/t] both give [t]; [/price/] gives the empty identifier;
    of two trailing slashes one is kept. *)
Theorem pathTokenID_cases (t : string) :
  pathTokenID ("/price/" +:+ t +:+ "/") = t
  /\ (strings_HasSuffix t "/" = false -> pathTokenID ("/price/" +:+ t) = t)
  /\ pathTokenID "/price/" = EmptyString
  /\ pathTokenID ("/price/" +:+ t +:+ "//") = t +:+ "/".
Proof.
  unfold pathTokenID. repeat split.
  - rewrite TrimPrefix_price. apply TrimSuffix_slash.
  - intros H. rewrite TrimPrefix_price. unfold strings_TrimSuffix. rewrite H. reflexivity.
  - rewrite TrimPrefix_price.
    replace (t +:+ "//") with ((t +:+ "/") +:+ "/").
    + apply TrimSuffix_slash.
    + induction t as [|c t IH]; [reflexivity|].
      rewrite !append_String, IH. reflexivity.
Qed.


Lemma pathTokenID_cases_witness :
  strings_HasSuffix "bitcoin" "/" = false /\ pathTokenID ("/price/" +:+ "bitcoin") = "bitcoin".
Proof.
  assert (H : strings_HasSuffix "bitcoin" "/" = false) by (vm_compute; reflexivity).
  split; [exact H|].
  destruct (pathTokenID_cases "bitcoin") as (_ & Hplain & _).
  exact (Hplain H).
Defined.

(** ** The handlers *)

(** X16: [handlePrice] answers 400 without touching the world when the token
    identifier is empty; otherwise it answers 200 or 404, and 404 exactly when
    the key has no cache entry, fresh or stale, and the fetch fails; a price
    in the body carries the requested identifier. *)
Theorem handlePrice_status (env : Env) (w : World) (r : HttpRequest) :
  let tokenID := pathTokenID (hr_path r) in
  let currency := orUSD (Query_Get r "currency") in
  let resp := fst (handlePrice r env w) in
  (tokenID = EmptyString ->
   handlePrice r env w = (http_Error TokenIDRequired http_StatusBadRequest, w))
  /\ (tokenID <> EmptyString ->
      (rs_status resp = 200 \/ rs_status resp = 404)
      /\ (rs_status resp = 404 <->
          prices w !! cacheKey tokenID currency = None
          /\ exists err, fst (fetchFromCoinGecko tokenID currency env w) = inr err)
      /\ (forall p, rs_body resp = BodyPrice p -> pr_ID p = tokenID)).
Proof.
  cbv zeta. unfold handlePrice. cbv zeta. split.
  - intros ->. reflexivity.
  - intros Hne. apply String.eqb_neq in Hne. rewrite Hne. unfold bind.
    set (tokenID := pathTokenID (hr_path r)).
    set (currency := orUSD (Query_Get r "currency")).
    destruct (prices w !! cacheKey tokenID currency) as [c|] eqn:Hc.
    + assert (Hok : exists p w1, GetPrice tokenID currency env w = (inl p, w1)
                                 /\ pr_ID p = tokenID).
      { destruct (Z.lt_ge_cases (clock env (ticks w) - cp_UpdatedAt c) cacheTTL) as [Hf|Hs].
        - rewrite (GetPrice_hit env w tokenID currency c Hc Hf). eauto.
        - rewrite GetPrice_miss
            by (intros c' Hc'; rewrite Hc in Hc'; injection Hc' as <-; exact Hs).
          rewrite Hc.
          destruct (fetchFromCoinGecko tokenID currency env (tick w)) as [[p|e] w1]; eauto. }
      destruct Hok as (p & w1 & -> & Hid). cbn. split; [auto|]. split.
      * split; [discriminate|]. intros [[=] _].
      * intros p' [= <-]. exact Hid.
    + rewrite GetPrice_miss by (intros c' Hc'; rewrite Hc in Hc'; discriminate).
      rewrite Hc.
      destruct (fetchFromCoinGecko tokenID currency env w) as [[p|e] w1]; cbn.
      * split; [auto|]. split.
        -- split; [discriminate|]. intros (_ & err & [=]).
        -- intros p' [= <-]. reflexivity.
      * split; [auto|]. split.
        -- split; [eauto|reflexivity].
        -- discriminate.
Qed.

Lemma handlePrice_status_witness :
  (pathTokenID (hr_path bitcoinRequest) <> EmptyString)
  /\ rs_status (fst (handlePrice bitcoinRequest (offlineAt (61 * minute)) sampleWorld)) = 200
  /\ rs_body (fst (handlePrice bitcoinRequest (offlineAt (61 * minute)) sampleWorld))
     = BodyPrice (cachedResponse "bitcoin" (entryAt 0)).
Proof.
  assert (Hne : pathTokenID (hr_path bitcoinRequest) <> EmptyString)
    by (vm_compute; discriminate).
  split; [exact Hne|].
  destruct (handlePrice_status (offlineAt (61 * minute)) sampleWorld bitcoinRequest)
    as (_ & Hserved).
  destruct (Hserved Hne) as ([H200|H404] & Hiff & _).
  - split; [exact H200|]. vm_compute. reflexivity.
  - apply Hiff in H404 as (Hnone & _). vm_compute in Hnone. discriminate Hnone.
Defined.

Lemma GetMultiplePrices_total (env : Env) (w : World) (tokenIDs : list string)
    (currency : string) :
  exists resp, fst (GetMultiplePrices tokenIDs currency env w) = inl resp.
Proof.
  rewrite GetMultiplePrices_eq.
  destruct (forRange tokenIDs (checkCache currency) (∅, []) env (tick w))
    as [[resp1 toFetch] w1].
  destruct toFetch as [|id rest]; [eauto|].
  destruct (fetchMultipleFromCoinGecko (id :: rest) currency env w1) as [[ps|err] w2]; eauto.
Qed.



(** The loop over the map of the response: the order of iteration is
    immaterial. *)
Lemma recordPrice_fold (currency : string) (pricesMap : gmap string PriceResponse)
    (result : gmap string (gmap string float64)) (id : string) :
  map_fold (recordPrice currency) result pricesMap !! id =
    match pricesMap !! id with
    | Some p => Some (<[currency := pr_Price p]> (default ∅ (result !! id)))
    | None => result !! id
    end.
Proof.
  revert pricesMap.
  apply (map_fold_weak_ind
           (fun acc m => acc !! id = match m !! id with
                                     | Some p => Some (<[currency := pr_Price p]>
                                                         (default ∅ (result !! id)))
                                     | None => result !! id
                                     end)).
  - rewrite lookup_empty. reflexivity.
  - intros i p m acc Hi IH. unfold recordPrice.
    destruct (decide (i = id)) as [->|Hne].
    + rewrite !lookup_insert_eq. rewrite IH, Hi. reflexivity.
    + rewrite !lookup_insert_ne by exact Hne. exact IH.
Qed.

Lemma simplePrice_loop (env : Env) (tokenIDs : list string) (currencies : list string) :
  forall result w,
  exists result', fst (forRange currencies (simplePriceStep tokenIDs) (Some result) env w)
                  = Some result'.
Proof.
  induction currencies as [|currency rest IH]; intros result w; [cbn; eauto|].
  cbn [forRange]. unfold bind at 1. cbn [simplePriceStep]. unfold bind at 1.
  destruct (GetMultiplePrices_total env w tokenIDs currency) as (resp & Hr).
  destruct (GetMultiplePrices tokenIDs currency env w) as [res w1].
  cbn [fst] in Hr. subst res. cbn [ret]. apply IH.
Qed.

(** X18: [handleSimplePrice] answers 400 without touching the world when the
    [ids] parameter is empty; otherwise it never dereferences a nil response
    and answers 200 with a price map. For a single currency the map holds,
    for each identifier of the batch response and for no other, the price of
    that identifier under that currency, whatever the order in which the
    response map is iterated. *)
Theorem handleSimplePrice_result (env : Env) (w : World) (r : HttpRequest) :
  let ids := Query_Get r "ids" in
  let vs := orUSD (Query_Get r "vs_currencies") in
  (ids = EmptyString ->
   handleSimplePrice r env w = (Some (http_Error IdsRequired http_StatusBadRequest), w))
  /\ (ids <> EmptyString ->
      exists result,
        fst (handleSimplePrice r env w)
        = Some (jsonOK "public, max-age=3600" (BodySimple result))
        /\ (containsByte "," vs = false ->
            forall resp,
              fst (GetMultiplePrices (strings_Split ids ",") vs env w) = inl resp ->
              forall id, result !! id
                         = (fun p => {[vs := pr_Price p]}) <$> (mp_Prices resp !! id))).
Proof.
  cbv zeta. unfold handleSimplePrice. cbv zeta. split.
  - intros ->. reflexivity.
  - intros Hne. apply String.eqb_neq in Hne. rewrite Hne. unfold bind at 1.
    set (ids := Query_Get r "ids").
    set (vs := orUSD (Query_Get r "vs_currencies")).
    destruct (simplePrice_loop env (strings_Split ids ",") (strings_Split vs ",") ∅ w)
      as (result & Hres).
    exists result. split.
    + destruct (forRange _ _ _ env w) as [res w1]. cbn [fst] in Hres. subst res. reflexivity.
    + intros Hvs resp Hresp id. rewrite (strings_Split_no_sep vs "," Hvs) in Hres.
      cbn [forRange] in Hres. unfold bind at 1 in Hres. cbn [simplePriceStep] in Hres.
      unfold bind at 1 in Hres.
      destruct (GetMultiplePrices (strings_Split ids ",") vs env w) as [res w1].
      cbn [fst] in Hresp. subst res. cbn in Hres. injection Hres as <-.
      rewrite recordPrice_fold. rewrite lookup_empty. cbn [default].
      destruct (mp_Prices resp !! id) as [p|]; reflexivity.
Qed.

Lemma handleSimplePrice_result_witness :
  let env := onlineAt 0 [cosmosRecord] in
  (Query_Get simpleQuery "ids" <> EmptyString
   /\ containsByte "," (orUSD (Query_Get simpleQuery "vs_currencies")) = false)
  /\ exists result,
       fst (handleSimplePrice simpleQuery env sampleWorld)
       = Some (jsonOK "public, max-age=3600" (BodySimple result))
       /\ result !! "cosmos" = Some {[ "usd" := cg_CurrentPrice cosmosRecord ]}.
Proof.
  intros env.
  assert (Hne : Query_Get simpleQuery "ids" <> EmptyString) by (vm_compute; discriminate).
  assert (Hvs : containsByte "," (orUSD (Query_Get simpleQuery "vs_currencies")) = false)
    by (vm_compute; reflexivity).
  split; [split; assumption|].
  destruct (handleSimplePrice_result env sampleWorld simpleQuery) as (_ & Hserved).
  destruct (Hserved Hne) as (result & Hresp & Hmap).
  exists result. split; [exact Hresp|].
  destruct (GetMultiplePrices (strings_Split (Query_Get simpleQuery "ids") ",")
              (orUSD (Query_Get simpleQuery "vs_currencies")) env sampleWorld)
    as [[resp|err] w1] eqn:HG; [|vm_compute in HG; discriminate HG].
  rewrite (Hmap Hvs resp eq_refl "cosmos").
  vm_compute in HG. injection HG as <- _. vm_compute. reflexivity.
Defined.





(** X22: [NewPriceCache] selects the demo URL of the provider for every API
    key, never the Pro URL, and starts with an empty cache, so that the first
    lookup of any key goes to the provider: it sends one request when its URL
    parses, as it does when the token and the currency are plain, and none
    otherwise. *)
Theorem NewPriceCache_demo (apiKey : string) :
  pc_baseURL (fst (NewPriceCache apiKey)) = coingeckoDemoURL
  /\ pc_baseURL (fst (NewPriceCache apiKey)) <> coingeckoProURL
  /\ pc_apiKey (fst (NewPriceCache apiKey)) = apiKey
  /\ prices (snd (NewPriceCache apiKey)) = ∅
  /\ forall env tokenID currency,
       let w' := snd (GetPrice tokenID currency env (snd (NewPriceCache apiKey))) in
       sent w' = (if url_Parse_ok (singleURL (pc_baseURL (fst (NewPriceCache apiKey)))
                                     currency tokenID)
                  then [singleRequest tokenID currency] else [])
       /\ (plainText currency = true -> plainText tokenID = true ->
           sent w' = [singleRequest tokenID currency]).
Proof.
  unfold NewPriceCache. cbv zeta. cbn [fst snd pc_baseURL pc_apiKey prices].
  assert (Hurl : (if negb (String.eqb apiKey EmptyString) && strings_HasPrefix apiKey "CG-"
                     && (10 <? Z.of_nat (String.length apiKey))
                  then coingeckoDemoURL else coingeckoDemoURL) = coingeckoDemoURL)
    by (destruct (_ && _ && _); reflexivity).
  rewrite Hurl. split; [reflexivity|]. split; [discriminate|]. split; [reflexivity|].
  split; [reflexivity|].
  intros env tokenID currency.
  match goal with
  | |- ?a = ?b /\ _ => assert (Hsent : a = b)
  end.
  { rewrite GetPrice_miss
      by (intros c Hc; cbn [prices] in Hc; rewrite lookup_empty in Hc; discriminate).
    cbn [prices]. rewrite lookup_empty.
    pose proof (fetchFromCoinGecko_snd env
                  {| prices := ∅; ticks := 0; sent := []; logged := [] |}
                  tokenID currency) as Hsnd.
    destruct (url_Parse_ok (singleURL coingeckoDemoURL currency tokenID));
    destruct (fetchFromCoinGecko tokenID currency env _) as [[p|e] w1];
      cbn [fst snd] in *; subst w1; reflexivity. }
  split; [exact Hsent|].
  intros Hc Ht. rewrite Hsent, (singleURL_plain _ _ Hc Ht). reflexivity.
Qed.

Lemma NewPriceCache_demo_witness :
  (plainText "usd" = true /\ plainText "bitcoin" = true)
  /\ sent (snd (GetPrice "bitcoin" "usd" (offlineAt 0) (snd (NewPriceCache "CG-0123456789"))))
     = [singleRequest "bitcoin" "usd"]
  /\ sent (snd (GetPrice lineFeed "usd" (offlineAt 0) (snd (NewPriceCache "CG-0123456789"))))
     = [].
Proof.
  split; [split; reflexivity|].
  destruct (NewPriceCache_demo "CG-0123456789") as (_ & _ & _ & _ & Hfirst).
  split.
  - destruct (Hfirst (offlineAt 0) "bitcoin" "usd") as (_ & Hplain).
    exact (Hplain eq_refl eq_refl).
  - destruct (Hfirst (offlineAt 0) lineFeed "usd") as (Hsent & _). exact Hsent.
Defined.

(** ** The exchange loop on any slice *)

(** The exchange loop on any slice. *)

Lemma exchangeIfGreater_any (a : list MarketAsset) (i j : nat) :
  (i < length a)%nat -> (j < length a)%nat ->
  exists a', exchangeIfGreater i j a = Some a' /\ a' ≡ₚ a /\ length a' = length a.
Proof.
  intros Hi Hj.
  destruct (lookup_lt_is_Some_2 a i Hi) as [ai Hai].
  destruct (lookup_lt_is_Some_2 a j Hj) as [aj Haj].
  unfold exchangeIfGreater. rewrite Haj, Hai. cbn.
  destruct (F64.gtb (ma_Score aj) (ma_Score ai)).
  - eexists. split; [reflexivity|]. split.
    + apply exchange_Permutation; assumption.
    + rewrite !length_insert. reflexivity.
  - eauto.
Qed.

Lemma innerLoop_any (a : list MarketAsset) (i : nat) :
  (i < length a)%nat ->
  exists a', innerLoop i a = Some a' /\ a' ≡ₚ a /\ length a' = length a.
Proof.
  intros Hi. unfold innerLoop.
  pose proof (foldl_seq_invariant
                (fun acc j => acc ≫= exchangeIfGreater i j)
                (fun _ acc => exists a', acc = Some a' /\ a' ≡ₚ a /\ length a' = length a)
                (length a - (i + 1)) (i + 1) (Some a)) as H.
  apply H.
  - eauto.
  - intros j acc Hj (a1 & -> & Hperm & Hlen). cbn.
    destruct (exchangeIfGreater_any a1 i j) as (a2 & -> & Hperm2 & Hlen2); [lia..|].
    exists a2. split; [reflexivity|]. split; [etrans; eassumption|lia].
Qed.

(** X19: on every slice, whatever the scores (a NaN included), the two loops
    of [handleMarkets] never index out of range and return a permutation of
    the slice, of the same length. *)
Theorem sortByScore_permutes (assets : list MarketAsset) :
  exists sorted, sortByScore assets = Some sorted
                 /\ sorted ≡ₚ assets /\ length sorted = length assets.
Proof.
  unfold sortByScore.
  pose proof (foldl_seq_invariant
                (fun acc i => acc ≫= innerLoop i)
                (fun _ acc => exists a', acc = Some a' /\ a' ≡ₚ assets
                                         /\ length a' = length assets)
                (length assets - 1) 0 (Some assets)) as H.
  apply H.
  - eauto.
  - intros i acc Hi (a1 & -> & Hperm & Hlen). cbn.
    destruct (innerLoop_any a1 i) as (a2 & -> & Hperm2 & Hlen2); [lia|].
    exists a2. split; [reflexivity|]. split; [etrans; eassumption|lia].
Qed.

Lemma StronglySorted_lookup {A : Type} (R : A -> A -> Prop) (l : list A) :
  StronglySorted R l ->
  forall i j x y, (i < j)%nat -> l !! i = Some x -> l !! j = Some y -> R x y.
Proof.
  induction 1 as [|a l Hs IH Hall]; intros i j x y Hij Hx Hy.
  - rewrite lookup_nil in Hx. discriminate.
  - destruct j as [|j]; [lia|]. destruct i as [|i].
    + injection Hx as <-. rewrite Forall_lookup in Hall. exact (Hall j y Hy).
    + apply (IH i j); [lia|assumption..].
Qed.

(** X20: a slice already in descending order of score is left as it is: no
    exchange takes place, so assets of equal score keep their places. *)
Theorem sortByScore_sorted_fixpoint (assets : list MarketAsset) :
  StronglySorted byScoreDesc assets -> sortByScore assets = Some assets.
Proof.
  intros Hsorted. pose proof (StronglySorted_lookup _ _ Hsorted) as Hlk.
  unfold sortByScore.
  apply (foldl_seq_invariant (fun acc i => acc ≫= innerLoop i)
           (fun _ acc => acc = Some assets) (length assets - 1) 0 (Some assets));
    [reflexivity|].
  intros i acc Hi ->. cbn. unfold innerLoop.
  apply (foldl_seq_invariant (fun acc j => acc ≫= exchangeIfGreater i j)
           (fun _ acc => acc = Some assets) (length assets - (i + 1)) (i + 1) (Some assets));
    [reflexivity|].
  intros j acc Hj ->. cbn.
  destruct (lookup_lt_is_Some_2 assets i) as [ai Hai]; [lia|].
  destruct (lookup_lt_is_Some_2 assets j) as [aj Haj]; [lia|].
  unfold exchangeIfGreater. rewrite Haj, Hai. cbn.
  rewrite (geb_not_gtb _ _ (Hlk i j ai aj ltac:(lia) Hai Haj)). reflexivity.
Qed.


Lemma sortByScore_sorted_fixpoint_witness :
  StronglySorted byScoreDesc (buildAsset stakingDataCache <$> reverse fetched)
  /\ sortByScore (buildAsset stakingDataCache <$> reverse fetched)
     = Some (buildAsset stakingDataCache <$> reverse fetched).
Proof.
  assert (H : StronglySorted byScoreDesc (buildAsset stakingDataCache <$> reverse fetched))
    by (repeat constructor; vm_compute; reflexivity).
  split; [exact H|].
  exact (sortByScore_sorted_fixpoint _ H).
Defined.

(** ** The assets of the listing *)

Lemma calculateScore_with_entry (price : CoinGeckoPrice) (st : StakingData) :
  exists z, F64.toZ (fst (calculateScore price (Some st))) = Some z /\ 27 <= z <= 100.
Proof.
  pose proof (all_brackets stakingGainOK ltac:(vm_compute; reflexivity) price (Some st)) as H.
  pose proof (all_brackets sumOK ltac:(vm_compute; reflexivity) price None) as H0.
  pose proof (all_brackets sumOK ltac:(vm_compute; reflexivity) price (Some st)) as H1.
  destruct (stakingScore_some_range st) as (zs & Hzs & Hrange).
  unfold calculateScore.
  cbn [fst snd MarketScore StakingScore SecurityScore AdoptionScore TechScore]. cbv zeta.
  unfold stakingGainOK in H. rewrite Hzs in H.
  change (stakingScore None) with F64.zero in *.
  unfold sumOK in H0, H1. rewrite Hzs in H1.
  repeat match type of H0 with
         | match ?x with _ => _ end = true => destruct x eqn:?; [|discriminate H0]
         end.
  repeat match type of H with
         | match ?x with _ => _ end = true => destruct x eqn:?; [|discriminate H]
         end.
  repeat match type of H1 with
         | match ?x with _ => _ end = true => destruct x eqn:?; [|discriminate H1]
         end.
  apply andb_prop in H as [Ha Hb]. apply Z.eqb_eq in Ha.
  apply andb_prop in H0 as [H0 _]. apply andb_prop in H0 as [_ Hc]. apply Z.leb_le in Hc.
  apply andb_prop in H1 as [_ Hd]. apply Z.leb_le in Hd.
  simplify_eq. eexists. split; [reflexivity|]. lia.
Qed.

Lemma calculateScore_without_entry (price : CoinGeckoPrice) :
  exists z, F64.toZ (fst (calculateScore price None)) = Some z /\ 22 <= z <= 75.
Proof.
  pose proof (all_brackets stakingGainOK ltac:(vm_compute; reflexivity) price None) as H.
  pose proof (all_brackets sumOK ltac:(vm_compute; reflexivity) price None) as H0.
  unfold calculateScore.
  cbn [fst snd MarketScore StakingScore SecurityScore AdoptionScore TechScore]. cbv zeta.
  unfold stakingGainOK in H. change (stakingScore None) with F64.zero in *.
  unfold sumOK in H0.
  repeat match type of H0 with
         | match ?x with _ => _ end = true => destruct x eqn:?; [|discriminate H0]
         end.
  repeat match type of H with
         | match ?x with _ => _ end = true => destruct x eqn:?; [|discriminate H]
         end.
  apply andb_prop in H as [_ Hb]. apply Z.leb_le in Hb.
  apply andb_prop in H0 as [H0 _]. apply andb_prop in H0 as [_ Hc]. apply Z.leb_le in Hc.
  simplify_eq. eexists. split; [reflexivity|]. lia.
Qed.

(** X23: an asset whose identifier is not in the static table is listed
    without a staking block, with the Staking score 0 and a total between 22
    and 75; an asset whose identifier is in the table is listed with a
    staking block that carries the yield, stake ratio, fee, minimum stake and
    unbonding period of the table entry, and with a total between 27 and
    100. *)
Theorem buildAsset_staking (table : gmap string StakingData) (p : CoinGeckoPrice) :
  let asset := buildAsset table p in
  ma_ID asset = cg_ID p
  /\ (table !! cg_ID p = None ->
      ma_Staking asset = None
      /\ StakingScore (ma_ScoreBreakdown asset) = F64.zero
      /\ exists z, F64.toZ (ma_Score asset) = Some z /\ 22 <= z <= 75)
  /\ (forall st, table !! cg_ID p = Some st ->
      (exists block, ma_Staking asset = Some block
         /\ sd_APY block = sd_APY st /\ sd_StakingRatio block = sd_StakingRatio st
         /\ sd_ValidatorFee block = sd_ValidatorFee st /\ sd_MinStake block = sd_MinStake st
         /\ sd_UnbondingDays block = sd_UnbondingDays st)
      /\ exists z, F64.toZ (ma_Score asset) = Some z /\ 27 <= z <= 100).
Proof.
  cbv zeta. unfold buildAsset.
  destruct (table !! cg_ID p) as [st|] eqn:Hst.
  - pose proof (calculateScore_with_entry p st) as Hz.
    destruct (calculateScore p (Some st)) as [score breakdown] eqn:Hcs. cbn [fst] in Hz.
    cbn. split; [reflexivity|]. split; [discriminate|].
    intros st' [= <-]. split; [|exact Hz].
    eexists. split; [reflexivity|]. repeat split.
  - pose proof (calculateScore_without_entry p) as Hz.
    assert (Hs : StakingScore (snd (calculateScore p None)) = F64.zero) by reflexivity.
    destruct (calculateScore p None) as [score breakdown] eqn:Hcs. cbn [fst snd] in Hz, Hs.
    cbn. split; [reflexivity|]. split; [|discriminate].
    intros _. split; [reflexivity|]. split; [exact Hs|exact Hz].
Qed.

Lemma buildAsset_staking_witness :
  (stakingDataCache !! cg_ID cosmosRecord = Some cosmosEntry)
  /\ exists z, F64.toZ (ma_Score (buildAsset stakingDataCache cosmosRecord)) = Some z
               /\ 27 <= z <= 100.
Proof.
  assert (H : stakingDataCache !! cg_ID cosmosRecord = Some cosmosEntry)
    by (vm_compute; reflexivity).
  split; [exact H|].
  destruct (buildAsset_staking stakingDataCache cosmosRecord) as (_ & _ & Hlisted).
  destruct (Hlisted cosmosEntry H) as (_ & Hz). exact Hz.
Defined.
